(** * EduTrack: the enrollment, course and student services

    A shallow embedding of the three FastAPI services of EduTrack
    ([enrollment-service/main.py], [course-service/main.py] and
    [student-service/main.py]) and the properties their specification
    states about them.

    The relational datastore is modelled as lists of rows, one list per
    table; a request handler is a computation in a small monad that threads
    the connection (committed rows, rows pending in the open transaction, a
    statement counter) and raises Python exceptions.  A datastore failure is
    injected by the environment at a chosen statement. *)

From Stdlib Require Import ZArith Ascii String Sorted.
From stdpp Require Import base strings list gmap pretty.

Local Open Scope string_scope.
Local Open Scope list_scope.
Local Open Scope Z_scope.

(** ** Tables

    The schema is not part of the services' sources; the columns are the ones
    the handlers read and write.  Integer columns are unbounded [Z], a
    timestamp is a number of microseconds. *)

Record Student := mkStudent {
  s_student_id : Z;
  s_name : string;
  s_email : string;
  s_phone : option string;
  s_registration_date : Z
}.

Record Course := mkCourse {
  c_course_id : Z;
  c_course_code : string;
  c_course_name : string;
  c_description : option string;
  c_credits : Z;
  c_instructor : option string;
  c_max_capacity : Z;
  c_current_enrollment : Z;
  c_status : string
}.

Record Enrollment := mkEnrollment {
  e_enrollment_id : Z;
  e_student_id : Z;
  e_course_id : Z;
  e_enrollment_date : Z;
  e_grade : option string;
  e_status : string
}.

Record Admin := mkAdmin {
  a_username : string;
  a_password_hash : string
}.

Record DB := mkDB {
  students : list Student;
  courses : list Course;
  enrollments : list Enrollment;
  admins : list Admin
}.

Definition set_courses (f : list Course → list Course) (db : DB) : DB :=
  mkDB (students db) (f (courses db)) (enrollments db) (admins db).

Definition set_enrollments (f : list Enrollment → list Enrollment) (db : DB) : DB :=
  mkDB (students db) (courses db) (f (enrollments db)) (admins db).

Definition set_students (f : list Student → list Student) (db : DB) : DB :=
  mkDB (f (students db)) (courses db) (enrollments db) (admins db).

Definition set_current_enrollment (n : Z) (c : Course) : Course :=
  mkCourse (c_course_id c) (c_course_code c) (c_course_name c) (c_description c)
    (c_credits c) (c_instructor c) (c_max_capacity c) n (c_status c).

Definition set_grade (g : option string) (e : Enrollment) : Enrollment :=
  mkEnrollment (e_enrollment_id e) (e_student_id e) (e_course_id e)
    (e_enrollment_date e) g (e_status e).

Definition set_status (s : string) (e : Enrollment) : Enrollment :=
  mkEnrollment (e_enrollment_id e) (e_student_id e) (e_course_id e)
    (e_enrollment_date e) (e_grade e) s.

(** ** Exceptions

    The exceptions the handlers raise or meet, and the classes an [except]
    clause can name.  [psycopg.OperationalError] is a subclass of
    [psycopg.DatabaseError]. *)

Inductive exn :=
| HTTPException (status_code : Z) (detail : string)
| DatabaseError (msg : string)
| OperationalError (msg : string)
| NameError (name : string)
| ValueError (msg : string).

Inductive exn_class :=
| HTTPException_cls
| DatabaseError_cls
| OperationalError_cls
| Exception_cls.

Definition isinstance (e : exn) (c : exn_class) : bool :=
  match c, e with
  | Exception_cls, _ => true
  | HTTPException_cls, HTTPException _ _ => true
  | DatabaseError_cls, (DatabaseError _ | OperationalError _) => true
  | OperationalError_cls, OperationalError _ => true
  | _, _ => false
  end.

(** [str(e)] of a driver exception is its message. *)
Definition str_exn (e : exn) : string :=
  match e with
  | HTTPException _ d => d
  | DatabaseError m | OperationalError m => m
  | NameError n => "name '" +:+ n +:+ "' is not defined"
  | ValueError m => m
  end.

Definition HTTP_400_BAD_REQUEST : Z := 400.
Definition HTTP_401_UNAUTHORIZED : Z := 401.
Definition HTTP_404_NOT_FOUND : Z := 404.
Definition HTTP_500_INTERNAL_SERVER_ERROR : Z := 500.
Definition HTTP_503_SERVICE_UNAVAILABLE : Z := 503.

(** ** The request monad *)

Inductive outcome (A : Type) :=
| Return (a : A)
| Raise (e : exn).
Arguments Return {A} a.
Arguments Raise {A} e.

(** A failure of the datastore: the statement (counted from 0) at which it
    raises, and whether it raises [OperationalError] or another
    [DatabaseError]. *)
Record Fault := mkFault {
  at_statement : nat;
  operational : bool;
  fault_message : string
}.

Definition fault_exn (f : Fault) : exn :=
  if operational f then OperationalError (fault_message f)
  else DatabaseError (fault_message f).

(** What the environment decides for one request: whether the datastore
    accepts the connection, the failure of the datastore if any, the clock,
    the identity the datastore assigns to a row inserted into [enrollments],
    the defaults its schema gives the columns [grade] and [status] of that
    row, and the string [secrets.token_urlsafe(32)] draws. *)
Record Env := mkEnv {
  reachable : bool;
  fault : option Fault;
  now : Z;
  new_enrollment_id : Z;
  default_grade : option string;
  default_status : string;
  token_urlsafe : string
}.

(** The connection of a request: the committed rows, the rows as the open
    transaction sees them, and the number of statements executed so far. *)
Record Conn := mkConn {
  committed : DB;
  pending : DB;
  executed : nat
}.

Definition M (A : Type) : Type := Env → Conn → outcome A * Conn.

#[export] Instance M_ret : MRet M := λ A a _ st, (Return a, st).

#[export] Instance M_bind : MBind M := λ A B f m env st,
  match m env st with
  | (Return a, st') => f a env st'
  | (Raise e, st') => (Raise e, st')
  end.

Definition raise {A} (e : exn) : M A := λ _ st, (Raise e, st).

Definition ask : M Env := λ env st, (Return env, st).

Definition when_ (b : bool) (m : M unit) : M unit :=
  if b then m else mret ().

(** The statement the datastore fails at raises the injected exception and
    has no effect. *)
Definition faulty (env : Env) (st : Conn) : option exn :=
  match fault env with
  | Some f => if Nat.eqb (at_statement f) (executed st) then Some (fault_exn f) else None
  | None => None
  end.

(** [cursor.execute] of one statement, given as a function from the rows the
    transaction sees to a result (or an integrity error) and the rows after. *)
Definition execute {A} (stmt : DB → outcome A * DB) : M A := λ env st,
  match faulty env st with
  | Some e => (Raise e, st)
  | None =>
      let '(r, db') := stmt (pending st) in
      (r, mkConn (committed st) db' (S (executed st)))
  end.

Definition select {A} (q : DB → A) : DB → outcome A * DB :=
  λ db, (Return (q db), db).

Definition update (f : DB → DB) : DB → outcome () * DB :=
  λ db, (Return (), f db).

(** [conn.commit()] *)
Definition commit : M () := λ env st,
  match faulty env st with
  | Some e => (Raise e, st)
  | None => (Return (), mkConn (pending st) (pending st) (S (executed st)))
  end.

(** [cursor.close()] *)
Definition cursor_close : M () := mret ().

(** [conn.close()]: what was not committed is rolled back. *)
Definition conn_close : M () := λ _ st,
  (Return (), mkConn (committed st) (committed st) (executed st)).

(** A module's global names that denote exception classes. *)
Definition globals := list (string * exn_class).

Fixpoint lookup_name (g : globals) (name : string) : option exn_class :=
  match g with
  | [] => None
  | (n, c) :: g' => if String.eqb n name then Some c else lookup_name g' name
  end.

(** The [except] clauses of a [try] statement, tried in order.  The class
    expression of a clause is evaluated when the clause is reached: a name
    the module does not bind raises [NameError] in place of the exception
    being handled. *)
Fixpoint handle {A} (g : globals) (clauses : list (string * (exn → M A)))
    (e : exn) : M A :=
  match clauses with
  | [] => raise e
  | (name, h) :: rest =>
      match lookup_name g name with
      | None => raise (NameError name)
      | Some cls => if isinstance e cls then h e else handle g rest e
      end
  end.

Definition try_except {A} (g : globals) (body : M A)
    (clauses : list (string * (exn → M A))) : M A := λ env st,
  match body env st with
  | (Return a, st') => (Return a, st')
  | (Raise e, st') => handle g clauses e env st'
  end.

(** A request runs on a connection of its own; what it leaves behind is what
    it committed. *)
Definition run {A} (h : M A) (env : Env) (db : DB) : outcome A * DB :=
  let '(r, st) := h env (mkConn db db 0) in (r, committed st).

(** ** Queries shared by the services *)

Definition fetchone {A} (rows : list A) : option A := head rows.

Definition truthy {A} (row : option A) : bool :=
  match row with Some _ => true | None => false end.

(** [ORDER BY]: a stable insertion sort; [before x y] says that [x] may
    stand before [y]. *)
Fixpoint insert_by {A} (before : A → A → bool) (x : A) (l : list A) : list A :=
  match l with
  | [] => [x]
  | y :: l' => if before x y then x :: l else y :: insert_by before x l'
  end.

Definition sort_by {A} (before : A → A → bool) (l : list A) : list A :=
  foldr (insert_by before) [] l.

(** [ORDER BY key DESC] on a timestamp *)
Definition order_by_desc {A} (key : A → Z) : list A → list A :=
  sort_by (λ x y, key y <=? key x).

(** [ORDER BY key] on a text column, compared byte by byte *)
Definition order_by_text {A} (key : A → string) : list A → list A :=
  sort_by (λ x y, String.leb (key x) (key y)).

Definition students_by_id (student_id : Z) (db : DB) : list Student :=
  filter (λ s, s_student_id s = student_id) (students db).

Definition courses_by_id (course_id : Z) (db : DB) : list Course :=
  filter (λ c, c_course_id c = course_id) (courses db).

Definition enrollments_by_id (enrollment_id : Z) (db : DB) : list Enrollment :=
  filter (λ e, e_enrollment_id e = enrollment_id) (enrollments db).

Definition enrollments_by_pair (student_id course_id : Z) (db : DB) : list Enrollment :=
  filter (λ e, e_student_id e = student_id ∧ e_course_id e = course_id) (enrollments db).

(** [get_db_connection], the same in the three services: a refused
    connection is reported as a 500. *)
Definition psycopg_connect : M () := λ env st,
  if reachable env then (Return (), st)
  else (Raise (OperationalError "connection failed"), st).

Definition get_db_connection (g : globals) : M () :=
  try_except g psycopg_connect
    [("OperationalError",
      λ _, raise (HTTPException HTTP_500_INTERNAL_SERVER_ERROR "Database connection failed"))].

(** The two clauses most handlers end with:
    [except HTTPException: raise] and
    [except DatabaseError as e: raise HTTPException(500, ...)]. *)
Definition reraise {A} : exn → M A := raise.

Definition database_error_500 {A} (e : exn) : M A :=
  raise (HTTPException HTTP_500_INTERNAL_SERVER_ERROR ("Database error: " +:+ str_exn e)).

(** [str(e)] in a handler that catches [Exception]: the message of a driver
    exception, and for an [HTTPException] what the framework's class makes of
    its status code and detail, [render]. *)
Definition str_exception (render : Z → string → string) (e : exn) : string :=
  match e with
  | HTTPException c d => render c d
  | _ => str_exn e
  end.

(** [health_check], the same in the three services but for the name it
    reports: connect, [SELECT 1], and any exception answered as a 503. *)
Definition health_check_of (service : string) (g : globals)
    (render : Z → string → string) : M (string * string) :=
  try_except g
    (get_db_connection g;;
     execute (select (λ _, 1));;
     cursor_close;; conn_close;;
     mret ("healthy", service))
    [("Exception",
      λ e, raise (HTTPException HTTP_503_SERVICE_UNAVAILABLE
                    ("Service unhealthy: " +:+ str_exception render e)))].

(** ** enrollment-service/main.py *)

Module EnrollmentService.

(** The exception classes the module imports, and the builtin one. *)
Definition module_globals : globals :=
  [("HTTPException", HTTPException_cls);
   ("OperationalError", OperationalError_cls);
   ("DatabaseError", DatabaseError_cls);
   ("Exception", Exception_cls)].

Record EnrollmentCreate := mkEnrollmentCreate {
  ec_student_id : Z;
  ec_course_id : Z
}.

Record EnrollmentUpdate := mkEnrollmentUpdate {
  eu_grade : option string;
  eu_status : option string
}.

(** A row of [SELECT e.*, s.name as student_name, s.email as student_email,
    c.course_code, c.course_name, c.credits]. *)
Record EnrollmentDetail := mkEnrollmentDetail {
  d_enrollment : Enrollment;
  d_student_name : string;
  d_student_email : string;
  d_course_code : string;
  d_course_name : string;
  d_credits : Z
}.

(** [FROM enrollments e JOIN students s ON e.student_id = s.student_id
    JOIN courses c ON e.course_id = c.course_id] *)
Definition enrollment_details (db : DB) : list EnrollmentDetail :=
  e ← enrollments db;
  s ← students_by_id (e_student_id e) db;
  c ← courses_by_id (e_course_id e) db;
  [mkEnrollmentDetail e (s_name s) (s_email s)
     (c_course_code c) (c_course_name c) (c_credits c)].

Definition enrollment_detail_by_id (enrollment_id : Z) (db : DB) : list EnrollmentDetail :=
  filter (λ d, e_enrollment_id (d_enrollment d) = enrollment_id) (enrollment_details db).

Record Response := mkResponse {
  message : string;
  enrollment : option EnrollmentDetail
}.

Definition get_enrollments : M (list EnrollmentDetail) :=
  try_except module_globals
    (get_db_connection module_globals;;
     enrollments ← execute (select (λ db,
       order_by_desc (λ d, e_enrollment_date (d_enrollment d)) (enrollment_details db)));
     cursor_close;; conn_close;;
     mret enrollments)
    [("DatabaseError", database_error_500)].

Definition get_enrollment (enrollment_id : Z) : M EnrollmentDetail :=
  try_except module_globals
    (get_db_connection module_globals;;
     enrollment ← execute (select (λ db, fetchone (enrollment_detail_by_id enrollment_id db)));
     cursor_close;; conn_close;;
     match enrollment with
     | None => raise (HTTPException HTTP_404_NOT_FOUND
                        ("Enrollment with ID " +:+ pretty enrollment_id +:+ " not found"))
     | Some enrollment => mret enrollment
     end)
    [("HTTPException", reraise); ("DatabaseError", database_error_500)].

(** The reads and checks of [create_enrollment], up to the last [raise]
    before the insert. *)
Definition create_enrollment_checks (enrollment : EnrollmentCreate) : M () :=
  student ← execute (select (λ db, fetchone (students_by_id (ec_student_id enrollment) db)));
  when_ (negb (truthy student))
    (cursor_close;; conn_close;;
     raise (HTTPException HTTP_404_NOT_FOUND
              ("Student with ID " +:+ pretty (ec_student_id enrollment) +:+ " not found")));;
  course ← execute (select (λ db, fetchone (courses_by_id (ec_course_id enrollment) db)));
  match course with
  | None =>
      cursor_close;; conn_close;;
      raise (HTTPException HTTP_404_NOT_FOUND
               ("Course with ID " +:+ pretty (ec_course_id enrollment) +:+ " not found"))
  | Some course =>
      when_ (bool_decide (c_status course ≠ "active"))
        (cursor_close;; conn_close;;
         raise (HTTPException HTTP_400_BAD_REQUEST "Course is not active"));;
      when_ (c_current_enrollment course >=? c_max_capacity course)%Z
        (cursor_close;; conn_close;;
         raise (HTTPException HTTP_400_BAD_REQUEST "Course is full"));;
      existing ← execute (select (λ db,
        fetchone (enrollments_by_pair (ec_student_id enrollment) (ec_course_id enrollment) db)));
      when_ (truthy existing)
        (cursor_close;; conn_close;;
         raise (HTTPException HTTP_400_BAD_REQUEST "Student is already enrolled in this course"))
  end.

(** [INSERT INTO enrollments (student_id, course_id) VALUES (%s, %s)
    RETURNING enrollment_id]: the other columns take the defaults of the
    schema, the identity is the one the datastore assigns; an identity
    already in the table violates the primary key. *)
Definition insert_enrollment (env : Env) (student_id course_id : Z)
    (db : DB) : outcome Z * DB :=
  let id := new_enrollment_id env in
  if bool_decide (enrollments_by_id id db = []) then
    (Return id,
     set_enrollments
       (λ l, l ++ [mkEnrollment id student_id course_id (now env)
                     (default_grade env) (default_status env)]) db)
  else
    (Raise (DatabaseError "duplicate key value violates unique constraint"), db).

(** [UPDATE courses SET current_enrollment = current_enrollment + 1
    WHERE course_id = %s] *)
Definition increment_enrollment (course_id : Z) (db : DB) : DB :=
  set_courses (map (λ c,
    if bool_decide (c_course_id c = course_id)
    then set_current_enrollment (c_current_enrollment c + 1) c else c)) db.

(** The insert, the increment and the commit of [create_enrollment]. *)
Definition create_enrollment_writes (enrollment : EnrollmentCreate) : M Z :=
  env ← ask;
  enrollment_id ← execute
    (insert_enrollment env (ec_student_id enrollment) (ec_course_id enrollment));
  execute (update (increment_enrollment (ec_course_id enrollment)));;
  commit;;
  mret enrollment_id.

(** The read that follows the commit, and the response. *)
Definition create_enrollment_response (enrollment_id : Z) : M Response :=
  new_enrollment ← execute (select (λ db, fetchone (enrollment_detail_by_id enrollment_id db)));
  cursor_close;; conn_close;;
  mret (mkResponse "Enrollment created successfully" new_enrollment).

Definition create_enrollment (enrollment : EnrollmentCreate) : M Response :=
  try_except module_globals
    (get_db_connection module_globals;;
     create_enrollment_checks enrollment;;
     enrollment_id ← create_enrollment_writes enrollment;
     create_enrollment_response enrollment_id)
    [("HTTPException", reraise); ("DatabaseError", database_error_500)].

(** An entry of [update_fields] with its value: one assignment of the [SET]
    clause. *)
Inductive assignment :=
| SetGrade (grade : string)
| SetStatus (status : string).

Definition assign (a : assignment) (e : Enrollment) : Enrollment :=
  match a with
  | SetGrade g => set_grade (Some g) e
  | SetStatus s => set_status s e
  end.

(** [UPDATE enrollments SET ... WHERE enrollment_id = %s] *)
Definition update_enrollment_row (update_fields : list assignment)
    (enrollment_id : Z) (db : DB) : DB :=
  set_enrollments (map (λ e,
    if bool_decide (e_enrollment_id e = enrollment_id)
    then foldl (λ e a, assign a e) e update_fields else e)) db.

Definition update_enrollment (enrollment_id : Z) (enrollment : EnrollmentUpdate) : M Response :=
  try_except module_globals
    (get_db_connection module_globals;;
     existing ← execute (select (λ db, fetchone (enrollments_by_id enrollment_id db)));
     when_ (negb (truthy existing))
       (cursor_close;; conn_close;;
        raise (HTTPException HTTP_404_NOT_FOUND
                 ("Enrollment with ID " +:+ pretty enrollment_id +:+ " not found")));;
     let update_fields := [] in
     let update_fields :=
       match eu_grade enrollment with
       | Some g => update_fields ++ [SetGrade g]
       | None => update_fields
       end in
     let update_fields :=
       match eu_status enrollment with
       | Some s => update_fields ++ [SetStatus s]
       | None => update_fields
       end in
     when_ (bool_decide (update_fields = []))
       (raise (HTTPException HTTP_400_BAD_REQUEST "No fields to update"));;
     execute (update (update_enrollment_row update_fields enrollment_id));;
     commit;;
     updated_enrollment ← execute (select (λ db,
       fetchone (enrollment_detail_by_id enrollment_id db)));
     cursor_close;; conn_close;;
     mret (mkResponse "Enrollment updated successfully" updated_enrollment))
    [("HTTPException", reraise); ("DatabaseError", database_error_500)].

(** [DELETE FROM enrollments WHERE enrollment_id = %s] *)
Definition delete_enrollment_row (enrollment_id : Z) (db : DB) : DB :=
  set_enrollments (filter (λ e, e_enrollment_id e ≠ enrollment_id)) db.

(** [UPDATE courses SET current_enrollment = GREATEST(current_enrollment - 1, 0)
    WHERE course_id = %s] *)
Definition decrement_enrollment (course_id : Z) (db : DB) : DB :=
  set_courses (map (λ c,
    if bool_decide (c_course_id c = course_id)
    then set_current_enrollment (Z.max (c_current_enrollment c - 1) 0) c else c)) db.

Definition delete_enrollment (enrollment_id : Z) : M string :=
  try_except module_globals
    (get_db_connection module_globals;;
     enrollment ← execute (select (λ db, fetchone (enrollments_by_id enrollment_id db)));
     match enrollment with
     | None =>
         cursor_close;; conn_close;;
         raise (HTTPException HTTP_404_NOT_FOUND
                  ("Enrollment with ID " +:+ pretty enrollment_id +:+ " not found"))
     | Some enrollment =>
         execute (update (delete_enrollment_row enrollment_id));;
         execute (update (decrement_enrollment (e_course_id enrollment)));;
         commit;;
         cursor_close;; conn_close;;
         mret ("Enrollment " +:+ pretty enrollment_id +:+ " deleted successfully")
     end)
    [("HTTPException", reraise); ("DatabaseError", database_error_500)].

(** A row of [SELECT e.*, c.course_code, c.course_name, c.credits,
    c.instructor]. *)
Record StudentEnrollment := mkStudentEnrollment {
  se_enrollment : Enrollment;
  se_course_code : string;
  se_course_name : string;
  se_credits : Z;
  se_instructor : option string
}.

Definition student_enrollments (student_id : Z) (db : DB) : list StudentEnrollment :=
  order_by_desc (λ r, e_enrollment_date (se_enrollment r))
    (e ← filter (λ e, e_student_id e = student_id) (enrollments db);
     c ← courses_by_id (e_course_id e) db;
     [mkStudentEnrollment e (c_course_code c) (c_course_name c) (c_credits c)
        (c_instructor c)]).

Definition get_enrollments_by_student (student_id : Z) : M (list StudentEnrollment) :=
  try_except module_globals
    (get_db_connection module_globals;;
     student ← execute (select (λ db, fetchone (students_by_id student_id db)));
     when_ (negb (truthy student))
       (cursor_close;; conn_close;;
        raise (HTTPException HTTP_404_NOT_FOUND
                 ("Student with ID " +:+ pretty student_id +:+ " not found")));;
     enrollments ← execute (select (student_enrollments student_id));
     cursor_close;; conn_close;;
     mret enrollments)
    [("HTTPException", reraise); ("DatabaseError", database_error_500)].

(** A row of [SELECT e.*, s.name as student_name, s.email as student_email,
    s.phone as student_phone]. *)
Record CourseEnrollment := mkCourseEnrollment {
  ce_enrollment : Enrollment;
  ce_student_name : string;
  ce_student_email : string;
  ce_student_phone : option string
}.

Definition course_enrollments (course_id : Z) (db : DB) : list CourseEnrollment :=
  order_by_desc (λ r, e_enrollment_date (ce_enrollment r))
    (e ← filter (λ e, e_course_id e = course_id) (enrollments db);
     s ← students_by_id (e_student_id e) db;
     [mkCourseEnrollment e (s_name s) (s_email s) (s_phone s)]).

Definition get_enrollments_by_course (course_id : Z) : M (list CourseEnrollment) :=
  try_except module_globals
    (get_db_connection module_globals;;
     course ← execute (select (λ db, fetchone (courses_by_id course_id db)));
     when_ (negb (truthy course))
       (cursor_close;; conn_close;;
        raise (HTTPException HTTP_404_NOT_FOUND
                 ("Course with ID " +:+ pretty course_id +:+ " not found")));;
     enrollments ← execute (select (course_enrollments course_id));
     cursor_close;; conn_close;;
     mret enrollments)
    [("HTTPException", reraise); ("DatabaseError", database_error_500)].

Definition health_check : (Z → string → string) → M (string * string) :=
  health_check_of "enrollment-service" module_globals.

End EnrollmentService.

(** ** course-service/main.py *)

Module CourseService.

Definition module_globals : globals :=
  [("HTTPException", HTTPException_cls);
   ("OperationalError", OperationalError_cls);
   ("DatabaseError", DatabaseError_cls);
   ("Exception", Exception_cls)].

(** A value of [active_tokens]. *)
Record Session := mkSession {
  username : string;
  expires_at : Z
}.

Record AdminLogin := mkAdminLogin {
  al_username : string;
  al_password : string
}.

Record LoginResponse := mkLoginResponse {
  lr_message : string;
  lr_token : string;
  lr_expires_at : Z;
  lr_username : string
}.

(** [timedelta(hours=h)], in microseconds *)
Definition timedelta_hours (h : Z) : Z := h * 3600 * 1000000.

(** [s.replace(old, new)] for a non-empty [old]: every occurrence, left to
    right, without overlap.  [skip] counts the characters of a matched
    occurrence still to drop. *)
Fixpoint replace_go (old new : string) (skip : nat) (s : string) : string :=
  match s with
  | EmptyString => EmptyString
  | String c s' =>
      match skip with
      | S k => replace_go old new k s'
      | O =>
          if String.prefix old s
          then new +:+ replace_go old new (String.length old - 1) s'
          else String c (replace_go old new 0 s')
      end
  end.

Definition str_replace (old new s : string) : string := replace_go old new 0 s.

Definition unauthorized {A} (detail : string) : outcome A :=
  Raise (HTTPException HTTP_401_UNAUTHORIZED detail).

(** The dependency of the admin routes.  It reads the clock and the token
    table, and deletes an expired token before rejecting it. *)
Definition verify_admin_token (authorization : option string) (now : Z)
    (active_tokens : gmap string Session) : outcome string * gmap string Session :=
  match authorization with
  | None | Some EmptyString =>
      (unauthorized "Authorization header missing", active_tokens)
  | Some authorization =>
      if negb (String.prefix "Bearer " authorization) then
        (unauthorized "Invalid authorization header format", active_tokens)
      else
        let token := str_replace "Bearer " "" authorization in
        match active_tokens !! token with
        | None => (unauthorized "Invalid or expired token", active_tokens)
        | Some session =>
            if expires_at session <? now then
              (unauthorized "Token expired", delete token active_tokens)
            else
              (Return (username session), active_tokens)
        end
  end.

Section Login.

(** [bcrypt.checkpw], applied to the password and the stored hash: [Some]
    of its answer, or [None] when it raises [ValueError] because the stored
    value is not a bcrypt hash. *)
Variable checkpw : string → string → option bool.

(** The response carries [expires_at] as the datetime itself, not as its
    ISO rendering.  No clause of the handler catches the [ValueError] of
    [bcrypt.checkpw]. *)
Definition admin_login (credentials : AdminLogin)
    (active_tokens : gmap string Session) : M (LoginResponse * gmap string Session) :=
  try_except module_globals
    (get_db_connection module_globals;;
     admin ← execute (select (λ db,
       fetchone (filter (λ a, a_username a = al_username credentials) (admins db))));
     cursor_close;; conn_close;;
     match admin with
     | None => raise (HTTPException HTTP_401_UNAUTHORIZED "Invalid credentials")
     | Some admin =>
         match checkpw (al_password credentials) (a_password_hash admin) with
         | None => raise (ValueError "Invalid salt")
         | Some matches =>
             if negb matches then
               raise (HTTPException HTTP_401_UNAUTHORIZED "Invalid credentials")
             else
               env ← ask;
               let token := token_urlsafe env in
               let expires_at := now env + timedelta_hours 8 in
               mret (mkLoginResponse "Login successful" token expires_at (a_username admin),
                     <[token := mkSession (a_username admin) expires_at]> active_tokens)
         end
     end)
    [("HTTPException", reraise); ("DatabaseError", database_error_500)].

End Login.

Definition get_courses (active_only : option bool) : M (list Course) :=
  let active_only := default true active_only in
  try_except module_globals
    (get_db_connection module_globals;;
     courses ←
       (if active_only then
          execute (select (λ db,
            order_by_text c_course_code (filter (λ c, c_status c = "active") (courses db))))
        else
          execute (select (λ db, order_by_text c_course_code (courses db))));
     cursor_close;; conn_close;;
     mret courses)
    [("DatabaseError", database_error_500)].

(** Modelled from the spec: the cascade of the schema, which is not in the
    service's source ("Deleted cascades to all its Enrollments").  With it,
    [DELETE FROM courses WHERE course_id = %s] removes the course and the
    enrollments that reference it. *)
Definition delete_course_row (course_id : Z) (db : DB) : DB :=
  set_enrollments (filter (λ e, e_course_id e ≠ course_id))
    (set_courses (filter (λ c, c_course_id c ≠ course_id)) db).

Definition delete_course (course_id : Z) (admin : string) : M string :=
  try_except module_globals
    (get_db_connection module_globals;;
     course ← execute (select (λ db, fetchone (courses_by_id course_id db)));
     when_ (negb (truthy course))
       (cursor_close;; conn_close;;
        raise (HTTPException HTTP_404_NOT_FOUND
                 ("Course with ID " +:+ pretty course_id +:+ " not found")));;
     execute (update (delete_course_row course_id));;
     commit;;
     cursor_close;; conn_close;;
     mret ("Course " +:+ pretty course_id +:+ " deleted successfully"))
    [("HTTPException", reraise); ("DatabaseError", database_error_500)].

(** A route declared with [admin: str = Depends(verify_admin_token)]: the
    dependency runs first, and the handler only when it returns. *)
Definition admin_route {A} (handler : string → M A) (authorization : option string)
    (env : Env) (active_tokens : gmap string Session) (db : DB)
    : outcome A * DB * gmap string Session :=
  match verify_admin_token authorization (now env) active_tokens with
  | (Raise e, active_tokens') => (Raise e, db, active_tokens')
  | (Return admin, active_tokens') =>
      let '(r, db') := run (handler admin) env db in (r, db', active_tokens')
  end.

(** [admin_logout], after its dependency *)
Definition admin_logout (authorization : option string) (now : Z)
    (active_tokens : gmap string Session) : outcome string * gmap string Session :=
  match verify_admin_token authorization now active_tokens with
  | (Raise e, active_tokens') => (Raise e, active_tokens')
  | (Return admin, active_tokens') =>
      let token := str_replace "Bearer " "" (default "" authorization) in
      (Return "Logged out successfully",
       if bool_decide (is_Some (active_tokens' !! token))
       then delete token active_tokens' else active_tokens')
  end.

(** [get_course] *)
Definition get_course (course_id : Z) : M Course :=
  try_except module_globals
    (get_db_connection module_globals;;
     course ← execute (select (λ db, fetchone (courses_by_id course_id db)));
     cursor_close;; conn_close;;
     match course with
     | None => raise (HTTPException HTTP_404_NOT_FOUND
                        ("Course with ID " +:+ pretty course_id +:+ " not found"))
     | Some course => mret course
     end)
    [("HTTPException", reraise); ("DatabaseError", database_error_500)].

Record CourseCreate := mkCourseCreate {
  cc_course_code : string;
  cc_course_name : string;
  cc_description : option string;
  cc_credits : Z;
  cc_instructor : option string;
  cc_max_capacity : Z
}.

Record CourseUpdate := mkCourseUpdate {
  cu_course_code : option string;
  cu_course_name : option string;
  cu_description : option string;
  cu_credits : option Z;
  cu_instructor : option string;
  cu_max_capacity : option Z;
  cu_status : option string
}.

Record CourseResponse := mkCourseResponse {
  cr_message : string;
  cr_course : option Course
}.

(** What the datastore gives the columns of a new course that the [INSERT]
    of [create_course] does not name: the identity, and the defaults of
    [current_enrollment] and [status]. *)
Record CourseAssigned := mkCourseAssigned {
  new_course_id : Z;
  default_current_enrollment : Z;
  default_course_status : string
}.

Definition courses_by_code (course_code : string) (db : DB) : list Course :=
  filter (λ c, c_course_code c = course_code) (courses db).

(** [INSERT INTO courses (course_code, course_name, description, credits,
    instructor, max_capacity) VALUES (...) RETURNING course_id]; an identity
    already in the table violates the primary key. *)
Definition insert_course (assigned : CourseAssigned) (course : CourseCreate)
    (db : DB) : outcome Z * DB :=
  let id := new_course_id assigned in
  if bool_decide (courses_by_id id db = []) then
    (Return id,
     set_courses
       (λ l, l ++ [mkCourse id (cc_course_code course) (cc_course_name course)
                     (cc_description course) (cc_credits course) (cc_instructor course)
                     (cc_max_capacity course) (default_current_enrollment assigned)
                     (default_course_status assigned)]) db)
  else
    (Raise (DatabaseError "duplicate key value violates unique constraint"), db).

(** [create_course], after its dependency *)
Definition create_course (assigned : CourseAssigned) (course : CourseCreate)
    (admin : string) : M CourseResponse :=
  try_except module_globals
    (get_db_connection module_globals;;
     existing ← execute (select (λ db, fetchone (courses_by_code (cc_course_code course) db)));
     when_ (truthy existing)
       (cursor_close;; conn_close;;
        raise (HTTPException HTTP_400_BAD_REQUEST "Course code already exists"));;
     course_id ← execute (insert_course assigned course);
     commit;;
     new_course ← execute (select (λ db, fetchone (courses_by_id course_id db)));
     cursor_close;; conn_close;;
     mret (mkCourseResponse "Course created successfully" new_course))
    [("HTTPException", reraise); ("DatabaseError", database_error_500)].

(** An entry of [update_fields] of [update_course] with its value. *)
Inductive assignment :=
| SetCourseCode (v : string)
| SetCourseName (v : string)
| SetDescription (v : string)
| SetCredits (v : Z)
| SetInstructor (v : string)
| SetMaxCapacity (v : Z)
| SetStatus (v : string).

Definition assign (a : assignment) (c : Course) : Course :=
  match a with
  | SetCourseCode v =>
      mkCourse (c_course_id c) v (c_course_name c) (c_description c) (c_credits c)
        (c_instructor c) (c_max_capacity c) (c_current_enrollment c) (c_status c)
  | SetCourseName v =>
      mkCourse (c_course_id c) (c_course_code c) v (c_description c) (c_credits c)
        (c_instructor c) (c_max_capacity c) (c_current_enrollment c) (c_status c)
  | SetDescription v =>
      mkCourse (c_course_id c) (c_course_code c) (c_course_name c) (Some v) (c_credits c)
        (c_instructor c) (c_max_capacity c) (c_current_enrollment c) (c_status c)
  | SetCredits v =>
      mkCourse (c_course_id c) (c_course_code c) (c_course_name c) (c_description c) v
        (c_instructor c) (c_max_capacity c) (c_current_enrollment c) (c_status c)
  | SetInstructor v =>
      mkCourse (c_course_id c) (c_course_code c) (c_course_name c) (c_description c)
        (c_credits c) (Some v) (c_max_capacity c) (c_current_enrollment c) (c_status c)
  | SetMaxCapacity v =>
      mkCourse (c_course_id c) (c_course_code c) (c_course_name c) (c_description c)
        (c_credits c) (c_instructor c) v (c_current_enrollment c) (c_status c)
  | SetStatus v =>
      mkCourse (c_course_id c) (c_course_code c) (c_course_name c) (c_description c)
        (c_credits c) (c_instructor c) (c_max_capacity c) (c_current_enrollment c) v
  end.

(** [if field is not None: update_fields.append(...)] *)
Definition append_field {V} (set : V → assignment) (field : option V)
    (update_fields : list assignment) : list assignment :=
  match field with
  | Some v => update_fields ++ [set v]
  | None => update_fields
  end.

(** [UPDATE courses SET ... WHERE course_id = %s] *)
Definition update_course_row (update_fields : list assignment)
    (course_id : Z) (db : DB) : DB :=
  set_courses (map (λ c,
    if bool_decide (c_course_id c = course_id)
    then foldl (λ c a, assign a c) c update_fields else c)) db.

(** [update_course], after its dependency *)
Definition update_course (course_id : Z) (course : CourseUpdate)
    (admin : string) : M CourseResponse :=
  try_except module_globals
    (get_db_connection module_globals;;
     existing ← execute (select (λ db, fetchone (courses_by_id course_id db)));
     when_ (negb (truthy existing))
       (cursor_close;; conn_close;;
        raise (HTTPException HTTP_404_NOT_FOUND
                 ("Course with ID " +:+ pretty course_id +:+ " not found")));;
     let update_fields := [] in
     let update_fields := append_field SetCourseCode (cu_course_code course) update_fields in
     let update_fields := append_field SetCourseName (cu_course_name course) update_fields in
     let update_fields := append_field SetDescription (cu_description course) update_fields in
     let update_fields := append_field SetCredits (cu_credits course) update_fields in
     let update_fields := append_field SetInstructor (cu_instructor course) update_fields in
     let update_fields := append_field SetMaxCapacity (cu_max_capacity course) update_fields in
     let update_fields := append_field SetStatus (cu_status course) update_fields in
     when_ (bool_decide (update_fields = []))
       (raise (HTTPException HTTP_400_BAD_REQUEST "No fields to update"));;
     execute (update (update_course_row update_fields course_id));;
     commit;;
     updated_course ← execute (select (λ db, fetchone (courses_by_id course_id db)));
     cursor_close;; conn_close;;
     mret (mkCourseResponse "Course updated successfully" updated_course))
    [("HTTPException", reraise); ("DatabaseError", database_error_500)].

Definition health_check : (Z → string → string) → M (string * string) :=
  health_check_of "course-service" module_globals.

End CourseService.

(** ** student-service/main.py *)

Module StudentService.

(** The module imports [OperationalError] and [DatabaseError] from psycopg
    and nothing else of it; it binds no name [Error]. *)
Definition module_globals : globals :=
  [("HTTPException", HTTPException_cls);
   ("OperationalError", OperationalError_cls);
   ("DatabaseError", DatabaseError_cls);
   ("Exception", Exception_cls)].

(** A row of [SELECT e.*, c.course_code, c.course_name, c.credits]. *)
Record StudentEnrollment := mkStudentEnrollment {
  se_enrollment : Enrollment;
  se_course_code : string;
  se_course_name : string;
  se_credits : Z
}.

Definition student_enrollments (student_id : Z) (db : DB) : list StudentEnrollment :=
  order_by_desc (λ r, e_enrollment_date (se_enrollment r))
    (e ← filter (λ e, e_student_id e = student_id) (enrollments db);
     c ← courses_by_id (e_course_id e) db;
     [mkStudentEnrollment e (c_course_code c) (c_course_name c) (c_credits c)]).

(** The last clause is [except Error as e]. *)
Definition get_student_enrollments (student_id : Z) : M (list StudentEnrollment) :=
  try_except module_globals
    (get_db_connection module_globals;;
     student ← execute (select (λ db, fetchone (students_by_id student_id db)));
     when_ (negb (truthy student))
       (cursor_close;; conn_close;;
        raise (HTTPException HTTP_404_NOT_FOUND
                 ("Student with ID " +:+ pretty student_id +:+ " not found")));;
     enrollments ← execute (select (student_enrollments student_id));
     cursor_close;; conn_close;;
     mret enrollments)
    [("HTTPException", reraise); ("Error", database_error_500)].

(** [get_student], a sibling handler of the same module *)
Definition get_student (student_id : Z) : M Student :=
  try_except module_globals
    (get_db_connection module_globals;;
     student ← execute (select (λ db, fetchone (students_by_id student_id db)));
     cursor_close;; conn_close;;
     match student with
     | None => raise (HTTPException HTTP_404_NOT_FOUND
                        ("Student with ID " +:+ pretty student_id +:+ " not found"))
     | Some student => mret student
     end)
    [("HTTPException", reraise); ("DatabaseError", database_error_500)].

Record StudentCreate := mkStudentCreate {
  sc_name : string;
  sc_email : string;
  sc_phone : option string
}.

Record StudentUpdate := mkStudentUpdate {
  su_name : option string;
  su_email : option string;
  su_phone : option string
}.

Record StudentResponse := mkStudentResponse {
  sr_message : string;
  sr_student : option Student
}.

(** [get_students] *)
Definition get_students : M (list Student) :=
  try_except module_globals
    (get_db_connection module_globals;;
     students ← execute (select (λ db, order_by_desc s_registration_date (students db)));
     cursor_close;; conn_close;;
     mret students)
    [("DatabaseError", database_error_500)].

Definition students_by_email (email : string) (db : DB) : list Student :=
  filter (λ s, s_email s = email) (students db).

(** [INSERT INTO students (name, email, phone) VALUES (%s, %s, %s)
    RETURNING student_id]: the identity [id] is the one the datastore
    assigns, the registration date is the clock's; an identity already in
    the table violates the primary key. *)
Definition insert_student (id : Z) (env : Env) (student : StudentCreate)
    (db : DB) : outcome Z * DB :=
  if bool_decide (students_by_id id db = []) then
    (Return id,
     set_students
       (λ l, l ++ [mkStudent id (sc_name student) (sc_email student) (sc_phone student)
                     (now env)]) db)
  else
    (Raise (DatabaseError "duplicate key value violates unique constraint"), db).

(** [create_student]; [new_student_id] is the identity the datastore assigns
    to the row. *)
Definition create_student (new_student_id : Z) (student : StudentCreate) : M StudentResponse :=
  try_except module_globals
    (get_db_connection module_globals;;
     existing ← execute (select (λ db, fetchone (students_by_email (sc_email student) db)));
     when_ (truthy existing)
       (cursor_close;; conn_close;;
        raise (HTTPException HTTP_400_BAD_REQUEST "Email already registered"));;
     env ← ask;
     student_id ← execute (insert_student new_student_id env student);
     commit;;
     new_student ← execute (select (λ db, fetchone (students_by_id student_id db)));
     cursor_close;; conn_close;;
     mret (mkStudentResponse "Student created successfully" new_student))
    [("HTTPException", reraise); ("DatabaseError", database_error_500)].

(** An entry of [update_fields] of [update_student] with its value. *)
Inductive assignment :=
| SetName (v : string)
| SetEmail (v : string)
| SetPhone (v : string).

Definition assign (a : assignment) (s : Student) : Student :=
  match a with
  | SetName v => mkStudent (s_student_id s) v (s_email s) (s_phone s) (s_registration_date s)
  | SetEmail v => mkStudent (s_student_id s) (s_name s) v (s_phone s) (s_registration_date s)
  | SetPhone v =>
      mkStudent (s_student_id s) (s_name s) (s_email s) (Some v) (s_registration_date s)
  end.

Definition append_field (set : string → assignment) (field : option string)
    (update_fields : list assignment) : list assignment :=
  match field with
  | Some v => update_fields ++ [set v]
  | None => update_fields
  end.

(** [UPDATE students SET ... WHERE student_id = %s] *)
Definition update_student_row (update_fields : list assignment)
    (student_id : Z) (db : DB) : DB :=
  set_students (map (λ s,
    if bool_decide (s_student_id s = student_id)
    then foldl (λ s a, assign a s) s update_fields else s)) db.

Definition update_student (student_id : Z) (student : StudentUpdate) : M StudentResponse :=
  try_except module_globals
    (get_db_connection module_globals;;
     existing ← execute (select (λ db, fetchone (students_by_id student_id db)));
     when_ (negb (truthy existing))
       (cursor_close;; conn_close;;
        raise (HTTPException HTTP_404_NOT_FOUND
                 ("Student with ID " +:+ pretty student_id +:+ " not found")));;
     let update_fields := [] in
     let update_fields := append_field SetName (su_name student) update_fields in
     let update_fields := append_field SetEmail (su_email student) update_fields in
     let update_fields := append_field SetPhone (su_phone student) update_fields in
     when_ (bool_decide (update_fields = []))
       (raise (HTTPException HTTP_400_BAD_REQUEST "No fields to update"));;
     execute (update (update_student_row update_fields student_id));;
     commit;;
     updated_student ← execute (select (λ db, fetchone (students_by_id student_id db)));
     cursor_close;; conn_close;;
     mret (mkStudentResponse "Student updated successfully" updated_student))
    [("HTTPException", reraise); ("DatabaseError", database_error_500)].

(** [DELETE FROM students WHERE student_id = %s]; the handler's comment,
    "cascades to enrollments", is the schema's cascade: the enrollments of
    the student go with the row. *)
Definition delete_student_row (student_id : Z) (db : DB) : DB :=
  set_enrollments (filter (λ e, e_student_id e ≠ student_id))
    (set_students (filter (λ s, s_student_id s ≠ student_id)) db).

Definition delete_student (student_id : Z) : M string :=
  try_except module_globals
    (get_db_connection module_globals;;
     student ← execute (select (λ db, fetchone (students_by_id student_id db)));
     when_ (negb (truthy student))
       (cursor_close;; conn_close;;
        raise (HTTPException HTTP_404_NOT_FOUND
                 ("Student with ID " +:+ pretty student_id +:+ " not found")));;
     execute (update (delete_student_row student_id));;
     commit;;
     cursor_close;; conn_close;;
     mret ("Student " +:+ pretty student_id +:+ " deleted successfully"))
    [("HTTPException", reraise); ("DatabaseError", database_error_500)].

Definition health_check : (Z → string → string) → M (string * string) :=
  health_check_of "student-service" module_globals.

End StudentService.

(** ** Concurrent CreateEnrollment requests

    Every request has a connection of its own.  [create_enrollment] takes no
    lock on the course row and sets no isolation level, so each of its
    statements sees what is committed when it executes.  A schedule
    interleaves, request by request, the two parts of the handler: its reads
    and checks, and its insert, increment and commit. *)

Module Concurrent.
Import EnrollmentService.

Inductive event :=
| Checks (i : nat)
| Writes (i : nat).

Inductive progress :=
| Waiting
| Checked
| Succeeded (enrollment_id : Z)
| Failed (e : exn).

Definition checks_part (req : EnrollmentCreate) : M () :=
  try_except module_globals
    (get_db_connection module_globals;; create_enrollment_checks req)
    [("HTTPException", reraise); ("DatabaseError", database_error_500)].

Definition writes_part (req : EnrollmentCreate) : M Z :=
  try_except module_globals
    (create_enrollment_writes req)
    [("HTTPException", reraise); ("DatabaseError", database_error_500)].

Definition step (requests : list (EnrollmentCreate * Env))
    (s : DB * list progress) (ev : event) : DB * list progress :=
  let '(db, ps) := s in
  match ev with
  | Checks i =>
      match requests !! i, ps !! i with
      | Some (req, env), Some Waiting =>
          match run (checks_part req) env db with
          | (Return _, _) => (db, <[i := Checked]> ps)
          | (Raise e, _) => (db, <[i := Failed e]> ps)
          end
      | _, _ => s
      end
  | Writes i =>
      match requests !! i, ps !! i with
      | Some (req, env), Some Checked =>
          match run (writes_part req) env db with
          | (Return id, db') => (db', <[i := Succeeded id]> ps)
          | (Raise e, db') => (db', <[i := Failed e]> ps)
          end
      | _, _ => s
      end
  end.

Definition run_schedule (requests : list (EnrollmentCreate * Env))
    (schedule : list event) (db : DB) : DB * list progress :=
  foldl (step requests) (db, replicate (length requests) Waiting) schedule.

(** One request after the other. *)
Definition serial (n : nat) : list event :=
  i ← seq 0 n; [Checks i; Writes i].

Definition succeeded (p : progress) : bool :=
  match p with Succeeded _ => true | _ => false end.

Definition successes (ps : list progress) : nat :=
  length (filter (λ p, succeeded p = true) ps).

End Concurrent.

(** ** The operations as the specification words them *)

Module Spec.
Import EnrollmentService.

(** The five failure modes of CreateEnrollment, in the order of their
    checks. *)
Inductive failure :=
| NOT_FOUND_student
| NOT_FOUND_course
| INVALID_STATE
| CAPACITY_EXCEEDED
| DUPLICATE.

Definition student_exists (db : DB) (student_id : Z) : bool :=
  existsb (λ s, s_student_id s =? student_id) (students db).

Definition course_exists (db : DB) (course_id : Z) : bool :=
  existsb (λ c, c_course_id c =? course_id) (courses db).

Definition the_course (db : DB) (course_id : Z) : option Course :=
  List.find (λ c, c_course_id c =? course_id) (courses db).

Definition the_student (db : DB) (student_id : Z) : option Student :=
  List.find (λ s, s_student_id s =? student_id) (students db).

Definition the_enrollment (db : DB) (enrollment_id : Z) : option Enrollment :=
  List.find (λ e, e_enrollment_id e =? enrollment_id) (enrollments db).

Definition enrolled (db : DB) (student_id course_id : Z) : bool :=
  existsb (λ e, (e_student_id e =? student_id) && (e_course_id e =? course_id))
    (enrollments db).

(** The first of the five preconditions that fails, if one does. *)
Definition first_failing_check (db : DB) (req : EnrollmentCreate) : option failure :=
  if negb (student_exists db (ec_student_id req)) then Some NOT_FOUND_student
  else
    match the_course db (ec_course_id req) with
    | None => Some NOT_FOUND_course
    | Some course =>
        if negb (String.eqb (c_status course) "active") then Some INVALID_STATE
        else if negb (c_current_enrollment course <? c_max_capacity course)
        then Some CAPACITY_EXCEEDED
        else if enrolled db (ec_student_id req) (ec_course_id req) then Some DUPLICATE
        else None
    end.

(** The status code of a failure mode: 404 for a missing student or course,
    400 for an inactive or full course and for a duplicate. *)
Definition status_code (f : failure) : Z :=
  match f with
  | NOT_FOUND_student | NOT_FOUND_course => 404
  | INVALID_STATE | CAPACITY_EXCEEDED | DUPLICATE => 400
  end.

(** The message of a failure mode. *)
Definition detail (req : EnrollmentCreate) (f : failure) : string :=
  match f with
  | NOT_FOUND_student => "Student with ID " +:+ pretty (ec_student_id req) +:+ " not found"
  | NOT_FOUND_course => "Course with ID " +:+ pretty (ec_course_id req) +:+ " not found"
  | INVALID_STATE => "Course is not active"
  | CAPACITY_EXCEEDED => "Course is full"
  | DUPLICATE => "Student is already enrolled in this course"
  end.

Definition error (req : EnrollmentCreate) (f : failure) : exn :=
  HTTPException (status_code f) (detail req f).

(** The number of statements a call has executed when it fails. *)
Definition statements_before (f : failure) : nat :=
  match f with
  | NOT_FOUND_student => 1
  | DUPLICATE => 3
  | _ => 2
  end.

(** The effect of a successful CreateEnrollment: the Enrollment row is
    inserted and the Course's [current_enrollment] is incremented by 1. *)
Definition new_row (env : Env) (req : EnrollmentCreate) : Enrollment :=
  mkEnrollment (new_enrollment_id env) (ec_student_id req) (ec_course_id req)
    (now env) (default_grade env) (default_status env).

Definition created (env : Env) (db : DB) (req : EnrollmentCreate) : DB :=
  mkDB (students db)
    (map (λ c, if c_course_id c =? ec_course_id req
               then set_current_enrollment (c_current_enrollment c + 1) c else c)
       (courses db))
    (enrollments db ++ [new_row env req])
    (admins db).

(** The effect of a successful DeleteEnrollment of the row [e]: the row is
    deleted and the [current_enrollment] of its Course is decremented,
    floored at 0. *)
Definition deleted (db : DB) (e : Enrollment) : DB :=
  mkDB (students db)
    (map (λ c, if c_course_id c =? e_course_id e
               then set_current_enrollment (Z.max (c_current_enrollment c - 1) 0) c else c)
       (courses db))
    (List.filter (λ x, negb (e_enrollment_id x =? e_enrollment_id e)) (enrollments db))
    (admins db).

(** The partial update of an Enrollment row: a supplied field is written,
    an unsupplied one keeps its value. *)
Definition patched (upd : EnrollmentUpdate) (e : Enrollment) : Enrollment :=
  mkEnrollment (e_enrollment_id e) (e_student_id e) (e_course_id e)
    (e_enrollment_date e)
    (match eu_grade upd with Some g => Some g | None => e_grade e end)
    (match eu_status upd with Some s => s | None => e_status e end).

(** No field is supplied. *)
Definition no_fields (upd : EnrollmentUpdate) : bool :=
  match eu_grade upd, eu_status upd with
  | None, None => true
  | _, _ => false
  end.

(** The value of [update_fields] once the handler has looked at both
    fields. *)
Definition collected (upd : EnrollmentUpdate) : list assignment :=
  match eu_grade upd with Some g => [SetGrade g] | None => [] end ++
  match eu_status upd with Some s => [SetStatus s] | None => [] end.

Definition updated (db : DB) (enrollment_id : Z) (upd : EnrollmentUpdate) : DB :=
  mkDB (students db) (courses db)
    (map (λ e, if e_enrollment_id e =? enrollment_id then patched upd e else e)
       (enrollments db))
    (admins db).

(** *** Admin sessions *)

Definition the_admin (db : DB) (username : string) : option Admin :=
  List.find (λ a, String.eqb (a_username a) username) (admins db).

(** The key [verify_admin_token] looks up in the token table:
    [authorization.replace("Bearer ", "")], the header without any of its
    occurrences of "Bearer ".  This is not always the token the header
    carries: for "Bearer Bearer t" it is "t". *)
Definition presented_token (header : string) : string :=
  CourseService.str_replace "Bearer " "" header.

(** The token a header of Bearer form carries: what follows its prefix
    "Bearer ". *)
Definition bearer_token (header : string) : string :=
  substring 7 (String.length header - 7) header.

Fixpoint no_space (s : string) : bool :=
  match s with
  | EmptyString => true
  | String c s' => negb (Ascii.eqb c " "%char) && no_space s'
  end.

(** Eight hours, in the unit of the clock. *)
Definition eight_hours : Z := 8 * 60 * 60 * 1000000.

(** *** Invariants of the datastore *)

(** The number of Enrollment rows that reference a course. *)
Definition referencing (db : DB) (course_id : Z) : nat :=
  length (filter (λ e, e_course_id e = course_id) (enrollments db)).

(** I1: every course's [current_enrollment] is the number of Enrollment rows
    that reference it. *)
Definition counters_consistent (db : DB) : Prop :=
  ∀ c, c ∈ courses db → c_current_enrollment c = Z.of_nat (referencing db (c_course_id c)).

(** I2: no two Enrollment rows share their (student, course) pair. *)
Definition pairs_unique (db : DB) : Prop :=
  NoDup ((λ e, (e_student_id e, e_course_id e)) <$> enrollments db).

(** No course is over its capacity, and no counter is negative. *)
Definition within_capacity (db : DB) : Prop :=
  ∀ c, c ∈ courses db → 0 ≤ c_current_enrollment c ≤ c_max_capacity c.

(** The primary keys of the three tables. *)
Definition enrollment_ids_unique (db : DB) : Prop :=
  NoDup (e_enrollment_id <$> enrollments db).

Definition course_ids_unique (db : DB) : Prop :=
  NoDup (c_course_id <$> courses db).

Definition student_ids_unique (db : DB) : Prop :=
  NoDup (s_student_id <$> students db).

(** The unique columns the create handlers check before they insert. *)
Definition course_codes_unique (db : DB) : Prop :=
  NoDup (c_course_code <$> courses db).

Definition emails_unique (db : DB) : Prop :=
  NoDup (s_email <$> students db).

(** What a handler may raise: an [HTTPException] whose status code is one of
    [codes]. *)
Definition raises_only {A} (codes : list Z) (o : outcome A) : Prop :=
  match o with
  | Return _ => True
  | Raise e => ∃ c d, e = HTTPException c d ∧ c ∈ codes
  end.

(** [ORDER BY key DESC] *)
Definition descending {A} (key : A → Z) (l : list A) : Prop :=
  Sorted (λ x y, key y ≤ key x) l.

(** *** Courses and students *)

Definition code_taken (db : DB) (course_code : string) : bool :=
  existsb (λ c, String.eqb (c_course_code c) course_code) (courses db).

(** The row a successful [create_course] inserts, and the state it leaves. *)
Definition new_course (assigned : CourseService.CourseAssigned)
    (course : CourseService.CourseCreate) : Course :=
  mkCourse (CourseService.new_course_id assigned)
    (CourseService.cc_course_code course) (CourseService.cc_course_name course)
    (CourseService.cc_description course) (CourseService.cc_credits course)
    (CourseService.cc_instructor course) (CourseService.cc_max_capacity course)
    (CourseService.default_current_enrollment assigned)
    (CourseService.default_course_status assigned).

Definition course_created (assigned : CourseService.CourseAssigned) (db : DB)
    (course : CourseService.CourseCreate) : DB :=
  mkDB (students db) (courses db ++ [new_course assigned course]) (enrollments db)
    (admins db).

(** The partial update of a course: a supplied field is written, an
    unsupplied one keeps its value; the identity and the counter are not
    fields of the update. *)
Definition course_patched (upd : CourseService.CourseUpdate) (c : Course) : Course :=
  mkCourse (c_course_id c)
    (default (c_course_code c) (CourseService.cu_course_code upd))
    (default (c_course_name c) (CourseService.cu_course_name upd))
    (match CourseService.cu_description upd with Some v => Some v | None => c_description c end)
    (default (c_credits c) (CourseService.cu_credits upd))
    (match CourseService.cu_instructor upd with Some v => Some v | None => c_instructor c end)
    (default (c_max_capacity c) (CourseService.cu_max_capacity upd))
    (c_current_enrollment c)
    (default (c_status c) (CourseService.cu_status upd)).

Definition course_updated (db : DB) (course_id : Z) (upd : CourseService.CourseUpdate) : DB :=
  mkDB (students db)
    (map (λ c, if c_course_id c =? course_id then course_patched upd c else c) (courses db))
    (enrollments db) (admins db).

Definition course_no_fields (upd : CourseService.CourseUpdate) : bool :=
  match CourseService.cu_course_code upd, CourseService.cu_course_name upd,
        CourseService.cu_description upd, CourseService.cu_credits upd,
        CourseService.cu_instructor upd, CourseService.cu_max_capacity upd,
        CourseService.cu_status upd with
  | None, None, None, None, None, None, None => true
  | _, _, _, _, _, _, _ => false
  end.

Definition email_taken (db : DB) (email : string) : bool :=
  existsb (λ s, String.eqb (s_email s) email) (students db).

(** The row a successful [create_student] inserts, and the state it
    leaves. *)
Definition new_student (id : Z) (env : Env) (student : StudentService.StudentCreate) : Student :=
  mkStudent id (StudentService.sc_name student) (StudentService.sc_email student)
    (StudentService.sc_phone student) (now env).

Definition student_created (id : Z) (env : Env) (db : DB)
    (student : StudentService.StudentCreate) : DB :=
  mkDB (students db ++ [new_student id env student]) (courses db) (enrollments db)
    (admins db).

Definition student_patched (upd : StudentService.StudentUpdate) (s : Student) : Student :=
  mkStudent (s_student_id s)
    (default (s_name s) (StudentService.su_name upd))
    (default (s_email s) (StudentService.su_email upd))
    (match StudentService.su_phone upd with Some v => Some v | None => s_phone s end)
    (s_registration_date s).

Definition student_updated (db : DB) (student_id : Z) (upd : StudentService.StudentUpdate) : DB :=
  mkDB (map (λ s, if s_student_id s =? student_id then student_patched upd s else s)
          (students db))
    (courses db) (enrollments db) (admins db).

Definition student_no_fields (upd : StudentService.StudentUpdate) : bool :=
  match StudentService.su_name upd, StudentService.su_email upd,
        StudentService.su_phone upd with
  | None, None, None => true
  | _, _, _ => false
  end.

(** The value of [update_fields] once [update_course], respectively
    [update_student], has looked at every field. *)
Definition course_collected (upd : CourseService.CourseUpdate)
    : list CourseService.assignment :=
  CourseService.append_field CourseService.SetStatus (CourseService.cu_status upd)
    (CourseService.append_field CourseService.SetMaxCapacity (CourseService.cu_max_capacity upd)
       (CourseService.append_field CourseService.SetInstructor (CourseService.cu_instructor upd)
          (CourseService.append_field CourseService.SetCredits (CourseService.cu_credits upd)
             (CourseService.append_field CourseService.SetDescription
                (CourseService.cu_description upd)
                (CourseService.append_field CourseService.SetCourseName
                   (CourseService.cu_course_name upd)
                   (CourseService.append_field CourseService.SetCourseCode
                      (CourseService.cu_course_code upd) [])))))).

Definition student_collected (upd : StudentService.StudentUpdate)
    : list StudentService.assignment :=
  StudentService.append_field StudentService.SetPhone (StudentService.su_phone upd)
    (StudentService.append_field StudentService.SetEmail (StudentService.su_email upd)
       (StudentService.append_field StudentService.SetName (StudentService.su_name upd) [])).

End Spec.

(** The datastore answers every statement of the request. *)
Definition healthy (env : Env) : Prop :=
  reachable env = true ∧ fault env = None.

(** ** Sample data: two students, a course with one seat and an inactive
    course *)

Module Scenario.

Definition ann : Student := mkStudent 1 "Ann" "ann@example.org" None 0.
Definition bob : Student := mkStudent 2 "Bob" "bob@example.org" (Some "555") 0.

Definition cs101 : Course :=
  mkCourse 1 "CS101" "Programming" None 3 (Some "Hopper") 1 0 "active".
Definition cs102 : Course :=
  mkCourse 2 "CS102" "Algorithms" None 4 None 30 0 "inactive".

Definition db : DB :=
  mkDB [ann; bob] [cs101; cs102] [] [mkAdmin "root" "$2b$12$hash"].

(** Scenario D: an enrollment in a course whose counter has drifted to 0. *)
Definition drifted : DB :=
  mkDB [ann; bob] [cs101; cs102] [mkEnrollment 7 1 1 900 None "enrolled"]
    [mkAdmin "root" "$2b$12$hash"].

(** A consistent state with three enrollments: Ann in both courses, Bob in
    the first; the counters are 2 and 1. *)
Definition algebra : Course :=
  mkCourse 1 "MA101" "Algebra" None 3 (Some "Noether") 5 2 "active".
Definition logic : Course :=
  mkCourse 2 "PH102" "Logic" None 4 None 30 1 "active".

Definition busy : DB :=
  mkDB [ann; bob] [algebra; logic]
    [mkEnrollment 7 1 1 900 None "enrolled";
     mkEnrollment 8 1 2 950 (Some "A") "completed";
     mkEnrollment 9 2 1 920 None "enrolled"]
    [mkAdmin "root" "$2b$12$hash"].

(** A request the datastore answers, at time 1000, whose insert is given
    the identity [id]. *)
Definition env (id : Z) : Env := mkEnv true None 1000 id None "enrolled" "t0k3n".

(** A request during which the datastore raises at statement [n]. *)
Definition failing_env (n : nat) : Env :=
  mkEnv true (Some (mkFault n false "server closed the connection"))
    1000 1 None "enrolled" "t0k3n".


(** A bcrypt hash of the password "s3cret", of cost 12. *)
Definition hashed : string :=
  "$2b$12$EduTrackAdminSaltValueyxuGlKnC9eeJsFZpQ5fy0MKYfhKOwTS".

(** The sample [busy] with an admin whose stored value is a bcrypt hash. *)
Definition staffed : DB :=
  mkDB (students busy) (courses busy) (enrollments busy) [mkAdmin "root" hashed].

(** The password check on the stored values of the samples: "$2b$12$hash"
    is not a bcrypt hash, and [bcrypt.checkpw] raises on it; [hashed] is
    matched by "s3cret" and by no other password the samples use. *)
Definition checkpw (password hash : string) : option bool :=
  if String.eqb hash hashed then Some (String.eqb password "s3cret") else None.

(** The token table after root has logged in at time 1000. *)
Definition sessions : gmap string CourseService.Session :=
  <["t0k3n" := CourseService.mkSession "root" 28800001000]> ∅.

End Scenario.

(** * Properties *)

Import EnrollmentService.

(** ** Queries *)

Lemma fetchone_filter_find {A} (P : A → Prop) `{∀ x, Decision (P x)}
    (p : A → bool) (l : list A) :
  (∀ x, p x = true ↔ P x) →
  fetchone (filter P l) = List.find p l.
Proof.
  intros Hp. induction l as [|x l IH]; [done|].
  rewrite filter_cons. simpl. destruct (decide (P x)) as [HP|HP].
  - apply Hp in HP. by rewrite HP.
  - destruct (p x) eqn:E; [by apply Hp in E|]. exact IH.
Qed.

Lemma student_lookup db id :
  fetchone (students_by_id id db) = Spec.the_student db id.
Proof. apply fetchone_filter_find. intros s. apply Z.eqb_eq. Qed.

Lemma course_lookup db id :
  fetchone (courses_by_id id db) = Spec.the_course db id.
Proof. apply fetchone_filter_find. intros c. apply Z.eqb_eq. Qed.

Lemma enrollment_lookup db id :
  fetchone (enrollments_by_id id db) = Spec.the_enrollment db id.
Proof. apply fetchone_filter_find. intros e. apply Z.eqb_eq. Qed.

Lemma truthy_find_existsb {A} (p : A → bool) (l : list A) :
  truthy (List.find p l) = existsb p l.
Proof. induction l as [|x l IH]; [done|]. cbn. by destruct (p x). Qed.

Lemma student_exists_lookup db id :
  truthy (fetchone (students_by_id id db)) = Spec.student_exists db id.
Proof. rewrite student_lookup. apply truthy_find_existsb. Qed.

Lemma enrolled_lookup db sid cid :
  truthy (fetchone (enrollments_by_pair sid cid db)) = Spec.enrolled db sid cid.
Proof.
  unfold enrollments_by_pair, Spec.enrolled.
  rewrite (fetchone_filter_find _
             (λ e, (e_student_id e =? sid) && (e_course_id e =? cid))).
  - apply truthy_find_existsb.
  - intros e. rewrite andb_true_iff, !Z.eqb_eq. done.
Qed.

Lemma status_test (s : string) :
  bool_decide (s ≠ "active") = negb (String.eqb s "active").
Proof. destruct (String.eqb_spec s "active") as [->|Hne]; case_bool_decide; done. Qed.

Lemma capacity_test (a b : Z) : (a >=? b) = negb (a <? b).
Proof. rewrite Z.geb_leb, Z.ltb_antisym. by rewrite negb_involutive. Qed.

(** ** Running a handler *)

Ltac unfold_monad :=
  unfold run, get_db_connection, try_except, psycopg_connect, mbind, M_bind, mret, M_ret,
    execute, commit, select, update, cursor_close, conn_close, when_, raise, ask,
    reraise, database_error_500 in *.

Ltac reduce :=
  cbn -[pretty fetchone students_by_id courses_by_id enrollments_by_id
        enrollments_by_pair enrollment_detail_by_id Z.add Z.sub Z.max Z.ltb Z.geb
        bool_decide faulty] in *.

Lemma faulty_healthy env st : fault env = None → faulty env st = None.
Proof. intros Hf. unfold faulty. by rewrite Hf. Qed.

(** An injected failure is a driver error. *)
Lemma faulty_driver_error env st e :
  faulty env st = Some e →
  ∃ m, e = DatabaseError m ∨ e = OperationalError m.
Proof.
  unfold faulty. destruct (fault env) as [f|]; [|done].
  destruct (Nat.eqb _ _); [|done]. intros [= <-].
  exists (fault_message f). unfold fault_exn. destruct (operational f); auto.
Qed.

(** Steps through the statements of a request the datastore answers. *)
Ltac answered := reduce; repeat (rewrite faulty_healthy by done; reduce).

Ltac driver_error H :=
  let m := fresh "m" in
  apply faulty_driver_error in H as [m [-> | ->]].

(** With a datastore that answers, the checks of [create_enrollment] raise
    the error of the first precondition that fails on the rows they see, and
    return when none does. *)
Lemma create_enrollment_checks_healthy env st req :
  fault env = None →
  create_enrollment_checks req env st =
    match Spec.first_failing_check (pending st) req with
    | Some f =>
        (Raise (Spec.error req f),
         mkConn (committed st) (committed st) (Spec.statements_before f + executed st))
    | None => (Return (), mkConn (committed st) (pending st) (3 + executed st))
    end.
Proof.
  intros Hf. unfold create_enrollment_checks, Spec.first_failing_check.
  rewrite <- student_exists_lookup, <- course_lookup, <- enrolled_lookup.
  unfold_monad. answered.
  destruct (fetchone (students_by_id _ _)); answered; [|done].
  destruct (fetchone (courses_by_id _ _)) as [course|]; answered; [|done].
  rewrite status_test, capacity_test.
  destruct (String.eqb _ _); answered; [|done].
  destruct (Z.ltb _ _); answered; [|done].
  destruct (fetchone (enrollments_by_pair _ _ _)); answered; done.
Qed.

(** The part of a handler that precedes its first statement. *)
Lemma get_db_connection_healthy g env st :
  reachable env = true → get_db_connection g env st = (Return (), st).
Proof. intros Hr. unfold_monad. cbn. by rewrite Hr. Qed.

Lemma create_enrollment_rejects env db req f :
  healthy env →
  Spec.first_failing_check db req = Some f →
  run (create_enrollment req) env db = (Raise (Spec.error req f), db).
Proof.
  intros [Hr Hf] Hfail. unfold run, create_enrollment, try_except.
  unfold mbind at 1, M_bind at 1. rewrite get_db_connection_healthy by done.
  unfold mbind at 1, M_bind at 1. rewrite create_enrollment_checks_healthy by done.
  reduce. rewrite Hfail. by destruct f.
Qed.

Ltac case_fault :=
  match goal with
  | |- context [faulty ?env ?st] =>
      let H := fresh "Hfault" in
      destruct (faulty env st) eqn:H; [driver_error H|]; reduce
  end.

(** Whatever the datastore does, the checks commit nothing; they return only
    when no precondition fails, and raise the error of the first one that
    fails or a driver error. *)
Lemma create_enrollment_checks_any env st req :
  committed (create_enrollment_checks req env st).2 = committed st ∧
  match (create_enrollment_checks req env st).1 with
  | Return _ =>
      Spec.first_failing_check (pending st) req = None ∧
      pending (create_enrollment_checks req env st).2 = pending st
  | Raise e =>
      (∃ f, Spec.first_failing_check (pending st) req = Some f ∧ e = Spec.error req f) ∨
      (∃ m, e = DatabaseError m ∨ e = OperationalError m)
  end.
Proof.
  unfold create_enrollment_checks, Spec.first_failing_check.
  rewrite <- student_exists_lookup, <- course_lookup, <- enrolled_lookup.
  unfold_monad. reduce.
  case_fault; [eauto 6..|].
  destruct (fetchone (students_by_id _ _)); reduce; [|by eauto 6].
  case_fault; [eauto 6..|].
  destruct (fetchone (courses_by_id _ _)) as [course|]; reduce; [|by eauto 6].
  rewrite status_test, capacity_test.
  destruct (String.eqb _ _); reduce; [|by eauto 6].
  destruct (Z.ltb _ _); reduce; [|by eauto 6].
  case_fault; [eauto 6..|].
  destruct (fetchone (enrollments_by_pair _ _ _)); reduce; by eauto 6.
Qed.

Lemma increment_insert env db req :
  increment_enrollment (ec_course_id req)
    (set_enrollments (λ l, l ++ [Spec.new_row env req]) db) = Spec.created env db req.
Proof.
  unfold increment_enrollment, Spec.created, set_courses, set_enrollments. cbn. f_equal.
  apply map_ext. intros c. destruct (Z.eqb_spec (c_course_id c) (ec_course_id req));
    case_bool_decide; done.
Qed.

Lemma fetchone_None_nil {A} (l : list A) : fetchone l = None → l = [].
Proof. by destruct l. Qed.

Lemma fetchone_Some_cons {A} (l : list A) x : fetchone l = Some x → ∃ l', l = x :: l'.
Proof. destruct l as [|y l]; [done|]. intros [= ->]. eauto. Qed.

Lemma create_enrollment_writes_healthy env st req :
  fault env = None →
  Spec.the_enrollment (pending st) (new_enrollment_id env) = None →
  create_enrollment_writes req env st =
    (Return (new_enrollment_id env),
     mkConn (Spec.created env (pending st) req) (Spec.created env (pending st) req)
       (3 + executed st)).
Proof.
  intros Hf Hfresh. rewrite <- enrollment_lookup in Hfresh.
  apply fetchone_None_nil in Hfresh.
  unfold create_enrollment_writes, insert_enrollment. unfold_monad. answered.
  rewrite Hfresh. rewrite bool_decide_eq_true_2 by done. answered.
  by rewrite <- increment_insert.
Qed.

(** Whatever the datastore does, the writes commit both rows or none, and
    after the commit nothing is raised. *)
Lemma create_enrollment_writes_any env st req :
  match (create_enrollment_writes req env st).1 with
  | Return id =>
      id = new_enrollment_id env ∧
      committed (create_enrollment_writes req env st).2 = Spec.created env (pending st) req ∧
      pending (create_enrollment_writes req env st).2 = Spec.created env (pending st) req
  | Raise e =>
      committed (create_enrollment_writes req env st).2 = committed st ∧
      ∃ m, e = DatabaseError m ∨ e = OperationalError m
  end.
Proof.
  unfold create_enrollment_writes, insert_enrollment. unfold_monad. reduce.
  case_fault; [eauto..|].
  case_bool_decide; reduce; [|eauto].
  case_fault; [eauto..|].
  case_fault; [eauto..|].
  by rewrite <- increment_insert.
Qed.

Lemma filter_none {A} (P : A → Prop) `{∀ x, Decision (P x)} (l : list A) :
  (∀ x, x ∈ l → ¬ P x) → filter P l = [].
Proof.
  induction l as [|x l IH]; [done|]. intros Hno.
  rewrite filter_cons_False by (apply Hno; left).
  apply IH. intros y Hy. apply Hno. by right.
Qed.

(** An [UPDATE] that keeps the key keeps the rows a key selects. *)
Lemma filter_key_map {A} (key : A → Z) (g : A → A) (k : Z) (l : list A) :
  (∀ x, key (g x) = key x) →
  filter (λ x, key x = k) (map g l) = map g (filter (λ x, key x = k) l).
Proof.
  intros Hkey. induction l as [|x l IH]; [done|]. cbn [map].
  rewrite !filter_cons, Hkey, IH. by destruct (decide (key x = k)).
Qed.

Lemma the_enrollment_None db id :
  Spec.the_enrollment db id = None → ∀ e, e ∈ enrollments db → e_enrollment_id e ≠ id.
Proof.
  rewrite <- enrollment_lookup. intros Hnone%fetchone_None_nil e He Hid.
  assert (e ∈ enrollments_by_id id db) as Hin by (by apply list_elem_of_filter).
  rewrite Hnone in Hin. by apply elem_of_nil in Hin.
Qed.

(** The row the handler reads back after the commit. *)
Lemma detail_of_created env db req student course :
  Spec.the_enrollment db (new_enrollment_id env) = None →
  Spec.the_student db (ec_student_id req) = Some student →
  Spec.the_course db (ec_course_id req) = Some course →
  fetchone (enrollment_detail_by_id (new_enrollment_id env) (Spec.created env db req)) =
    Some (mkEnrollmentDetail (Spec.new_row env req) (s_name student) (s_email student)
            (c_course_code course) (c_course_name course) (c_credits course)).
Proof.
  intros Hfresh Hs Hc.
  rewrite <- student_lookup in Hs. apply fetchone_Some_cons in Hs as [ss Hs].
  rewrite <- course_lookup in Hc. apply fetchone_Some_cons in Hc as [cs Hc].
  unfold enrollment_detail_by_id, enrollment_details.
  change (enrollments (Spec.created env db req))
    with (enrollments db ++ [Spec.new_row env req]).
  rewrite bind_app, filter_app, (filter_none _ (_ ≫= _)).
  - cbn [app]. rewrite bind_cons. cbn [e_student_id e_course_id Spec.new_row].
    change (students_by_id (ec_student_id req) (Spec.created env db req))
      with (students_by_id (ec_student_id req) db).
    rewrite Hs, bind_cons.
    unfold courses_by_id at 1. cbn [courses Spec.created].
    rewrite (filter_key_map c_course_id).
    + fold (courses_by_id (ec_course_id req) db). rewrite Hc. cbn [map].
      rewrite bind_cons. cbn [app]. rewrite filter_cons_True by done.
      cbn. by destruct (c_course_id course =? ec_course_id req).
    + intros c. by destruct (c_course_id c =? ec_course_id req).
  - intros d (e & Hd & He)%list_elem_of_bind.
    apply list_elem_of_bind in Hd as (s & Hd & _).
    apply list_elem_of_bind in Hd as (c & Hd & _).
    apply list_elem_of_singleton in Hd as ->. cbn.
    by apply (the_enrollment_None db).
Qed.

Lemma find_key_map {A} (key : A → Z) (g : A → A) (k : Z) (l : list A) :
  (∀ x, key (g x) = key x) →
  List.find (λ x, key x =? k) (map g l) = g <$> List.find (λ x, key x =? k) l.
Proof.
  intros Hkey. induction l as [|x l IH]; [done|]. cbn.
  rewrite Hkey. by destruct (key x =? k).
Qed.

Lemma the_course_created env db req course :
  Spec.the_course db (ec_course_id req) = Some course →
  Spec.the_course (Spec.created env db req) (ec_course_id req) =
    Some (set_current_enrollment (c_current_enrollment course + 1) course).
Proof.
  intros Hc. unfold Spec.the_course in *. cbn [courses Spec.created].
  rewrite (find_key_map c_course_id), Hc.
  - cbn. apply find_some in Hc as [_ ->]. done.
  - intros c. by destruct (c_course_id c =? ec_course_id req).
Qed.

Lemma find_app_None {A} (p : A → bool) (l1 l2 : list A) :
  List.find p l1 = None → List.find p (l1 ++ l2) = List.find p l2.
Proof.
  induction l1 as [|x l1 IH]; [done|]. cbn. by destruct (p x).
Qed.

Lemma the_enrollment_created env db req :
  Spec.the_enrollment db (new_enrollment_id env) = None →
  Spec.the_enrollment (Spec.created env db req) (new_enrollment_id env) =
    Some (Spec.new_row env req).
Proof.
  intros Hfresh. unfold Spec.the_enrollment in *. cbn [enrollments Spec.created].
  rewrite find_app_None by done. cbn. by rewrite Z.eqb_refl.
Qed.

Lemma first_failing_check_None db req :
  Spec.first_failing_check db req = None →
  ∃ student course,
    Spec.the_student db (ec_student_id req) = Some student ∧
    Spec.the_course db (ec_course_id req) = Some course ∧
    c_status course = "active" ∧
    c_current_enrollment course < c_max_capacity course ∧
    Spec.enrolled db (ec_student_id req) (ec_course_id req) = false.
Proof.
  unfold Spec.first_failing_check.
  rewrite <- student_exists_lookup, student_lookup.
  destruct (Spec.the_student _ _) as [student|]; [|done]. cbn.
  destruct (Spec.the_course _ _) as [course|]; [|done].
  destruct (String.eqb_spec (c_status course) "active"); [|done]. cbn.
  destruct (Z.ltb_spec (c_current_enrollment course) (c_max_capacity course)); [|done].
  cbn. destruct (Spec.enrolled _ _ _); [done|]. intros _. eauto 10.
Qed.

(** Every run of [create_enrollment], whatever the datastore does: either
    nothing is committed and a precondition error or a 500 is raised, or both
    writes are committed and the call returns or, when the read that follows
    the commit fails, raises a 500. *)
Lemma create_enrollment_any env db req :
  let r := run (create_enrollment req) env db in
  (r.2 = db ∧
   match r.1 with
   | Return _ => False
   | Raise e =>
       (∃ f, Spec.first_failing_check db req = Some f ∧ e = Spec.error req f) ∨
       (∃ m, e = HTTPException HTTP_500_INTERNAL_SERVER_ERROR m)
   end) ∨
  (r.2 = Spec.created env db req ∧
   Spec.first_failing_check db req = None ∧
   match r.1 with
   | Return _ => True
   | Raise e => ∃ m, e = HTTPException HTTP_500_INTERNAL_SERVER_ERROR m
   end).
Proof.
  unfold run, create_enrollment, try_except at 1.
  unfold mbind, M_bind.
  unfold get_db_connection, try_except, psycopg_connect.
  destruct (reachable env);
    cbn -[create_enrollment_checks create_enrollment_writes create_enrollment_response];
    [|by eauto 6].
  pose proof (create_enrollment_checks_any env (mkConn db db 0) req) as [Hc Ho].
  destruct (create_enrollment_checks req env _) as [[[]|e] st1];
    cbn [fst snd pending committed] in *.
  - destruct Ho as [Hnone Hp].
    pose proof (create_enrollment_writes_any env st1 req) as Hw.
    destruct (create_enrollment_writes req env st1) as [[id|e] st2]; cbn [fst snd] in *.
    + destruct Hw as (-> & Hw1 & Hw2). rewrite Hp in *.
      unfold create_enrollment_response. unfold_monad. reduce.
      case_fault; right; rewrite ?Hw1; eauto.
    + destruct Hw as (Hw & m & [-> | ->]); reduce; left; rewrite Hw, Hc; eauto.
  - destruct Ho as [(f & Hf & ->) | (m & [-> | ->])]; reduce; left; rewrite ?Hc; eauto 6.
Qed.

Lemma error_injective req f f' : Spec.error req f' = Spec.error req f → f' = f.
Proof. destruct f, f'; cbn; intros [=]; done. Qed.

(** ** CreateEnrollment *)

(** C2: CreateEnrollment checks its five preconditions in the order student
    exists, course exists, course active, course not full, pair not enrolled;
    the first one that fails decides the error, 404 for a missing student or
    course and 400 for an inactive course, a full course and a duplicate, and
    no two failure modes share an error. *)
Theorem create_enrollment_check_order env db req f :
  healthy env →
  Spec.first_failing_check db req = Some f →
  (run (create_enrollment req) env db).1 =
    Raise (HTTPException (Spec.status_code f) (Spec.detail req f)) ∧
  (∀ f', Spec.error req f' = Spec.error req f → f' = f).
Proof.
  intros Hh Hfail. split.
  - by rewrite (create_enrollment_rejects env db req f).
  - intros f'. apply error_injective.
Qed.

(** Scenario B: a CreateEnrollment for the nonexistent course 999 is answered
    404 "Course with ID 999 not found". *)
Lemma create_enrollment_check_order_witness :
  (run (create_enrollment (mkEnrollmentCreate 1 999)) (Scenario.env 1) Scenario.db).1 =
    Raise (HTTPException 404 "Course with ID 999 not found").
Proof.
  exact (proj1 (create_enrollment_check_order (Scenario.env 1) Scenario.db
                  (mkEnrollmentCreate 1 999) Spec.NOT_FOUND_course
                  (conj eq_refl eq_refl) eq_refl)).
Defined.

(** C3: when the five preconditions pass (and the datastore, which answers,
    assigns the new row an identity not in use), CreateEnrollment commits in
    one transaction the new Enrollment row for the pair and the increment by
    exactly 1 of the course's [current_enrollment], and returns the created
    enrollment with the student's name and email and the course's code, name
    and credits.  Whatever the datastore does, the two writes are committed
    together or not at all. *)
Theorem create_enrollment_success env db req :
  ((run (create_enrollment req) env db).2 = db ∨
   (run (create_enrollment req) env db).2 = Spec.created env db req) ∧
  (healthy env →
   Spec.first_failing_check db req = None →
   Spec.the_enrollment db (new_enrollment_id env) = None →
   ∃ student course,
     Spec.the_student db (ec_student_id req) = Some student ∧
     Spec.the_course db (ec_course_id req) = Some course ∧
     run (create_enrollment req) env db =
       (Return (mkResponse "Enrollment created successfully"
                  (Some (mkEnrollmentDetail (Spec.new_row env req)
                           (s_name student) (s_email student)
                           (c_course_code course) (c_course_name course)
                           (c_credits course)))),
        Spec.created env db req) ∧
     Spec.the_enrollment (Spec.created env db req) (new_enrollment_id env) =
       Some (Spec.new_row env req) ∧
     Spec.the_course (Spec.created env db req) (ec_course_id req) =
       Some (set_current_enrollment (c_current_enrollment course + 1) course)).
Proof.
  split.
  - destruct (create_enrollment_any env db req) as [[H _]|[H _]]; auto.
  - intros [Hr Hf] Hpre Hfresh.
    destruct (first_failing_check_None db req Hpre)
      as (student & course & Hs & Hc & _).
    exists student, course. split_and!; try done.
    + unfold run, create_enrollment, try_except.
      unfold mbind at 1, M_bind at 1. rewrite get_db_connection_healthy by done.
      unfold mbind at 1, M_bind at 1. rewrite create_enrollment_checks_healthy by done.
      cbn [pending]. rewrite Hpre.
      unfold mbind at 1, M_bind at 1. rewrite create_enrollment_writes_healthy by done.
      unfold create_enrollment_response. unfold_monad. answered.
      by rewrite (detail_of_created env db req student course).
    + by apply the_enrollment_created.
    + by apply the_course_created.
Qed.

(** Scenario A, first call: Ann is enrolled in the course with one seat. *)
Lemma create_enrollment_success_witness :
  ∃ student course,
    Spec.the_student Scenario.db 1 = Some student ∧
    Spec.the_course Scenario.db 1 = Some course ∧
    run (create_enrollment (mkEnrollmentCreate 1 1)) (Scenario.env 1) Scenario.db =
      (Return (mkResponse "Enrollment created successfully"
                 (Some (mkEnrollmentDetail
                          (Spec.new_row (Scenario.env 1) (mkEnrollmentCreate 1 1))
                          (s_name student) (s_email student)
                          (c_course_code course) (c_course_name course)
                          (c_credits course)))),
       Spec.created (Scenario.env 1) Scenario.db (mkEnrollmentCreate 1 1)) ∧
    Spec.the_enrollment
      (Spec.created (Scenario.env 1) Scenario.db (mkEnrollmentCreate 1 1)) 1 =
      Some (Spec.new_row (Scenario.env 1) (mkEnrollmentCreate 1 1)) ∧
    Spec.the_course
      (Spec.created (Scenario.env 1) Scenario.db (mkEnrollmentCreate 1 1)) 1 =
      Some (set_current_enrollment (c_current_enrollment course + 1) course).
Proof.
  exact (proj2 (create_enrollment_success (Scenario.env 1) Scenario.db
                  (mkEnrollmentCreate 1 1))
           (conj eq_refl eq_refl) eq_refl eq_refl).
Defined.

(** C9: a CreateEnrollment that fails with one of its five precondition
    errors leaves the datastore as it was: no row is inserted and no counter
    is changed, whatever else the datastore does during the call. *)
Theorem create_enrollment_failure_keeps_state env db req f :
  (run (create_enrollment req) env db).1 = Raise (Spec.error req f) →
  (run (create_enrollment req) env db).2 = db.
Proof.
  intros Hraise.
  destruct (create_enrollment_any env db req) as [[H _]|(_ & _ & Ho)]; [done|].
  rewrite Hraise in Ho. destruct Ho as [m [=]]. by destruct f.
Qed.

Lemma create_enrollment_failure_keeps_state_witness :
  (run (create_enrollment (mkEnrollmentCreate 1 2)) (Scenario.env 1) Scenario.db).2 =
    Scenario.db.
Proof.
  apply (create_enrollment_failure_keeps_state (Scenario.env 1) Scenario.db
           (mkEnrollmentCreate 1 2) Spec.INVALID_STATE).
  reflexivity.
Defined.

(** ** DeleteEnrollment *)

Lemma filter_bool {A} (P : A → Prop) `{∀ x, Decision (P x)} (p : A → bool) (l : list A) :
  (∀ x, p x = true ↔ P x) → filter P l = List.filter p l.
Proof.
  intros Hp. induction l as [|x l IH]; [done|]. rewrite filter_cons. cbn.
  destruct (decide (P x)) as [HP|HP].
  - apply Hp in HP. by rewrite HP, IH.
  - destruct (p x) eqn:E; [by apply Hp in E|]. done.
Qed.

Lemma the_enrollment_id db id e : Spec.the_enrollment db id = Some e → e_enrollment_id e = id.
Proof. intros [_ H]%find_some. by apply Z.eqb_eq. Qed.

Lemma decrement_delete db id e :
  e_enrollment_id e = id →
  decrement_enrollment (e_course_id e) (delete_enrollment_row id db) = Spec.deleted db e.
Proof.
  intros <-. unfold decrement_enrollment, delete_enrollment_row, Spec.deleted,
    set_courses, set_enrollments. cbn. f_equal.
  - apply map_ext. intros c. destruct (Z.eqb_spec (c_course_id c) (e_course_id e));
      case_bool_decide; done.
  - apply filter_bool. intros x. rewrite negb_true_iff, Z.eqb_neq. done.
Qed.

(** Every run of [delete_enrollment], whatever the datastore does. *)
Lemma delete_enrollment_any env db id :
  let r := run (delete_enrollment id) env db in
  (r.2 = db ∧
   match r.1 with
   | Return _ => False
   | Raise e =>
       (Spec.the_enrollment db id = None ∧
        e = HTTPException HTTP_404_NOT_FOUND
              ("Enrollment with ID " +:+ pretty id +:+ " not found")) ∨
       (∃ m, e = HTTPException HTTP_500_INTERNAL_SERVER_ERROR m)
   end) ∨
  (∃ e, Spec.the_enrollment db id = Some e ∧ r.2 = Spec.deleted db e ∧
        r.1 = Return ("Enrollment " +:+ pretty id +:+ " deleted successfully")).
Proof.
  unfold delete_enrollment. unfold_monad. cbv zeta.
  destruct (reachable env); reduce; [|by eauto 6].
  case_fault; [eauto 6..|].
  rewrite enrollment_lookup.
  destruct (Spec.the_enrollment db id) as [e|] eqn:He; reduce; [|by eauto 6].
  case_fault; [eauto 6..|].
  case_fault; [eauto 6..|].
  case_fault; [eauto 6..|].
  right. exists e. by rewrite decrement_delete by by eapply the_enrollment_id.
Qed.

Lemma find_filter_negb {A} (p : A → bool) (l : list A) :
  List.find p (List.filter (λ x, negb (p x)) l) = None.
Proof.
  induction l as [|x l IH]; [done|]. cbn.
  destruct (p x) eqn:E; cbn; [done|]. by rewrite E.
Qed.

Lemma the_course_deleted db e c :
  Spec.the_course db (e_course_id e) = Some c →
  Spec.the_course (Spec.deleted db e) (e_course_id e) =
    Some (set_current_enrollment (Z.max (c_current_enrollment c - 1) 0) c).
Proof.
  intros Hc. unfold Spec.the_course in *. cbn [courses Spec.deleted].
  rewrite (find_key_map c_course_id), Hc.
  - cbn. apply find_some in Hc as [_ ->]. done.
  - intros x. by destruct (c_course_id x =? e_course_id e).
Qed.

Lemma deleted_counter_floor db e c :
  c ∈ courses (Spec.deleted db e) → c_course_id c = e_course_id e →
  0 ≤ c_current_enrollment c.
Proof.
  cbn [courses Spec.deleted]. intros (c0 & <- & _)%list_elem_of_In%in_map_iff.
  destruct (Z.eqb_spec (c_course_id c0) (e_course_id e)); cbn; [lia|done].
Qed.

(** C4: DeleteEnrollment of an identifier that is not in the table answers
    NOT_FOUND and leaves the state as it was; otherwise the row is deleted
    and the [current_enrollment] of its course becomes
    [max (current_enrollment - 1) 0], so that it is not negative even when it
    was 0 before.  The delete and the decrement are committed together or not
    at all, whatever the datastore does. *)
Theorem delete_enrollment_effect env db id :
  ((run (delete_enrollment id) env db).2 = db ∨
   ∃ e, Spec.the_enrollment db id = Some e ∧
        (run (delete_enrollment id) env db).2 = Spec.deleted db e) ∧
  (healthy env →
   match Spec.the_enrollment db id with
   | None =>
       run (delete_enrollment id) env db =
         (Raise (HTTPException 404 ("Enrollment with ID " +:+ pretty id +:+ " not found")),
          db)
   | Some e =>
       run (delete_enrollment id) env db =
         (Return ("Enrollment " +:+ pretty id +:+ " deleted successfully"),
          Spec.deleted db e)
   end) ∧
  (∀ e, Spec.the_enrollment (Spec.deleted db e) (e_enrollment_id e) = None) ∧
  (∀ e c, Spec.the_course db (e_course_id e) = Some c →
          Spec.the_course (Spec.deleted db e) (e_course_id e) =
            Some (set_current_enrollment (Z.max (c_current_enrollment c - 1) 0) c)) ∧
  (∀ e c, c ∈ courses (Spec.deleted db e) → c_course_id c = e_course_id e →
          0 ≤ c_current_enrollment c).
Proof.
  split_and!.
  - destruct (delete_enrollment_any env db id) as [[H _]|(e & He & H & _)]; eauto.
  - intros [Hr Hf]. unfold delete_enrollment. unfold_monad. rewrite Hr. answered.
    rewrite enrollment_lookup.
    destruct (Spec.the_enrollment db id) as [e|] eqn:He; answered; [|done].
    by rewrite decrement_delete by by eapply the_enrollment_id.
  - intros e. apply find_filter_negb.
  - apply the_course_deleted.
  - apply deleted_counter_floor.
Qed.

(** Scenario D: deleting the enrollment of a course whose counter is 0
    leaves the counter at 0. *)
Lemma delete_enrollment_effect_witness :
  run (delete_enrollment 7) (Scenario.env 1) Scenario.drifted =
    (Return "Enrollment 7 deleted successfully", Scenario.db).
Proof.
  exact (proj1 (proj2 (delete_enrollment_effect (Scenario.env 1) Scenario.drifted 7))
           (conj eq_refl eq_refl)).
Defined.

(** ** UpdateEnrollment *)

Lemma collected_patched upd e :
  foldl (λ e a, assign a e) e (Spec.collected upd) = Spec.patched upd e.
Proof. unfold Spec.collected, Spec.patched. by destruct (eu_grade upd), (eu_status upd), e. Qed.

Lemma update_row_updated db id upd :
  update_enrollment_row (Spec.collected upd) id db = Spec.updated db id upd.
Proof.
  unfold update_enrollment_row, Spec.updated, set_enrollments. f_equal.
  apply map_ext. intros e. rewrite collected_patched.
  destruct (Z.eqb_spec (e_enrollment_id e) id); case_bool_decide; done.
Qed.

(** Every run of [update_enrollment], whatever the datastore does. *)
Lemma update_enrollment_any env db id upd :
  (run (update_enrollment id upd) env db).2 = db ∨
  (run (update_enrollment id upd) env db).2 = Spec.updated db id upd.
Proof.
  unfold update_enrollment. unfold_monad.
  destruct (reachable env); reduce; [|by eauto].
  case_fault; [eauto..|].
  destruct (fetchone (enrollments_by_id id db)); reduce; [|by eauto].
  pose proof (update_row_updated db id upd) as Hrow. unfold Spec.collected in Hrow.
  destruct (eu_grade upd), (eu_status upd); reduce;
    (case_bool_decide as Hnil; [try discriminate Hnil|try done]); reduce; [..|by eauto];
    (case_fault; [eauto..|]); (case_fault; [eauto..|]);
    (case_fault; [rewrite <- Hrow; eauto..|]); rewrite <- Hrow; eauto.
Qed.

Lemma update_enrollment_healthy env db id upd :
  healthy env →
  run (update_enrollment id upd) env db =
    match Spec.the_enrollment db id with
    | None =>
        (Raise (HTTPException 404 ("Enrollment with ID " +:+ pretty id +:+ " not found")), db)
    | Some _ =>
        if Spec.no_fields upd then (Raise (HTTPException 400 "No fields to update"), db)
        else
          (Return (mkResponse "Enrollment updated successfully"
                     (fetchone (enrollment_detail_by_id id (Spec.updated db id upd)))),
           Spec.updated db id upd)
    end.
Proof.
  intros [Hr Hf]. unfold update_enrollment. unfold_monad. rewrite Hr. answered.
  rewrite enrollment_lookup.
  destruct (Spec.the_enrollment db id) as [e|]; answered; [|done].
  pose proof (update_row_updated db id upd) as Hrow.
  unfold Spec.collected, Spec.no_fields in *.
  destruct (eu_grade upd), (eu_status upd); answered;
    (case_bool_decide as Hnil; [try discriminate Hnil|try done]); answered;
    by rewrite <- ?Hrow.
Qed.

Lemma the_enrollment_updated db id upd :
  Spec.the_enrollment (Spec.updated db id upd) id =
    Spec.patched upd <$> Spec.the_enrollment db id.
Proof.
  unfold Spec.the_enrollment. cbn [enrollments Spec.updated].
  rewrite (find_key_map e_enrollment_id).
  - destruct (List.find _ (enrollments db)) as [e|] eqn:He; [|done].
    apply find_some in He as [_ He]. cbn. by rewrite He.
  - intros e. by destruct (e_enrollment_id e =? id).
Qed.

(** C5: UpdateEnrollment on a missing enrollment answers NOT_FOUND, and on
    an existing one with no field supplied BAD_REQUEST; with a field
    supplied it writes the supplied fields of that row and nothing else: a
    field that is not supplied keeps its value, and the courses, with their
    [current_enrollment], and the students are as before in every case. *)
Theorem update_enrollment_partial env db id upd :
  (courses (run (update_enrollment id upd) env db).2 = courses db ∧
   students (run (update_enrollment id upd) env db).2 = students db) ∧
  (healthy env →
   run (update_enrollment id upd) env db =
     match Spec.the_enrollment db id with
     | None =>
         (Raise (HTTPException 404 ("Enrollment with ID " +:+ pretty id +:+ " not found")),
          db)
     | Some _ =>
         if Spec.no_fields upd then (Raise (HTTPException 400 "No fields to update"), db)
         else
           (Return (mkResponse "Enrollment updated successfully"
                      (fetchone (enrollment_detail_by_id id (Spec.updated db id upd)))),
            Spec.updated db id upd)
     end) ∧
  Spec.the_enrollment (Spec.updated db id upd) id =
    Spec.patched upd <$> Spec.the_enrollment db id ∧
  (∀ e, e_grade (Spec.patched upd e) = default (e_grade e) (Some <$> eu_grade upd) ∧
        e_status (Spec.patched upd e) = default (e_status e) (eu_status upd) ∧
        e_enrollment_id (Spec.patched upd e) = e_enrollment_id e ∧
        e_student_id (Spec.patched upd e) = e_student_id e ∧
        e_course_id (Spec.patched upd e) = e_course_id e ∧
        e_enrollment_date (Spec.patched upd e) = e_enrollment_date e) ∧
  (∀ e, e ∈ enrollments db → e_enrollment_id e ≠ id →
        e ∈ enrollments (Spec.updated db id upd)).
Proof.
  split_and!.
  - by destruct (update_enrollment_any env db id upd) as [-> | ->].
  - by destruct (update_enrollment_any env db id upd) as [-> | ->].
  - apply update_enrollment_healthy.
  - apply the_enrollment_updated.
  - intros e. unfold Spec.patched. by destruct (eu_grade upd), (eu_status upd).
  - intros e He Hid. cbn [enrollments Spec.updated].
    apply list_elem_of_In, in_map_iff. exists e. split; [|by apply list_elem_of_In].
    by destruct (Z.eqb_spec (e_enrollment_id e) id).
Qed.

(** P4: an update that supplies only the grade "A" leaves the status as it
    was. *)
Lemma update_enrollment_partial_witness :
  (run (update_enrollment 7 (mkEnrollmentUpdate (Some "A") None))
     (Scenario.env 1) Scenario.drifted).2 =
    mkDB [Scenario.ann; Scenario.bob] [Scenario.cs101; Scenario.cs102]
      [mkEnrollment 7 1 1 900 (Some "A") "enrolled"] [mkAdmin "root" "$2b$12$hash"].
Proof.
  exact (f_equal snd
           (proj1 (proj2 (update_enrollment_partial (Scenario.env 1) Scenario.drifted 7
                            (mkEnrollmentUpdate (Some "A") None)))
              (conj eq_refl eq_refl))).
Defined.

(** ** ListByStudent and ListByCourse *)

Lemma course_exists_lookup db id :
  truthy (fetchone (courses_by_id id db)) = Spec.course_exists db id.
Proof. rewrite course_lookup. apply truthy_find_existsb. Qed.

Lemma get_enrollments_by_student_healthy env db id :
  healthy env →
  run (get_enrollments_by_student id) env db =
    if Spec.student_exists db id then (Return (student_enrollments id db), db)
    else (Raise (HTTPException 404 ("Student with ID " +:+ pretty id +:+ " not found")), db).
Proof.
  intros [Hr Hf]. unfold get_enrollments_by_student. unfold_monad. rewrite Hr. answered.
  rewrite <- student_exists_lookup.
  destruct (fetchone (students_by_id id db)); answered; done.
Qed.

Lemma get_enrollments_by_course_healthy env db id :
  healthy env →
  run (get_enrollments_by_course id) env db =
    if Spec.course_exists db id then (Return (course_enrollments id db), db)
    else (Raise (HTTPException 404 ("Course with ID " +:+ pretty id +:+ " not found")), db).
Proof.
  intros [Hr Hf]. unfold get_enrollments_by_course. unfold_monad. rewrite Hr. answered.
  rewrite <- course_exists_lookup.
  destruct (fetchone (courses_by_id id db)); answered; done.
Qed.

Lemma student_enrollments_none db id :
  (∀ e, e ∈ enrollments db → e_student_id e ≠ id) → student_enrollments id db = [].
Proof. intros Hno. unfold student_enrollments. by rewrite filter_none. Qed.

Lemma course_enrollments_none db id :
  (∀ e, e ∈ enrollments db → e_course_id e ≠ id) → course_enrollments id db = [].
Proof. intros Hno. unfold course_enrollments. by rewrite filter_none. Qed.

(** C6: ListByStudent and ListByCourse check that the student, or the
    course, exists before they query the enrollments: a missing one is
    answered NOT_FOUND, and one that exists and has no enrollment is answered
    with the empty list, which is a result and not an error. *)
Theorem list_enrollments_scoping env db id :
  healthy env →
  (Spec.student_exists db id = false →
   run (get_enrollments_by_student id) env db =
     (Raise (HTTPException 404 ("Student with ID " +:+ pretty id +:+ " not found")), db)) ∧
  (Spec.student_exists db id = true →
   (∀ e, e ∈ enrollments db → e_student_id e ≠ id) →
   run (get_enrollments_by_student id) env db = (Return [], db)) ∧
  (Spec.course_exists db id = false →
   run (get_enrollments_by_course id) env db =
     (Raise (HTTPException 404 ("Course with ID " +:+ pretty id +:+ " not found")), db)) ∧
  (Spec.course_exists db id = true →
   (∀ e, e ∈ enrollments db → e_course_id e ≠ id) →
   run (get_enrollments_by_course id) env db = (Return [], db)).
Proof.
  intros Hh. split_and!.
  - intros Hno. by rewrite get_enrollments_by_student_healthy, Hno.
  - intros Hs Hno.
    by rewrite get_enrollments_by_student_healthy, Hs, student_enrollments_none.
  - intros Hno. by rewrite get_enrollments_by_course_healthy, Hno.
  - intros Hc Hno.
    by rewrite get_enrollments_by_course_healthy, Hc, course_enrollments_none.
Qed.

(** Bob exists and has no enrollment; course 2 exists and has none; nobody
    has the identifier 3. *)
Lemma list_enrollments_scoping_witness :
  run (get_enrollments_by_student 2) (Scenario.env 1) Scenario.drifted =
    (Return [], Scenario.drifted) ∧
  run (get_enrollments_by_course 2) (Scenario.env 1) Scenario.drifted =
    (Return [], Scenario.drifted) ∧
  run (get_enrollments_by_student 3) (Scenario.env 1) Scenario.drifted =
    (Raise (HTTPException 404 "Student with ID 3 not found"), Scenario.drifted) ∧
  run (get_enrollments_by_course 3) (Scenario.env 1) Scenario.drifted =
    (Raise (HTTPException 404 "Course with ID 3 not found"), Scenario.drifted).
Proof.
  pose proof (list_enrollments_scoping (Scenario.env 1) Scenario.drifted 2
                (conj eq_refl eq_refl)) as (_ & Hs & _ & Hc).
  pose proof (list_enrollments_scoping (Scenario.env 1) Scenario.drifted 3
                (conj eq_refl eq_refl)) as (Hs' & _ & Hc' & _).
  split_and!.
  - apply Hs; [reflexivity|]. intros e He. apply list_elem_of_singleton in He as ->. done.
  - apply Hc; [reflexivity|]. intros e He. apply list_elem_of_singleton in He as ->. done.
  - apply Hs'. reflexivity.
  - apply Hc'. reflexivity.
Defined.

(** ** The course list *)

Lemma insert_by_perm {A} (before : A → A → bool) (x : A) (l : list A) :
  insert_by before x l ≡ₚ x :: l.
Proof.
  induction l as [|y l IH]; [done|]. cbn.
  destruct (before x y); [done|]. rewrite IH. apply Permutation_swap.
Qed.

(** [ORDER BY] keeps the rows. *)
Lemma sort_by_perm {A} (before : A → A → bool) (l : list A) :
  sort_by before l ≡ₚ l.
Proof.
  induction l as [|x l IH]; [done|]. cbn.
  rewrite insert_by_perm. by f_equiv.
Qed.

Lemma get_courses_healthy env db active_only :
  healthy env →
  run (CourseService.get_courses active_only) env db =
    (Return (order_by_text c_course_code
               (if default true active_only
                then filter (λ c, c_status c = "active") (courses db)
                else courses db)),
     db).
Proof.
  intros [Hr Hf]. unfold CourseService.get_courses. unfold_monad. rewrite Hr.
  destruct (default true active_only); answered; done.
Qed.

(** C10: a call of the course list that does not pass [active_only=false]
    returns exactly the courses whose status is 'active'. *)
Theorem get_courses_default_active env db active_only :
  healthy env →
  active_only ≠ Some false →
  ∃ l, run (CourseService.get_courses active_only) env db = (Return l, db) ∧
       l ≡ₚ filter (λ c, c_status c = "active") (courses db) ∧
       (∀ c, c ∈ l ↔ c ∈ courses db ∧ c_status c = "active").
Proof.
  intros Hh Hdefault. eexists. split; [by apply get_courses_healthy|].
  assert (default true active_only = true) as ->
    by (by destruct active_only as [[]|]).
  unfold order_by_text. split; [apply sort_by_perm|].
  intros c. rewrite sort_by_perm, list_elem_of_filter. tauto.
Qed.

(** Of the two sample courses the default list has the active one only. *)
Lemma get_courses_default_active_witness :
  ∃ l, run (CourseService.get_courses None) (Scenario.env 1) Scenario.db =
         (Return l, Scenario.db) ∧
       l ≡ₚ filter (λ c, c_status c = "active") (courses Scenario.db) ∧
       (∀ c, c ∈ l ↔ c ∈ courses Scenario.db ∧ c_status c = "active").
Proof.
  apply (get_courses_default_active (Scenario.env 1) Scenario.db None).
  - split; reflexivity.
  - discriminate.
Defined.

(** ** Admin sessions *)

Section AdminSession.
Import CourseService.

Lemma bearer_prefix_has_space s :
  String.prefix "Bearer " s = true → Spec.no_space s = false.
Proof.
  intros H.
  do 7 (destruct s as [|? s]; [discriminate H|];
        cbn [String.prefix] in H;
        destruct (Ascii.ascii_dec _ _) as [<-|]; [|discriminate H]).
  reflexivity.
Qed.

Lemma replace_go_no_space s :
  Spec.no_space s = true → replace_go "Bearer " "" 0 s = s.
Proof.
  induction s as [|c s IH]; [done|]. intros Hs.
  cbn [replace_go].
  destruct (String.prefix "Bearer " (String c s)) eqn:Hp.
  - apply bearer_prefix_has_space in Hp. congruence.
  - f_equal. apply IH. cbn in Hs. by apply andb_true_iff in Hs as [_ Hs].
Qed.

(** The token of a header ["Bearer " ++ t] is [t] when [t] has no space, as
    the tokens [secrets.token_urlsafe] draws. *)
Lemma presented_token_bearer t :
  Spec.no_space t = true → Spec.presented_token ("Bearer " +:+ t) = t.
Proof.
  intros Ht. unfold Spec.presented_token, str_replace.
  change ("Bearer " +:+ t) with (String "B" ("earer " +:+ t)).
  cbn [replace_go].
  assert (String.prefix "Bearer " (String "B" ("earer " +:+ t)) = true) as ->.
  { cbn [String.prefix String.append]. destruct t; reflexivity. }
  cbn [String.append String.length Nat.sub replace_go].
  by apply replace_go_no_space.
Qed.

Lemma admin_route_rejects {A} (handler : string → M A) authorization env active_tokens db e :
  (verify_admin_token authorization (now env) active_tokens).1 = Raise e →
  (admin_route handler authorization env active_tokens db).1 = (Raise e, db).
Proof.
  unfold admin_route.
  destruct (verify_admin_token _ _ _) as [[u|e'] tokens']; [done|].
  by intros [= ->].
Qed.

End AdminSession.

(** A token that has been issued is accepted up to its expiry time and
    rejected after it. *)
Lemma issued_token_lifetime token session active_tokens t :
  Spec.no_space token = true →
  CourseService.verify_admin_token (Some ("Bearer " +:+ token)) t
    (<[token := session]> active_tokens) =
    if CourseService.expires_at session <? t
    then (Raise (HTTPException 401 "Token expired"),
          delete token (<[token := session]> active_tokens))
    else (Return (CourseService.username session), <[token := session]> active_tokens).
Proof.
  intros Htok. unfold CourseService.verify_admin_token.
  change ("Bearer " +:+ token) with (String "B" ("earer " +:+ token)). cbv iota.
  change (String "B" ("earer " +:+ token)) with ("Bearer " +:+ token).
  fold (Spec.presented_token ("Bearer " +:+ token)).
  rewrite presented_token_bearer by done.
  assert (String.prefix "Bearer " ("Bearer " +:+ token) = true) as ->.
  { cbn [String.prefix String.append]. destruct token; reflexivity. }
  cbn [negb]. by rewrite lookup_insert_eq.
Qed.

(** C8: an admin route is to reject a request whose header carries a token
    that is not in the table.  The header "Bearer Bearer t0k3n" is of Bearer
    form and carries "Bearer t0k3n", which is in no table;
    [verify_admin_token] removes every occurrence of "Bearer ", looks up
    "t0k3n", and lets the request through as root, so that the route runs its
    handler. *)
Theorem doubled_bearer_prefix_accepted :
  String.prefix "Bearer " "Bearer Bearer t0k3n" = true ∧
  Spec.bearer_token "Bearer Bearer t0k3n" = "Bearer t0k3n" ∧
  Scenario.sessions !! Spec.bearer_token "Bearer Bearer t0k3n" = None ∧
  CourseService.verify_admin_token (Some "Bearer Bearer t0k3n") 1000 Scenario.sessions =
    (Return "root", Scenario.sessions) ∧
  (∀ A (handler : string → M A) db,
     CourseService.admin_route handler (Some "Bearer Bearer t0k3n") (Scenario.env 1)
       Scenario.sessions db =
       (run (handler "root") (Scenario.env 1) db, Scenario.sessions)).
Proof.
  split_and!; try reflexivity.
  intros A handler db. unfold CourseService.admin_route.
  change (CourseService.verify_admin_token (Some "Bearer Bearer t0k3n")
            (now (Scenario.env 1)) Scenario.sessions)
    with (Return "root" : outcome string, Scenario.sessions).
  cbv beta iota. by destruct (run _ _ _).
Qed.

(** ** Datastore errors *)

(** In the enrollment service a driver error raised by the first statement
    of ListByStudent is answered as a 500 that quotes its message. *)
Lemma get_enrollments_by_student_wraps env db id f :
  reachable env = true → fault env = Some f → at_statement f = 0%nat →
  (run (get_enrollments_by_student id) env db).1 =
    Raise (HTTPException 500 ("Database error: " +:+ fault_message f)).
Proof.
  intros Hr Hf H0. unfold get_enrollments_by_student. unfold_monad. rewrite Hr.
  unfold faulty. rewrite Hf. reduce. rewrite H0. cbn.
  unfold fault_exn. by destruct (operational f).
Qed.

(** In the student service the same error, in the handler of the student's
    enrollments, reaches the clause [except Error]: the name is not bound and
    the call ends with [NameError]. *)
Lemma get_student_enrollments_escapes env db id f :
  reachable env = true → fault env = Some f → at_statement f = 0%nat →
  (run (StudentService.get_student_enrollments id) env db).1 = Raise (NameError "Error").
Proof.
  intros Hr Hf H0. unfold StudentService.get_student_enrollments. unfold_monad. rewrite Hr.
  unfold faulty. rewrite Hf. reduce. rewrite H0. cbn.
  unfold fault_exn. by destruct (operational f).
Qed.

(** The sibling handler [get_student] of the same module wraps it. *)
Lemma get_student_wraps env db id f :
  reachable env = true → fault env = Some f → at_statement f = 0%nat →
  (run (StudentService.get_student id) env db).1 =
    Raise (HTTPException 500 ("Database error: " +:+ fault_message f)).
Proof.
  intros Hr Hf H0. unfold StudentService.get_student. unfold_monad. rewrite Hr.
  unfold faulty. rewrite Hf. reduce. rewrite H0. cbn.
  unfold fault_exn. by destruct (operational f).
Qed.

(** Every run of the student service's handler, whatever the datastore
    does: what it raises is an [HTTPException] or the [NameError]. *)
Lemma get_student_enrollments_any env db id :
  match (run (StudentService.get_student_enrollments id) env db).1 with
  | Return _ => True
  | Raise e => (∃ c d, e = HTTPException c d) ∨ e = NameError "Error"
  end.
Proof.
  unfold StudentService.get_student_enrollments. unfold_monad.
  destruct (reachable env); reduce; [|by eauto].
  case_fault; [eauto..|].
  destruct (fetchone (students_by_id id db)); reduce; [|by eauto].
  case_fault; eauto.
Qed.

(** Every run of ListByStudent in the enrollment service: what it raises is
    an [HTTPException]. *)
Lemma get_enrollments_by_student_any env db id :
  match (run (get_enrollments_by_student id) env db).1 with
  | Return _ => True
  | Raise e => ∃ c d, e = HTTPException c d
  end.
Proof.
  unfold get_enrollments_by_student. unfold_monad.
  destruct (reachable env); reduce; [|by eauto].
  case_fault; [eauto..|].
  destruct (fetchone (students_by_id id db)); reduce; [|by eauto].
  case_fault; eauto.
Qed.

(** C7: a datastore error during an operation is to reach the caller as a
    wrapped error with a status code and a message.  It does in ListByStudent
    of the enrollment service and in [get_student]; in the student service's
    read of a student's enrollments the driver error is replaced by
    [NameError], which is neither. *)
Theorem student_enrollments_error_not_wrapped :
  (run (get_enrollments_by_student 1) (Scenario.failing_env 0) Scenario.db).1 =
    Raise (HTTPException 500 "Database error: server closed the connection") ∧
  (run (StudentService.get_student 1) (Scenario.failing_env 0) Scenario.db).1 =
    Raise (HTTPException 500 "Database error: server closed the connection") ∧
  (run (StudentService.get_student_enrollments 1) (Scenario.failing_env 0) Scenario.db).1 =
    Raise (NameError "Error") ∧
  (run (StudentService.get_student_enrollments 1) (Scenario.failing_env 1) Scenario.db).1 =
    Raise (NameError "Error").
Proof.
  split_and!.
  - by apply (get_enrollments_by_student_wraps _ _ _
                (mkFault 0 false "server closed the connection")).
  - by apply (get_student_wraps _ _ _ (mkFault 0 false "server closed the connection")).
  - by apply (get_student_enrollments_escapes _ _ _
                (mkFault 0 false "server closed the connection")).
  - reflexivity.
Qed.

(** ** Concurrent CreateEnrollment *)

Lemma create_enrollment_writes_taken env st req e :
  fault env = None →
  Spec.the_enrollment (pending st) (new_enrollment_id env) = Some e →
  create_enrollment_writes req env st =
    (Raise (DatabaseError "duplicate key value violates unique constraint"),
     mkConn (committed st) (pending st) (S (executed st))).
Proof.
  intros Hf Htaken. rewrite <- enrollment_lookup in Htaken.
  apply fetchone_Some_cons in Htaken as [l Hl].
  unfold create_enrollment_writes, insert_enrollment. unfold_monad. answered.
  rewrite Hl. rewrite bool_decide_eq_false_2 by done. by answered.
Qed.

(** A schedule of one request commits what the handler commits. *)
Lemma schedule_of_one env db req :
  healthy env →
  (Concurrent.run_schedule [(req, env)] [Concurrent.Checks 0; Concurrent.Writes 0] db).1 =
    (run (create_enrollment req) env db).2.
Proof.
  intros [Hr Hf].
  assert (run (Concurrent.checks_part req) env db =
            match Spec.first_failing_check db req with
            | Some f => (Raise (Spec.error req f), db)
            | None => (Return (), db)
            end) as Hchecks.
  { unfold Concurrent.checks_part, run, try_except. unfold mbind, M_bind.
    rewrite get_db_connection_healthy, create_enrollment_checks_healthy by done.
    cbn [pending]. destruct (Spec.first_failing_check db req) as [f|]; [by destruct f|done]. }
  unfold Concurrent.run_schedule.
  cbn [foldl length replicate Concurrent.step lookup list_lookup]. rewrite Hchecks.
  destruct (Spec.first_failing_check db req) as [f|] eqn:Hpre.
  - cbn. by rewrite (create_enrollment_rejects env db req f).
  - cbn [list_insert insert lookup list_lookup fst snd foldl Concurrent.step].
    unfold Concurrent.writes_part, run, create_enrollment, try_except.
    unfold mbind, M_bind.
    rewrite get_db_connection_healthy, create_enrollment_checks_healthy by done.
    cbn [pending committed executed]. rewrite Hpre.
    destruct (Spec.the_enrollment db (new_enrollment_id env)) as [e|] eqn:Hid.
    + by rewrite !(create_enrollment_writes_taken _ _ _ e) by done.
    + rewrite !create_enrollment_writes_healthy by done. cbn.
      unfold create_enrollment_response. unfold_monad. by answered.
Qed.

(** One request at a time, a call that returns leaves the counter of its
    course within the capacity. *)
Lemma create_enrollment_within_capacity env db req resp :
  healthy env →
  (run (create_enrollment req) env db).1 = Return resp →
  ∃ course,
    Spec.the_course (run (create_enrollment req) env db).2 (ec_course_id req) =
      Some course ∧
    c_current_enrollment course ≤ c_max_capacity course.
Proof.
  intros Hh Hret.
  destruct (create_enrollment_any env db req) as [[_ Ho]|(-> & Hpre & _)].
  - by rewrite Hret in Ho.
  - destruct (first_failing_check_None db req Hpre) as (_ & course & _ & Hc & _ & Hcap & _).
    eexists. split; [by apply the_course_created|]. cbn. lia.
Qed.

(** The sample course has one seat and both students ask for it. *)
Lemma serial_requests_respect_capacity :
  Concurrent.run_schedule
    [(mkEnrollmentCreate 1 1, Scenario.env 1); (mkEnrollmentCreate 2 1, Scenario.env 2)]
    (Concurrent.serial 2) Scenario.db =
    (Spec.created (Scenario.env 1) Scenario.db (mkEnrollmentCreate 1 1),
     [Concurrent.Succeeded 1;
      Concurrent.Failed (HTTPException 400 "Course is full")]).
Proof. reflexivity. Qed.

(** C1: with one seat left and two concurrent requests of distinct students
    for the course, exactly one request is to succeed and the counter is not
    to exceed the capacity.  When both requests run their checks before
    either runs its writes, both succeed, and the committed
    [current_enrollment] is 2 with [max_capacity] 1. *)
Theorem concurrent_requests_overbook :
  let requests :=
    [(mkEnrollmentCreate 1 1, Scenario.env 1); (mkEnrollmentCreate 2 1, Scenario.env 2)] in
  let schedule :=
    [Concurrent.Checks 0; Concurrent.Checks 1; Concurrent.Writes 0; Concurrent.Writes 1] in
  let r := Concurrent.run_schedule requests schedule Scenario.db in
  r.2 = [Concurrent.Succeeded 1; Concurrent.Succeeded 2] ∧
  Concurrent.successes r.2 = 2%nat ∧
  (c_current_enrollment <$> Spec.the_course r.1 1) = Some 2 ∧
  (c_max_capacity <$> Spec.the_course r.1 1) = Some 1 ∧
  length (enrollments r.1) = 2%nat.
Proof. cbv zeta. split_and!; reflexivity. Qed.

(** * Further properties of the services *)

(** ** What the enrollment service raises *)

Lemma in_400_404_500 c : c = 400 ∨ c = 404 ∨ c = 500 → c ∈ [400; 404; 500].
Proof. intros [-> | [-> | ->]]; set_solver. Qed.

Lemma raises_only_intro {A} (o : outcome A) :
  match o with
  | Return _ => True
  | Raise e => ∃ c d, e = HTTPException c d ∧ (c = 400 ∨ c = 404 ∨ c = 500)
  end →
  Spec.raises_only [400; 404; 500] o.
Proof.
  destruct o as [a|e]; [done|]. intros (c & d & -> & Hc). exists c, d.
  split; [done|]. by apply in_400_404_500.
Qed.

Lemma update_enrollment_raises env db id upd :
  Spec.raises_only [400; 404; 500] (run (update_enrollment id upd) env db).1.
Proof.
  apply raises_only_intro.
  unfold update_enrollment. unfold_monad.
  destruct (reachable env); reduce; [|by eauto 8].
  case_fault; [eauto 8..|].
  destruct (fetchone (enrollments_by_id id db)); reduce; [|by eauto 8].
  destruct (eu_grade upd), (eu_status upd); reduce;
    (case_bool_decide as Hnil; [try discriminate Hnil|try done]); reduce; [..|by eauto 8];
    (case_fault; [eauto 8..|]); (case_fault; [eauto 8..|]);
    (case_fault; [eauto 8..|]); done.
Qed.

Lemma get_enrollments_run env db :
  (run get_enrollments env db).2 = db ∧
  Spec.raises_only [500] (run get_enrollments env db).1.
Proof.
  unfold get_enrollments, Spec.raises_only. unfold_monad.
  destruct (reachable env); reduce; [|split; [done|]; eexists _, _; split; [done|set_solver]].
  case_fault; (split; [done|]); try done; eexists _, _; (split; [done|set_solver]).
Qed.

Lemma get_enrollment_run env db id :
  (run (get_enrollment id) env db).2 = db ∧
  Spec.raises_only [404; 500] (run (get_enrollment id) env db).1.
Proof.
  unfold get_enrollment, Spec.raises_only. unfold_monad.
  destruct (reachable env); reduce; [|split; [done|]; eexists _, _; split; [done|set_solver]].
  case_fault; try (split; [done|]; eexists _, _; split; [done|set_solver]).
  destruct (fetchone _); reduce; (split; [done|]); try done.
  eexists _, _; split; [done|set_solver].
Qed.

Lemma get_enrollments_by_student_run env db id :
  (run (get_enrollments_by_student id) env db).2 = db ∧
  Spec.raises_only [404; 500] (run (get_enrollments_by_student id) env db).1.
Proof.
  unfold get_enrollments_by_student, Spec.raises_only. unfold_monad.
  destruct (reachable env); reduce; [|split; [done|]; eexists _, _; split; [done|set_solver]].
  case_fault; try (split; [done|]; eexists _, _; split; [done|set_solver]).
  destruct (fetchone _); reduce; [|split; [done|]; eexists _, _; split; [done|set_solver]].
  case_fault; (split; [done|]); try done; eexists _, _; (split; [done|set_solver]).
Qed.

Lemma get_enrollments_by_course_run env db id :
  (run (get_enrollments_by_course id) env db).2 = db ∧
  Spec.raises_only [404; 500] (run (get_enrollments_by_course id) env db).1.
Proof.
  unfold get_enrollments_by_course, Spec.raises_only. unfold_monad.
  destruct (reachable env); reduce; [|split; [done|]; eexists _, _; split; [done|set_solver]].
  case_fault; try (split; [done|]; eexists _, _; split; [done|set_solver]).
  destruct (fetchone _); reduce; [|split; [done|]; eexists _, _; split; [done|set_solver]].
  case_fault; (split; [done|]); try done; eexists _, _; (split; [done|set_solver]).
Qed.

(** Every run of a health check, whatever the datastore does. *)
Lemma health_check_of_run service g render env db :
  lookup_name g "OperationalError" = Some OperationalError_cls →
  lookup_name g "Exception" = Some Exception_cls →
  run (health_check_of service g render) env db =
    (if reachable env then
       match faulty env (mkConn db db 0) with
       | Some e => Raise (HTTPException 503 ("Service unhealthy: " +:+ str_exn e))
       | None => Return ("healthy", service)
       end
     else
       Raise (HTTPException 503
                ("Service unhealthy: " +:+ render 500 "Database connection failed")),
     db).
Proof.
  intros Hop Hex. unfold health_check_of. unfold_monad. cbn [handle].
  rewrite Hop, Hex. destruct (reachable env); reduce; [|done].
  destruct (faulty env _) as [e|] eqn:Hfault; reduce; [|done].
  by driver_error Hfault.
Qed.

(** Whatever the datastore does, a handler of the enrollment service that
    opens a connection ends by returning or by raising an [HTTPException]:
    with status 400, 404 or 500 for the seven handlers of the enrollments,
    with status 503 for the health check.  No driver exception reaches the
    caller. *)
Theorem enrollment_service_raises_http_only env db :
  (∀ req, Spec.raises_only [400; 404; 500] (run (create_enrollment req) env db).1) ∧
  (∀ id upd, Spec.raises_only [400; 404; 500] (run (update_enrollment id upd) env db).1) ∧
  (∀ id, Spec.raises_only [404; 500] (run (delete_enrollment id) env db).1) ∧
  Spec.raises_only [500] (run get_enrollments env db).1 ∧
  (∀ id, Spec.raises_only [404; 500] (run (get_enrollment id) env db).1) ∧
  (∀ id, Spec.raises_only [404; 500] (run (get_enrollments_by_student id) env db).1) ∧
  (∀ id, Spec.raises_only [404; 500] (run (get_enrollments_by_course id) env db).1) ∧
  (∀ render, Spec.raises_only [503] (run (health_check render) env db).1).
Proof.
  split_and!.
  - intros req. apply raises_only_intro.
    destruct (create_enrollment_any env db req) as [[_ Ho]|(_ & _ & Ho)];
      destruct (run _ _ _).1 as [r|e]; try done.
    + destruct Ho as [(f & _ & ->)|[m ->]]; [|by eauto 8].
      unfold Spec.error. destruct f; cbn; eauto 8.
    + destruct Ho as [m ->]. eauto 8.
  - apply update_enrollment_raises.
  - intros id. unfold Spec.raises_only.
    destruct (delete_enrollment_any env db id) as [[_ Ho]|(e & _ & _ & ->)]; [|done].
    destruct (run _ _ _).1 as [r|e]; [done|].
    destruct Ho as [[_ ->]|[m ->]]; eexists _, _; (split; [done|set_solver]).
  - apply get_enrollments_run.
  - intros id. apply get_enrollment_run.
  - intros id. apply get_enrollments_by_student_run.
  - intros id. apply get_enrollments_by_course_run.
  - intros render. unfold health_check. rewrite health_check_of_run by done.
    destruct (reachable env); cbn [fst];
      [destruct (faulty env _); [|done]|]; eexists _, _; (split; [done|set_solver]).
Qed.

(** The four reads of the enrollment service commit nothing, whatever the
    datastore does. *)
Theorem enrollment_reads_keep_state env db id :
  (run get_enrollments env db).2 = db ∧
  (run (get_enrollment id) env db).2 = db ∧
  (run (get_enrollments_by_student id) env db).2 = db ∧
  (run (get_enrollments_by_course id) env db).2 = db.
Proof.
  split_and!.
  - apply get_enrollments_run.
  - apply get_enrollment_run.
  - apply get_enrollments_by_student_run.
  - apply get_enrollments_by_course_run.
Qed.

(** ** A datastore that refuses the connection *)




(** The health check of each service answers "healthy" with the service's
    name when the connection opens and [SELECT 1] is answered; a driver error
    at that statement is answered 503 with the driver's message, a refused
    connection 503 with the text of the 500 it was turned into.  Nothing is
    committed. *)
Theorem health_check_verdict render env db :
  let verdict (service : string) : outcome (string * string) * DB :=
    (if reachable env then
       match fault env with
       | Some f =>
           if Nat.eqb (at_statement f) 0
           then Raise (HTTPException 503 ("Service unhealthy: " +:+ fault_message f))
           else Return ("healthy", service)
       | None => Return ("healthy", service)
       end
     else
       Raise (HTTPException 503
                ("Service unhealthy: " +:+ render 500 "Database connection failed")),
     db) in
  run (health_check render) env db = verdict "enrollment-service" ∧
  run (CourseService.health_check render) env db = verdict "course-service" ∧
  run (StudentService.health_check render) env db = verdict "student-service".
Proof.
  cbv zeta. unfold health_check, CourseService.health_check, StudentService.health_check.
  rewrite !health_check_of_run by done. unfold faulty. cbn [executed].
  destruct (reachable env); [|done].
  destruct (fault env) as [f|]; [|done].
  destruct (at_statement f =? 0)%nat; [|done].
  unfold fault_exn. by destruct (operational f).
Qed.

(** ** CreateEnrollment composed with the other operations *)

Lemma create_enrollment_returns env db req :
  healthy env →
  Spec.first_failing_check db req = None →
  Spec.the_enrollment db (new_enrollment_id env) = None →
  run (create_enrollment req) env db =
    (Return (mkResponse "Enrollment created successfully"
               (fetchone (enrollment_detail_by_id (new_enrollment_id env)
                            (Spec.created env db req)))),
     Spec.created env db req).
Proof.
  intros [Hr Hf] Hpre Hfresh. unfold run, create_enrollment, try_except.
  unfold mbind at 1, M_bind at 1. rewrite get_db_connection_healthy by done.
  unfold mbind at 1, M_bind at 1. rewrite create_enrollment_checks_healthy by done.
  cbn [pending]. rewrite Hpre.
  unfold mbind at 1, M_bind at 1. rewrite create_enrollment_writes_healthy by done.
  unfold create_enrollment_response. unfold_monad. by answered.
Qed.

Lemma get_enrollment_healthy env db id :
  healthy env →
  run (get_enrollment id) env db =
    (match fetchone (enrollment_detail_by_id id db) with
     | Some d => Return d
     | None => Raise (HTTPException 404 ("Enrollment with ID " +:+ pretty id +:+ " not found"))
     end, db).
Proof.
  intros [Hr Hf]. unfold get_enrollment. unfold_monad. rewrite Hr. answered.
  destruct (fetchone _); answered; done.
Qed.

Lemma delete_enrollment_healthy env db id :
  healthy env →
  run (delete_enrollment id) env db =
    match Spec.the_enrollment db id with
    | None =>
        (Raise (HTTPException 404 ("Enrollment with ID " +:+ pretty id +:+ " not found")), db)
    | Some e =>
        (Return ("Enrollment " +:+ pretty id +:+ " deleted successfully"), Spec.deleted db e)
    end.
Proof.
  intros [Hr Hf]. unfold delete_enrollment. unfold_monad. rewrite Hr. answered.
  rewrite enrollment_lookup.
  destruct (Spec.the_enrollment db id) as [e|] eqn:He; answered; [|done].
  by rewrite decrement_delete by by eapply the_enrollment_id.
Qed.

(** An enrollment that CreateEnrollment has returned is the one GetById
    returns for its identifier. *)
Theorem create_then_get env env' db req :
  healthy env → healthy env' →
  Spec.first_failing_check db req = None →
  Spec.the_enrollment db (new_enrollment_id env) = None →
  ∃ d,
    d_enrollment d = Spec.new_row env req ∧
    (run (create_enrollment req) env db).1 =
      Return (mkResponse "Enrollment created successfully" (Some d)) ∧
    run (get_enrollment (new_enrollment_id env)) env'
      (run (create_enrollment req) env db).2 =
      (Return d, (run (create_enrollment req) env db).2).
Proof.
  intros Hh Hh' Hpre Hfresh.
  destruct (first_failing_check_None db req Hpre) as (student & course & Hs & Hc & _).
  rewrite (create_enrollment_returns env db req) by done. cbn [fst snd].
  rewrite get_enrollment_healthy by done.
  rewrite (detail_of_created env db req student course) by done.
  by exists (mkEnrollmentDetail (Spec.new_row env req) (s_name student) (s_email student)
            (c_course_code course) (c_course_name course) (c_credits course)).
Qed.

Lemma create_then_get_witness :
  ∃ d,
    d_enrollment d = Spec.new_row (Scenario.env 1) (mkEnrollmentCreate 1 1) ∧
    (run (create_enrollment (mkEnrollmentCreate 1 1)) (Scenario.env 1) Scenario.db).1 =
      Return (mkResponse "Enrollment created successfully" (Some d)) ∧
    run (get_enrollment 1) (Scenario.env 2)
      (run (create_enrollment (mkEnrollmentCreate 1 1)) (Scenario.env 1) Scenario.db).2 =
      (Return d, (run (create_enrollment (mkEnrollmentCreate 1 1))
                    (Scenario.env 1) Scenario.db).2).
Proof.
  exact (create_then_get (Scenario.env 1) (Scenario.env 2) Scenario.db
           (mkEnrollmentCreate 1 1) (conj eq_refl eq_refl) (conj eq_refl eq_refl)
           eq_refl eq_refl).
Defined.

Lemma filter_negb_app_fresh {A} (p : A → bool) (l : list A) (x : A) :
  List.find p l = None → p x = true →
  List.filter (λ y, negb (p y)) (l ++ [x]) = l.
Proof.
  intros Hnone Hx. rewrite List.filter_app. cbn. rewrite Hx. cbn. rewrite app_nil_r.
  induction l as [|y l IH]; [done|]. cbn in *.
  destruct (p y); [done|]. cbn. f_equal. by apply IH.
Qed.

Lemma deleted_created env db req :
  Spec.the_enrollment db (new_enrollment_id env) = None →
  (∀ c, c ∈ courses db → c_course_id c = ec_course_id req → 0 ≤ c_current_enrollment c) →
  Spec.deleted (Spec.created env db req) (Spec.new_row env req) = db.
Proof.
  intros Hfresh Hpos. unfold Spec.deleted, Spec.created. destruct db as [ss cs es as_].
  cbn [students courses enrollments admins] in *. f_equal.
  - cbn [e_course_id Spec.new_row]. rewrite List.map_map.
    rewrite <- (List.map_id cs) at 2. apply List.map_ext_in.
    intros c Hc. apply (proj2 (list_elem_of_In _ _)) in Hc.
    destruct (Z.eqb_spec (c_course_id c) (ec_course_id req)) as [Heq|Hne]; cbn.
    + rewrite Heq, Z.eqb_refl. specialize (Hpos c Hc Heq).
      destruct c; cbn in *. unfold set_current_enrollment; cbn. f_equal. lia.
    + by destruct (Z.eqb_spec (c_course_id c) (ec_course_id req)).
  - cbn [e_enrollment_id Spec.new_row].
    apply (filter_negb_app_fresh (λ x, e_enrollment_id x =? new_enrollment_id env)).
    + exact Hfresh.
    + apply Z.eqb_refl.
Qed.

(** DeleteEnrollment undoes CreateEnrollment: deleting the enrollment that a
    call has just created gives back the rows there were before, when the
    counter of the course was not negative. *)
Theorem create_then_delete env env' db req :
  healthy env → healthy env' →
  Spec.first_failing_check db req = None →
  Spec.the_enrollment db (new_enrollment_id env) = None →
  (∀ c, c ∈ courses db → c_course_id c = ec_course_id req → 0 ≤ c_current_enrollment c) →
  run (delete_enrollment (new_enrollment_id env)) env'
    (run (create_enrollment req) env db).2 =
    (Return ("Enrollment " +:+ pretty (new_enrollment_id env) +:+ " deleted successfully"),
     db).
Proof.
  intros Hh Hh' Hpre Hfresh Hpos.
  rewrite (create_enrollment_returns env db req) by done. cbn [snd].
  rewrite delete_enrollment_healthy by done.
  rewrite the_enrollment_created by done.
  by rewrite deleted_created.
Qed.

Lemma create_then_delete_witness :
  run (delete_enrollment 1) (Scenario.env 2)
    (run (create_enrollment (mkEnrollmentCreate 1 1)) (Scenario.env 1) Scenario.db).2 =
    (Return "Enrollment 1 deleted successfully", Scenario.db).
Proof.
  apply (create_then_delete (Scenario.env 1) (Scenario.env 2) Scenario.db
           (mkEnrollmentCreate 1 1)); try (split; reflexivity); try reflexivity.
  intros c Hc _. cbn in Hc.
  apply elem_of_cons in Hc as [->|Hc]; [done|].
  apply list_elem_of_singleton in Hc as ->. done.
Defined.

Lemma existsb_app_r {A} (p : A → bool) (l : list A) (x : A) :
  p x = true → existsb p (l ++ [x]) = true.
Proof. intros Hx. rewrite existsb_app. cbn. rewrite Hx. by rewrite orb_true_r. Qed.

Lemma first_failing_check_created env db req :
  Spec.first_failing_check db req = None →
  Spec.first_failing_check (Spec.created env db req) req = Some Spec.CAPACITY_EXCEEDED ∨
  Spec.first_failing_check (Spec.created env db req) req = Some Spec.DUPLICATE.
Proof.
  intros Hpre.
  destruct (first_failing_check_None db req Hpre) as (student & course & Hs & Hc & Hst & _).
  unfold Spec.first_failing_check in *.
  change (Spec.student_exists (Spec.created env db req) (ec_student_id req))
    with (Spec.student_exists db (ec_student_id req)).
  destruct (Spec.student_exists db (ec_student_id req)); [|done]. cbn [negb].
  rewrite (the_course_created env db req course Hc).
  cbn [c_status c_current_enrollment c_max_capacity set_current_enrollment].
  rewrite Hst. cbn.
  destruct (_ <? _); cbn; [|by left].
  right. unfold Spec.enrolled. cbn [enrollments Spec.created].
  rewrite existsb_app_r; [done|]. cbn. by rewrite !Z.eqb_refl.
Qed.

(** A request that has succeeded does not succeed again: repeated on the
    state it left, it is answered "Course is full" or "Student is already
    enrolled in this course", and commits nothing. *)
Theorem create_twice_rejected env env' db req :
  healthy env → healthy env' →
  Spec.first_failing_check db req = None →
  Spec.the_enrollment db (new_enrollment_id env) = None →
  ∃ f, (f = Spec.CAPACITY_EXCEEDED ∨ f = Spec.DUPLICATE) ∧
       run (create_enrollment req) env' (run (create_enrollment req) env db).2 =
         (Raise (Spec.error req f), (run (create_enrollment req) env db).2).
Proof.
  intros Hh Hh' Hpre Hfresh.
  rewrite (create_enrollment_returns env db req) by done. cbn [snd].
  destruct (first_failing_check_created env db req Hpre) as [Hf|Hf].
  - exists Spec.CAPACITY_EXCEEDED. split; [by left|]. by apply create_enrollment_rejects.
  - exists Spec.DUPLICATE. split; [by right|]. by apply create_enrollment_rejects.
Qed.

Lemma create_twice_rejected_witness :
  ∃ f, (f = Spec.CAPACITY_EXCEEDED ∨ f = Spec.DUPLICATE) ∧
       run (create_enrollment (mkEnrollmentCreate 1 1)) (Scenario.env 2)
         (run (create_enrollment (mkEnrollmentCreate 1 1)) (Scenario.env 1) Scenario.db).2 =
         (Raise (Spec.error (mkEnrollmentCreate 1 1) f),
          (run (create_enrollment (mkEnrollmentCreate 1 1)) (Scenario.env 1) Scenario.db).2).
Proof.
  exact (create_twice_rejected (Scenario.env 1) (Scenario.env 2) Scenario.db
           (mkEnrollmentCreate 1 1) (conj eq_refl eq_refl) (conj eq_refl eq_refl)
           eq_refl eq_refl).
Defined.

(** ** Invariants the enrollment service keeps *)

Section Columns.
Context {A K : Type} (key : A → K).

Lemma keys_map (g : A → A) (l : list A) :
  (∀ x, key (g x) = key x) → key <$> map g l = key <$> l.
Proof.
  intros Hkey. induction l as [|x l IH]; [done|]. cbn. by rewrite Hkey, IH.
Qed.

Lemma keys_filter (p : A → bool) (l : list A) :
  NoDup (key <$> l) → NoDup (key <$> List.filter p l).
Proof.
  induction l as [|x l IH]; [done|]. cbn. rewrite NoDup_cons. intros [Hx Hl].
  destruct (p x); [|by apply IH]. cbn. apply NoDup_cons. split; [|by apply IH].
  intros (y & Hy & Hin%list_elem_of_In%List.filter_In)%list_elem_of_fmap.
  apply Hx. apply list_elem_of_fmap. exists y. split; [done|].
  apply list_elem_of_In. tauto.
Qed.

Lemma keys_snoc (l : list A) (x : A) :
  NoDup (key <$> l) → (∀ y, y ∈ l → key y ≠ key x) → NoDup (key <$> (l ++ [x])).
Proof.
  intros Hl Hx. rewrite fmap_app. apply NoDup_app. split_and!; [done| |].
  - intros k (y & -> & Hy)%list_elem_of_fmap Hk. cbn in Hk.
    apply list_elem_of_singleton in Hk. by apply (Hx y).
  - cbn. apply NoDup_singleton.
Qed.

End Columns.

Section Keys.
Context {A : Type} (key : A → Z).

(** With unique keys, the row a key selects is the only one that has it. *)
Lemma find_unique (k : Z) (l : list A) (x y : A) :
  NoDup (key <$> l) → List.find (λ z, key z =? k) l = Some x →
  y ∈ l → key y = k → y = x.
Proof.
  induction l as [|z l IH]; [done|]. cbn. rewrite NoDup_cons. intros [Hz Hl].
  destruct (Z.eqb_spec (key z) k) as [Hk|Hk].
  - intros [= <-] [->|Hy]%elem_of_cons Hy'; [done|].
    destruct Hz. apply list_elem_of_fmap. exists y. split; [congruence|done].
  - intros Hfind [->|Hy]%elem_of_cons Hy'; [done|]. by apply IH.
Qed.

Lemma count_map (P : A → Prop) `{∀ x, Decision (P x)} (g : A → A) (l : list A) :
  (∀ x, P (g x) ↔ P x) →
  length (filter P (map g l)) = length (filter P l).
Proof.
  intros HP. induction l as [|x l IH]; [done|]. cbn [map]. rewrite !filter_cons.
  destruct (decide (P (g x))) as [H1|H1], (decide (P x)) as [H2|H2]; cbn;
    rewrite ?IH; try done.
  - destruct H2. by apply HP.
  - destruct H1. by apply HP.
Qed.

Lemma count_snoc (P : A → Prop) `{∀ x, Decision (P x)} (l : list A) (x : A) :
  length (filter P (l ++ [x])) =
    (length (filter P l) + if decide (P x) then 1 else 0)%nat.
Proof.
  rewrite filter_app, length_app, filter_cons. by destruct (decide (P x)).
Qed.

(** With unique keys, deleting by the key of a row removes that row and no
    other. *)
Lemma count_remove (P : A → Prop) `{∀ x, Decision (P x)} (l : list A) (e : A) :
  NoDup (key <$> l) → e ∈ l →
  (length (filter P (List.filter (λ x, negb (Z.eqb (key x) (key e))) l)) +
     if decide (P e) then 1 else 0)%nat = length (filter P l).
Proof.
  induction l as [|x l IH]; [by intros _ ?%elem_of_nil|].
  cbn [fmap list_fmap List.filter]. rewrite NoDup_cons. intros [Hx Hl] He.
  apply elem_of_cons in He as [->|He].
  - rewrite Z.eqb_refl. cbn [negb]. rewrite filter_cons.
    assert (List.filter (λ y, negb (key y =? key x)) l = l) as ->.
    { apply List.forallb_filter_id, List.forallb_forall. intros y Hy.
      apply negb_true_iff, Z.eqb_neq. intros Heq. apply Hx.
      apply list_elem_of_fmap. exists y. split; [done|by apply list_elem_of_In]. }
    destruct (decide (P x)); cbn; lia.
  - destruct (Z.eqb_spec (key x) (key e)) as [Heq|Hne]; cbn [negb].
    + destruct Hx. apply list_elem_of_fmap. by exists e.
    + rewrite !filter_cons. destruct (decide (P x)); cbn; rewrite <- (IH Hl He); lia.
Qed.

End Keys.

Lemma the_enrollment_Some db id e :
  Spec.the_enrollment db id = Some e → e ∈ enrollments db ∧ e_enrollment_id e = id.
Proof.
  intros [Hin Hid]%find_some. split; [by apply list_elem_of_In|by apply Z.eqb_eq].
Qed.

(** *** The effects and the invariants *)

Lemma created_ids_unique env db req :
  Spec.the_enrollment db (new_enrollment_id env) = None →
  Spec.enrollment_ids_unique db → Spec.enrollment_ids_unique (Spec.created env db req).
Proof.
  intros Hfresh Hu. unfold Spec.enrollment_ids_unique. cbn [enrollments Spec.created].
  apply keys_snoc; [done|]. intros y Hy. by apply (the_enrollment_None db).
Qed.

Lemma created_consistent env db req :
  Spec.counters_consistent db → Spec.counters_consistent (Spec.created env db req).
Proof.
  intros Hc c' Hc'. cbn [courses Spec.created] in Hc'.
  apply list_elem_of_In, in_map_iff in Hc' as (c & <- & Hin%list_elem_of_In).
  specialize (Hc c Hin). unfold Spec.referencing in *. cbn [enrollments Spec.created].
  destruct (Z.eqb_spec (c_course_id c) (ec_course_id req)) as [Heq|Hne];
    cbn [c_course_id c_current_enrollment set_current_enrollment];
    rewrite count_snoc; cbn [e_course_id Spec.new_row];
    destruct (decide (ec_course_id req = c_course_id c)); try congruence; lia.
Qed.

Lemma deleted_ids_unique db e :
  Spec.enrollment_ids_unique db → Spec.enrollment_ids_unique (Spec.deleted db e).
Proof. apply keys_filter. Qed.

Lemma deleted_consistent db e :
  e ∈ enrollments db →
  Spec.enrollment_ids_unique db →
  Spec.counters_consistent db → Spec.counters_consistent (Spec.deleted db e).
Proof.
  intros He Hu Hc c' Hc'. cbn [courses Spec.deleted] in Hc'.
  apply list_elem_of_In, in_map_iff in Hc' as (c & <- & Hin%list_elem_of_In).
  specialize (Hc c Hin). unfold Spec.referencing in *. cbn [enrollments Spec.deleted].
  pose proof (count_remove e_enrollment_id (λ x, e_course_id x = c_course_id c)
                (enrollments db) e Hu He) as Hcount.
  destruct (Z.eqb_spec (c_course_id c) (e_course_id e)) as [Heq|Hne];
    cbn [c_course_id c_current_enrollment set_current_enrollment];
    destruct (decide (e_course_id e = c_course_id c)); try congruence; lia.
Qed.

Lemma updated_ids_unique db id upd :
  Spec.enrollment_ids_unique db → Spec.enrollment_ids_unique (Spec.updated db id upd).
Proof.
  unfold Spec.enrollment_ids_unique. cbn [enrollments Spec.updated].
  rewrite (keys_map e_enrollment_id); [done|].
  intros e. by destruct (e_enrollment_id e =? id).
Qed.

Lemma updated_consistent db id upd :
  Spec.counters_consistent db → Spec.counters_consistent (Spec.updated db id upd).
Proof.
  intros Hc c Hin. rewrite (Hc c Hin). unfold Spec.referencing.
  cbn [enrollments Spec.updated]. f_equal. symmetry. apply count_map.
  intros e. by destruct (e_enrollment_id e =? id).
Qed.

(** In the state a CreateEnrollment has committed, the identity of the new
    row was not in use before. *)
Lemma create_enrollment_commits env db req :
  (run (create_enrollment req) env db).2 = db ∨
  ((run (create_enrollment req) env db).2 = Spec.created env db req ∧
   Spec.first_failing_check db req = None ∧
   Spec.the_enrollment db (new_enrollment_id env) = None).
Proof.
  destruct (create_enrollment_any env db req) as [[H _]|(H & Hpre & _)]; [by left|].
  destruct (Spec.the_enrollment db (new_enrollment_id env)) as [e|] eqn:Hid; [|by right].
  left. unfold run, create_enrollment, try_except at 1. unfold mbind, M_bind.
  unfold get_db_connection, try_except, psycopg_connect.
  destruct (reachable env);
    cbn -[create_enrollment_checks create_enrollment_writes create_enrollment_response];
    [|done].
  pose proof (create_enrollment_checks_any env (mkConn db db 0) req) as [Hc Ho].
  destruct (create_enrollment_checks req env _) as [[[]|e'] st1];
    cbn [fst snd pending committed] in *.
  - destruct Ho as [_ Hp].
    assert (committed (create_enrollment_writes req env st1).2 = db ∧
            ∃ e'', (create_enrollment_writes req env st1).1 = Raise e'' ∧
                   ∃ m, e'' = DatabaseError m ∨ e'' = OperationalError m) as (Hw & e'' & Hr & m & Hm).
    { rewrite <- Hp in Hid. rewrite <- enrollment_lookup in Hid.
      apply fetchone_Some_cons in Hid as [l Hl].
      unfold create_enrollment_writes, insert_enrollment. unfold_monad. reduce.
      case_fault; [eauto 8..|]. rewrite Hl.
      rewrite bool_decide_eq_false_2 by done. reduce. eauto 8. }
    destruct (create_enrollment_writes req env st1) as [o st2]. cbn [fst snd] in *.
    subst o. by destruct Hm as [-> | ->]; reduce.
  - destruct Ho as [(f & Hf & ->) | (m & [-> | ->])]; reduce; by rewrite ?Hc.
Qed.

(** I1, with the primary key of the enrollments: whatever the datastore
    does, CreateEnrollment, DeleteEnrollment and UpdateEnrollment take a
    state in which every counter is the number of enrollments of its course
    to a state in which it is. *)
Theorem counters_stay_consistent env db :
  Spec.enrollment_ids_unique db →
  Spec.counters_consistent db →
  (∀ req, Spec.enrollment_ids_unique (run (create_enrollment req) env db).2 ∧
          Spec.counters_consistent (run (create_enrollment req) env db).2) ∧
  (∀ id, Spec.enrollment_ids_unique (run (delete_enrollment id) env db).2 ∧
         Spec.counters_consistent (run (delete_enrollment id) env db).2) ∧
  (∀ id upd, Spec.enrollment_ids_unique (run (update_enrollment id upd) env db).2 ∧
             Spec.counters_consistent (run (update_enrollment id upd) env db).2).
Proof.
  intros Hu Hc. split_and!.
  - intros req.
    destruct (create_enrollment_commits env db req) as [-> | (-> & _ & Hfresh)]; [done|].
    split; [by apply created_ids_unique|by apply created_consistent].
  - intros id.
    destruct (delete_enrollment_any env db id) as [[-> _]|(e & He & -> & _)]; [done|].
    apply the_enrollment_Some in He as [He _].
    split; [by apply deleted_ids_unique|by apply deleted_consistent].
  - intros id upd.
    destruct (update_enrollment_any env db id upd) as [-> | ->]; [done|].
    split; [by apply updated_ids_unique|by apply updated_consistent].
Qed.

Lemma counters_stay_consistent_witness :
  Spec.counters_consistent
    (run (create_enrollment (mkEnrollmentCreate 1 1)) (Scenario.env 1) Scenario.db).2.
Proof.
  refine (proj2 (proj1 (counters_stay_consistent (Scenario.env 1) Scenario.db _ _)
                   (mkEnrollmentCreate 1 1))).
  - apply NoDup_nil_2.
  - intros c Hc. apply elem_of_cons in Hc as [->|Hc]; [done|].
    apply list_elem_of_singleton in Hc as ->. done.
Defined.

Lemma enrolled_false db sid cid :
  Spec.enrolled db sid cid = false →
  ∀ e, e ∈ enrollments db → (e_student_id e, e_course_id e) ≠ (sid, cid).
Proof.
  unfold Spec.enrolled. intros Hno e He [= Hs Hc].
  assert (existsb (λ e, (e_student_id e =? sid) && (e_course_id e =? cid))
            (enrollments db) = true) as Hyes; [|congruence].
  apply existsb_exists. exists e. split; [by apply list_elem_of_In|].
  by rewrite Hs, Hc, !Z.eqb_refl.
Qed.

(** I2: whatever the datastore does, CreateEnrollment, DeleteEnrollment and
    UpdateEnrollment take a state in which no two enrollments share their
    (student, course) pair to a state in which none do. *)
Theorem pairs_stay_unique env db :
  Spec.pairs_unique db →
  (∀ req, Spec.pairs_unique (run (create_enrollment req) env db).2) ∧
  (∀ id, Spec.pairs_unique (run (delete_enrollment id) env db).2) ∧
  (∀ id upd, Spec.pairs_unique (run (update_enrollment id upd) env db).2).
Proof.
  intros Hu. split_and!.
  - intros req.
    destruct (create_enrollment_commits env db req) as [-> | (-> & Hpre & _)]; [done|].
    destruct (first_failing_check_None db req Hpre) as (_ & _ & _ & _ & _ & _ & Hno).
    unfold Spec.pairs_unique. cbn [enrollments Spec.created].
    apply (keys_snoc (λ e, (e_student_id e, e_course_id e))); [done|].
    intros y Hy. by apply (enrolled_false db).
  - intros id.
    destruct (delete_enrollment_any env db id) as [[-> _]|(e & _ & -> & _)]; [done|].
    by apply (keys_filter (λ e, (e_student_id e, e_course_id e))).
  - intros id upd.
    destruct (update_enrollment_any env db id upd) as [-> | ->]; [done|].
    unfold Spec.pairs_unique. cbn [enrollments Spec.updated].
    rewrite (keys_map (λ e, (e_student_id e, e_course_id e))); [done|].
    intros e. by destruct (e_enrollment_id e =? id).
Qed.

Lemma pairs_stay_unique_witness :
  Spec.pairs_unique
    (run (create_enrollment (mkEnrollmentCreate 2 1)) (Scenario.env 8) Scenario.drifted).2.
Proof.
  refine (proj1 (pairs_stay_unique (Scenario.env 8) Scenario.drifted _)
            (mkEnrollmentCreate 2 1)).
  apply NoDup_singleton.
Defined.

Lemma created_within_capacity env db req :
  Spec.first_failing_check db req = None →
  Spec.course_ids_unique db →
  Spec.within_capacity db → Spec.within_capacity (Spec.created env db req).
Proof.
  intros Hpre Hu Hw c' Hc'.
  destruct (first_failing_check_None db req Hpre) as (_ & course & _ & Hc & _ & Hcap & _).
  cbn [courses Spec.created] in Hc'.
  apply list_elem_of_In, in_map_iff in Hc' as (c & <- & Hin%list_elem_of_In).
  specialize (Hw c Hin).
  destruct (Z.eqb_spec (c_course_id c) (ec_course_id req)) as [Heq|Hne]; [|done].
  assert (c = course) as -> by by eapply (find_unique c_course_id).
  cbn. lia.
Qed.

Lemma deleted_within_capacity db e :
  Spec.within_capacity db → Spec.within_capacity (Spec.deleted db e).
Proof.
  intros Hw c' Hc'. cbn [courses Spec.deleted] in Hc'.
  apply list_elem_of_In, in_map_iff in Hc' as (c & <- & Hin%list_elem_of_In).
  specialize (Hw c Hin).
  destruct (Z.eqb_spec (c_course_id c) (e_course_id e)); cbn; lia.
Qed.

(** With the primary key of the courses: whatever the datastore does,
    CreateEnrollment, DeleteEnrollment and UpdateEnrollment, run one at a
    time, take a state in which every counter is between 0 and the capacity
    of its course to a state in which it is. *)
Theorem capacity_stays_respected env db :
  Spec.course_ids_unique db →
  Spec.within_capacity db →
  (∀ req, Spec.course_ids_unique (run (create_enrollment req) env db).2 ∧
          Spec.within_capacity (run (create_enrollment req) env db).2) ∧
  (∀ id, Spec.course_ids_unique (run (delete_enrollment id) env db).2 ∧
         Spec.within_capacity (run (delete_enrollment id) env db).2) ∧
  (∀ id upd, Spec.course_ids_unique (run (update_enrollment id upd) env db).2 ∧
             Spec.within_capacity (run (update_enrollment id upd) env db).2).
Proof.
  intros Hu Hw. split_and!.
  - intros req.
    destruct (create_enrollment_commits env db req) as [-> | (-> & Hpre & _)]; [done|].
    split; [|by apply created_within_capacity].
    unfold Spec.course_ids_unique. cbn [courses Spec.created].
    rewrite (keys_map c_course_id); [done|].
    intros c. by destruct (c_course_id c =? ec_course_id req).
  - intros id.
    destruct (delete_enrollment_any env db id) as [[-> _]|(e & _ & -> & _)]; [done|].
    split; [|by apply deleted_within_capacity].
    unfold Spec.course_ids_unique. cbn [courses Spec.deleted].
    rewrite (keys_map c_course_id); [done|].
    intros c. by destruct (c_course_id c =? e_course_id e).
  - intros id upd.
    by destruct (update_enrollment_any env db id upd) as [-> | ->].
Qed.

Lemma capacity_stays_respected_witness :
  Spec.within_capacity
    (run (create_enrollment (mkEnrollmentCreate 1 1)) (Scenario.env 1) Scenario.db).2.
Proof.
  refine (proj2 (proj1 (capacity_stays_respected (Scenario.env 1) Scenario.db _ _)
                   (mkEnrollmentCreate 1 1))).
  - apply (NoDup_ListNoDup [1; 2]). repeat constructor; cbn; intuition discriminate.
  - intros c Hc. apply elem_of_cons in Hc as [->|Hc]; [done|].
    apply list_elem_of_singleton in Hc as ->. done.
Defined.

(** ** UpdateEnrollment and DeleteEnrollment, repeated and read back *)

Lemma patched_idempotent upd e : Spec.patched upd (Spec.patched upd e) = Spec.patched upd e.
Proof. unfold Spec.patched. by destruct (eu_grade upd), (eu_status upd). Qed.

Lemma updated_idempotent db id upd :
  Spec.updated (Spec.updated db id upd) id upd = Spec.updated db id upd.
Proof.
  unfold Spec.updated. cbn [students courses enrollments admins]. f_equal.
  rewrite List.map_map. apply List.map_ext. intros e.
  destruct (Z.eqb_spec (e_enrollment_id e) id) as [Heq|Hne].
  - change (e_enrollment_id (Spec.patched upd e)) with (e_enrollment_id e).
    destruct (Z.eqb_spec (e_enrollment_id e) id); [|done]. apply patched_idempotent.
  - by destruct (Z.eqb_spec (e_enrollment_id e) id).
Qed.

(** UpdateEnrollment is idempotent: the same update applied to the state it
    left is answered as the first time and leaves that state. *)
Theorem update_enrollment_idempotent env env' db id upd :
  healthy env → healthy env' →
  run (update_enrollment id upd) env' (run (update_enrollment id upd) env db).2 =
    run (update_enrollment id upd) env db.
Proof.
  intros Hh Hh'. rewrite (update_enrollment_healthy env db) by done.
  destruct (Spec.the_enrollment db id) as [e|] eqn:He; cbn [snd].
  - destruct (Spec.no_fields upd) eqn:Hno; cbn [snd].
    + rewrite update_enrollment_healthy by done. by rewrite He, Hno.
    + rewrite update_enrollment_healthy by done.
      rewrite the_enrollment_updated, He. cbn [fmap option_fmap option_map]. rewrite Hno.
      by rewrite (updated_idempotent db id upd).
  - rewrite update_enrollment_healthy by done. by rewrite He.
Qed.

Lemma update_enrollment_idempotent_witness :
  run (update_enrollment 7 (mkEnrollmentUpdate (Some "A") None)) (Scenario.env 2)
    (run (update_enrollment 7 (mkEnrollmentUpdate (Some "A") None))
       (Scenario.env 1) Scenario.drifted).2 =
    run (update_enrollment 7 (mkEnrollmentUpdate (Some "A") None))
      (Scenario.env 1) Scenario.drifted.
Proof.
  exact (update_enrollment_idempotent (Scenario.env 1) (Scenario.env 2) Scenario.drifted 7
           (mkEnrollmentUpdate (Some "A") None) (conj eq_refl eq_refl) (conj eq_refl eq_refl)).
Defined.

Lemma find_map_Some {A} (p : A → bool) (g : A → A) (l : list A) (x : A) :
  (∀ y, p (g y) = p y) → List.find p l = Some x → List.find p (map g l) = Some (g x).
Proof.
  intros Hp. induction l as [|y l IH]; [done|]. cbn. rewrite Hp.
  destruct (p y); [by intros [= ->]|done].
Qed.

(** Whatever the datastore does, UpdateEnrollment removes no enrollment,
    moves none to another student or course, and clears no grade: an update
    can replace a grade, not take it away. *)
Theorem update_enrollment_keeps_rows env db id upd id' e :
  Spec.the_enrollment db id' = Some e →
  ∃ e', Spec.the_enrollment (run (update_enrollment id upd) env db).2 id' = Some e' ∧
        e_student_id e' = e_student_id e ∧
        e_course_id e' = e_course_id e ∧
        e_enrollment_date e' = e_enrollment_date e ∧
        (is_Some (e_grade e) → is_Some (e_grade e')).
Proof.
  intros He.
  destruct (update_enrollment_any env db id upd) as [-> | ->]; [by exists e|].
  unfold Spec.the_enrollment in *. cbn [enrollments Spec.updated].
  erewrite find_map_Some; [| |exact He].
  - eexists. split; [done|].
    destruct (e_enrollment_id e =? id); [|done].
    unfold Spec.patched. cbn. split_and!; try done.
    destruct (eu_grade upd); eauto.
  - intros y. by destruct (e_enrollment_id y =? id).
Qed.

Lemma update_enrollment_keeps_rows_witness :
  ∃ e', Spec.the_enrollment
          (run (update_enrollment 7 (mkEnrollmentUpdate None (Some "completed")))
             (Scenario.env 1) Scenario.drifted).2 7 = Some e' ∧
        e_student_id e' = 1 ∧ e_course_id e' = 1 ∧ e_enrollment_date e' = 900 ∧
        (is_Some (None : option string) → is_Some (e_grade e')).
Proof.
  exact (update_enrollment_keeps_rows (Scenario.env 1) Scenario.drifted 7
           (mkEnrollmentUpdate None (Some "completed")) 7
           (mkEnrollment 7 1 1 900 None "enrolled") eq_refl).
Defined.

Lemma detail_of_deleted db e :
  enrollment_detail_by_id (e_enrollment_id e) (Spec.deleted db e) = [].
Proof.
  unfold enrollment_detail_by_id, enrollment_details. apply filter_none.
  intros d (x & Hd & Hx)%list_elem_of_bind.
  apply list_elem_of_bind in Hd as (s & Hd & _).
  apply list_elem_of_bind in Hd as (c & Hd & _).
  apply list_elem_of_singleton in Hd as ->. cbn [d_enrollment].
  cbn [enrollments Spec.deleted] in Hx.
  apply list_elem_of_In, List.filter_In in Hx as [_ Hx].
  by apply negb_true_iff, Z.eqb_neq in Hx.
Qed.

(** An enrollment that DeleteEnrollment has deleted is gone: GetById and a
    second DeleteEnrollment for its identifier are answered NOT_FOUND, and the
    second delete does not decrement the counter again. *)
Theorem delete_then_not_found env env' db id e :
  healthy env → healthy env' →
  Spec.the_enrollment db id = Some e →
  let db' := (run (delete_enrollment id) env db).2 in
  db' = Spec.deleted db e ∧
  run (get_enrollment id) env' db' =
    (Raise (HTTPException 404 ("Enrollment with ID " +:+ pretty id +:+ " not found")), db') ∧
  run (delete_enrollment id) env' db' =
    (Raise (HTTPException 404 ("Enrollment with ID " +:+ pretty id +:+ " not found")), db').
Proof.
  intros Hh Hh' He db'. subst db'.
  rewrite (delete_enrollment_healthy env db) by done. rewrite He. cbn [snd].
  pose proof (the_enrollment_id db id e He) as <-.
  split_and!; [done| |].
  - rewrite get_enrollment_healthy by done. by rewrite detail_of_deleted.
  - rewrite delete_enrollment_healthy by done.
    unfold Spec.the_enrollment at 1. cbn [enrollments Spec.deleted].
    by rewrite (find_filter_negb (λ x, e_enrollment_id x =? e_enrollment_id e)).
Qed.

Lemma delete_then_not_found_witness :
  let db' := (run (delete_enrollment 7) (Scenario.env 1) Scenario.drifted).2 in
  db' = Spec.deleted Scenario.drifted (mkEnrollment 7 1 1 900 None "enrolled") ∧
  run (get_enrollment 7) (Scenario.env 2) db' =
    (Raise (HTTPException 404 ("Enrollment with ID " +:+ pretty 7 +:+ " not found")), db') ∧
  run (delete_enrollment 7) (Scenario.env 2) db' =
    (Raise (HTTPException 404 ("Enrollment with ID " +:+ pretty 7 +:+ " not found")), db').
Proof.
  exact (delete_then_not_found (Scenario.env 1) (Scenario.env 2) Scenario.drifted 7
           (mkEnrollment 7 1 1 900 None "enrolled")
           (conj eq_refl eq_refl) (conj eq_refl eq_refl) eq_refl).
Defined.

(** ** The order and the content of the lists *)

Lemma insert_by_sorted {A} (before : A → A → bool) (x : A) (l : list A) :
  (∀ a b, before a b = false → before b a = true) →
  Sorted (λ a b, before a b = true) l →
  Sorted (λ a b, before a b = true) (insert_by before x l).
Proof.
  intros Htotal. induction l as [|y l IH]; intros Hl; cbn.
  - by repeat constructor.
  - destruct (before x y) eqn:Hxy.
    + constructor; [done|]. by constructor.
    + apply Sorted_inv in Hl as [Hl Hy]. constructor; [by apply IH|].
      destruct l as [|z l]; cbn.
      * constructor. by apply Htotal.
      * destruct (before x z); constructor; [by apply Htotal|].
        by apply HdRel_inv in Hy.
Qed.

Lemma sort_by_sorted {A} (before : A → A → bool) (l : list A) :
  (∀ a b, before a b = false → before b a = true) →
  Sorted (λ a b, before a b = true) (sort_by before l).
Proof.
  intros Htotal. induction l as [|x l IH]; cbn; [constructor|].
  by apply insert_by_sorted.
Qed.

Lemma Sorted_weaken {A} (R R' : A → A → Prop) (l : list A) :
  (∀ a b, R a b → R' a b) → Sorted R l → Sorted R' l.
Proof.
  intros HR. induction 1 as [|a l Hl IH Hhd]; constructor; [done|].
  destruct Hhd; constructor. by apply HR.
Qed.

(** [ORDER BY key DESC] gives the rows latest first. *)
Lemma order_by_desc_descending {A} (key : A → Z) (l : list A) :
  Spec.descending key (order_by_desc key l).
Proof.
  unfold Spec.descending, order_by_desc.
  apply (Sorted_weaken (λ x y, (key y <=? key x) = true)).
  - intros a b Hab. by apply Z.leb_le.
  - apply (sort_by_sorted (λ x y, key y <=? key x)).
    intros a b Hab. apply Z.leb_gt in Hab. apply Z.leb_le. lia.
Qed.

Lemma order_by_desc_elem {A} (key : A → Z) (l : list A) (x : A) :
  x ∈ order_by_desc key l ↔ x ∈ l.
Proof. unfold order_by_desc. by rewrite sort_by_perm. Qed.

Lemma student_enrollments_elem db id r :
  r ∈ student_enrollments id db ↔
  ∃ e c, e ∈ enrollments db ∧ e_student_id e = id ∧
         c ∈ courses db ∧ c_course_id c = e_course_id e ∧
         r = mkStudentEnrollment e (c_course_code c) (c_course_name c) (c_credits c)
               (c_instructor c).
Proof.
  unfold student_enrollments. rewrite order_by_desc_elem, list_elem_of_bind. split.
  - intros (e & Hr & [He Hin]%list_elem_of_filter).
    apply list_elem_of_bind in Hr as (c & Hr & [Hc Hcin]%list_elem_of_filter).
    apply list_elem_of_singleton in Hr. eauto 10.
  - intros (e & c & He & Hid & Hc & Hcid & ->).
    exists e. split; [|by apply list_elem_of_filter].
    apply list_elem_of_bind. exists c. split; [by apply list_elem_of_singleton|].
    by apply list_elem_of_filter.
Qed.

Lemma course_enrollments_elem db id r :
  r ∈ course_enrollments id db ↔
  ∃ e s, e ∈ enrollments db ∧ e_course_id e = id ∧
         s ∈ students db ∧ s_student_id s = e_student_id e ∧
         r = mkCourseEnrollment e (s_name s) (s_email s) (s_phone s).
Proof.
  unfold course_enrollments. rewrite order_by_desc_elem, list_elem_of_bind. split.
  - intros (e & Hr & [He Hin]%list_elem_of_filter).
    apply list_elem_of_bind in Hr as (s & Hr & [Hs Hsin]%list_elem_of_filter).
    apply list_elem_of_singleton in Hr. eauto 10.
  - intros (e & s & He & Hid & Hs & Hsid & ->).
    exists e. split; [|by apply list_elem_of_filter].
    apply list_elem_of_bind. exists s. split; [by apply list_elem_of_singleton|].
    by apply list_elem_of_filter.
Qed.

Lemma get_enrollments_by_student_returns env db id l :
  (run (get_enrollments_by_student id) env db).1 = Return l → l = student_enrollments id db.
Proof.
  unfold get_enrollments_by_student. unfold_monad.
  destruct (reachable env); reduce; [|done].
  case_fault; [done..|].
  destruct (fetchone (students_by_id id db)); reduce; [|done].
  case_fault; [done..|]. by intros [= <-].
Qed.

Lemma get_enrollments_by_course_returns env db id l :
  (run (get_enrollments_by_course id) env db).1 = Return l → l = course_enrollments id db.
Proof.
  unfold get_enrollments_by_course. unfold_monad.
  destruct (reachable env); reduce; [|done].
  case_fault; [done..|].
  destruct (fetchone (courses_by_id id db)); reduce; [|done].
  case_fault; [done..|]. by intros [= <-].
Qed.

(** What ListByStudent and ListByCourse return, when they return: the rows
    latest enrollment first; for a student exactly the student's enrollments
    whose course row exists, each with the code, name, credits and instructor
    of that course; for a course exactly its enrollments whose student row
    exists, each with the name, email and phone of that student. *)
Theorem scoped_lists_content env db id :
  (∀ l, (run (get_enrollments_by_student id) env db).1 = Return l →
        Spec.descending (λ r, e_enrollment_date (se_enrollment r)) l ∧
        ∀ r, r ∈ l ↔
             ∃ e c, e ∈ enrollments db ∧ e_student_id e = id ∧
                    c ∈ courses db ∧ c_course_id c = e_course_id e ∧
                    r = mkStudentEnrollment e (c_course_code c) (c_course_name c)
                          (c_credits c) (c_instructor c)) ∧
  (∀ l, (run (get_enrollments_by_course id) env db).1 = Return l →
        Spec.descending (λ r, e_enrollment_date (ce_enrollment r)) l ∧
        ∀ r, r ∈ l ↔
             ∃ e s, e ∈ enrollments db ∧ e_course_id e = id ∧
                    s ∈ students db ∧ s_student_id s = e_student_id e ∧
                    r = mkCourseEnrollment e (s_name s) (s_email s) (s_phone s)).
Proof.
  split.
  - intros l ->%get_enrollments_by_student_returns. split.
    + apply order_by_desc_descending.
    + apply student_enrollments_elem.
  - intros l ->%get_enrollments_by_course_returns. split.
    + apply order_by_desc_descending.
    + apply course_enrollments_elem.
Qed.

(** Ann's enrollments in the sample are stored oldest first and listed
    latest first, each with its course; likewise the enrollments of the first
    course, each with its student. *)
Lemma scoped_lists_content_witness :
  let by_student :=
    [mkStudentEnrollment (mkEnrollment 8 1 2 950 (Some "A") "completed")
       "PH102" "Logic" 4 None;
     mkStudentEnrollment (mkEnrollment 7 1 1 900 None "enrolled")
       "MA101" "Algebra" 3 (Some "Noether")] in
  let by_course :=
    [mkCourseEnrollment (mkEnrollment 9 2 1 920 None "enrolled")
       "Bob" "bob@example.org" (Some "555");
     mkCourseEnrollment (mkEnrollment 7 1 1 900 None "enrolled")
       "Ann" "ann@example.org" None] in
  ((run (get_enrollments_by_student 1) (Scenario.env 1) Scenario.busy).1 = Return by_student ∧
   Spec.descending (λ r, e_enrollment_date (se_enrollment r)) by_student ∧
   ∀ r, r ∈ by_student ↔
        ∃ e c, e ∈ enrollments Scenario.busy ∧ e_student_id e = 1 ∧
               c ∈ courses Scenario.busy ∧ c_course_id c = e_course_id e ∧
               r = mkStudentEnrollment e (c_course_code c) (c_course_name c)
                     (c_credits c) (c_instructor c)) ∧
  ((run (get_enrollments_by_course 1) (Scenario.env 1) Scenario.busy).1 = Return by_course ∧
   Spec.descending (λ r, e_enrollment_date (ce_enrollment r)) by_course ∧
   ∀ r, r ∈ by_course ↔
        ∃ e s, e ∈ enrollments Scenario.busy ∧ e_course_id e = 1 ∧
               s ∈ students Scenario.busy ∧ s_student_id s = e_student_id e ∧
               r = mkCourseEnrollment e (s_name s) (s_email s) (s_phone s)).
Proof.
  intros by_student by_course. split.
  - split; [reflexivity|].
    exact (proj1 (scoped_lists_content (Scenario.env 1) Scenario.busy 1) by_student eq_refl).
  - split; [reflexivity|].
    exact (proj2 (scoped_lists_content (Scenario.env 1) Scenario.busy 1) by_course eq_refl).
Defined.

(** ** The token table *)

(** [verify_admin_token] never adds a session and never alters one; it
    removes at most one entry of the table, and only an entry whose expiry
    time is past; a call that lets the request through leaves the table as it
    was. *)
Theorem verify_admin_token_table authorization now
    (active_tokens : gmap string CourseService.Session) :
  let r := CourseService.verify_admin_token authorization now active_tokens in
  (∀ t s, r.2 !! t = Some s → active_tokens !! t = Some s) ∧
  (∀ t s, active_tokens !! t = Some s → r.2 !! t = None →
          CourseService.expires_at s < now) ∧
  (∀ t t' s s', active_tokens !! t = Some s → r.2 !! t = None →
                active_tokens !! t' = Some s' → r.2 !! t' = None → t = t') ∧
  (∀ u, r.1 = Return u → r.2 = active_tokens).
Proof.
  unfold CourseService.verify_admin_token, CourseService.unauthorized.
  destruct authorization as [[|c h]|]; cbn [fst snd];
    [split_and!; [done|congruence..|done]| |split_and!; [done|congruence..|done]].
  destruct (String.prefix "Bearer " (String c h)); cbn [negb fst snd];
    [|split_and!; [done|congruence..|done]].
  destruct (active_tokens !! _) as [session|] eqn:Hs; cbn [fst snd];
    [|split_and!; [done|congruence..|done]].
  destruct (Z.ltb_spec (CourseService.expires_at session) now); cbn [fst snd];
    [|split_and!; [done|congruence..|done]].
  split_and!.
  - intros t s Ht. by apply lookup_delete_Some in Ht as [_ Ht].
  - intros t s Ht Hdel. apply lookup_delete_None in Hdel as [<-|Hdel]; [|congruence].
    rewrite Hs in Ht. by injection Ht as <-.
  - intros t t' s s' Ht Hdel Ht' Hdel'.
    apply lookup_delete_None in Hdel as [<-|Hdel]; [|congruence].
    apply lookup_delete_None in Hdel' as [<-|Hdel']; [done|congruence].
  - done.
Qed.

(** A token whose expiry time is past is rejected once as expired and is
    unknown from then on, at any time. *)
Theorem expired_token_is_forgotten header now now'
    (active_tokens : gmap string CourseService.Session) session :
  String.prefix "Bearer " header = true →
  active_tokens !! Spec.presented_token header = Some session →
  CourseService.expires_at session < now →
  let r := CourseService.verify_admin_token (Some header) now active_tokens in
  r.1 = Raise (HTTPException 401 "Token expired") ∧
  CourseService.verify_admin_token (Some header) now' r.2 =
    (Raise (HTTPException 401 "Invalid or expired token"), r.2).
Proof.
  intros Hp Hs Hexp. unfold CourseService.verify_admin_token, CourseService.unauthorized.
  unfold Spec.presented_token in Hs.
  destruct header as [|c h]; [discriminate Hp|]. rewrite Hp. cbn [negb].
  rewrite Hs. apply Z.ltb_lt in Hexp. rewrite Hexp. cbn [fst snd].
  split; [done|]. by rewrite lookup_delete_eq.
Qed.

Lemma expired_token_is_forgotten_witness :
  let r := CourseService.verify_admin_token (Some "Bearer t0k3n") 28800001001
             Scenario.sessions in
  r.1 = Raise (HTTPException 401 "Token expired") ∧
  CourseService.verify_admin_token (Some "Bearer t0k3n") 1000 r.2 =
    (Raise (HTTPException 401 "Invalid or expired token"), r.2).
Proof.
  apply (expired_token_is_forgotten "Bearer t0k3n" 28800001001 1000 Scenario.sessions
           (CourseService.mkSession "root" 28800001000)); reflexivity.
Defined.

(** A logout that is answered ends the session: the same header is rejected
    afterwards, at any time; the logout adds no session; and for a header
    "Bearer " followed by a token without a space the table afterwards is
    the old one without that token. *)
Theorem logout_ends_session authorization now now'
    (active_tokens : gmap string CourseService.Session) msg :
  (CourseService.admin_logout authorization now active_tokens).1 = Return msg →
  let table := (CourseService.admin_logout authorization now active_tokens).2 in
  (CourseService.verify_admin_token authorization now' table).1 =
    Raise (HTTPException 401 "Invalid or expired token") ∧
  (∀ t s, table !! t = Some s → active_tokens !! t = Some s) ∧
  (∀ t, authorization = Some ("Bearer " +:+ t) → Spec.no_space t = true →
        table = delete t active_tokens).
Proof.
  unfold CourseService.admin_logout, CourseService.verify_admin_token,
    CourseService.unauthorized.
  destruct authorization as [[|c h]|]; cbn [fst snd]; [done| |done].
  destruct (String.prefix "Bearer " (String c h)) eqn:Hp; cbn [negb fst snd]; [|done].
  fold (Spec.presented_token (String c h)).
  destruct (active_tokens !! _) as [session|] eqn:Hs; cbn [fst snd]; [|done].
  destruct (CourseService.expires_at session <? now); cbn [fst snd default]; [done|].
  unfold id. fold (Spec.presented_token (String c h)). rewrite Hs.
  rewrite bool_decide_eq_true_2 by eauto. intros _. split_and!.
  - by rewrite lookup_delete_eq.
  - intros t s Ht. by apply lookup_delete_Some in Ht as [_ Ht].
  - intros t Ht Hsp.
    assert (String c h = "Bearer " +:+ t) as -> by congruence.
    by rewrite presented_token_bearer.
Qed.

Lemma logout_ends_session_witness :
  let table := (CourseService.admin_logout (Some "Bearer t0k3n") 2000 Scenario.sessions).2 in
  (CourseService.verify_admin_token (Some "Bearer t0k3n") 3000 table).1 =
    Raise (HTTPException 401 "Invalid or expired token") ∧
  table = delete "t0k3n" Scenario.sessions.
Proof.
  destruct (logout_ends_session (Some "Bearer t0k3n") 2000 3000 Scenario.sessions
              "Logged out successfully" eq_refl) as (Hv & _ & Ht).
  split; [exact Hv|]. exact (Ht "t0k3n" eq_refl eq_refl).
Defined.

(** For a header "Bearer " followed by a token without a space, as the
    tokens of [secrets.token_urlsafe] are, [verify_admin_token] decides on
    that token: unknown, it answers 401; known and past its expiry time, it
    answers 401 and forgets it; otherwise it lets the request through under
    the session's user name.  An absent or empty header and a header that
    does not start with "Bearer " are answered 401 and the table is left as
    it is.  A route does not run its handler on a rejected request. *)
Theorem bearer_header_verdict clock (active_tokens : gmap string CourseService.Session) :
  (∀ t, Spec.no_space t = true →
        CourseService.verify_admin_token (Some ("Bearer " +:+ t)) clock active_tokens =
          match active_tokens !! t with
          | None => (Raise (HTTPException 401 "Invalid or expired token"), active_tokens)
          | Some session =>
              if CourseService.expires_at session <? clock
              then (Raise (HTTPException 401 "Token expired"), delete t active_tokens)
              else (Return (CourseService.username session), active_tokens)
          end) ∧
  CourseService.verify_admin_token None clock active_tokens =
    (Raise (HTTPException 401 "Authorization header missing"), active_tokens) ∧
  CourseService.verify_admin_token (Some "") clock active_tokens =
    (Raise (HTTPException 401 "Authorization header missing"), active_tokens) ∧
  (∀ c h, String.prefix "Bearer " (String c h) = false →
          CourseService.verify_admin_token (Some (String c h)) clock active_tokens =
            (Raise (HTTPException 401 "Invalid authorization header format"),
             active_tokens)) ∧
  (∀ A (handler : string → M A) authorization env db e,
     now env = clock →
     (CourseService.verify_admin_token authorization clock active_tokens).1 = Raise e →
     CourseService.admin_route handler authorization env active_tokens db =
       (Raise e, db, (CourseService.verify_admin_token authorization clock active_tokens).2)).
Proof.
  split_and!; try done.
  - intros t Ht. unfold CourseService.verify_admin_token, CourseService.unauthorized.
    change ("Bearer " +:+ t) with (String "B" ("earer " +:+ t)). cbv iota.
    change (String "B" ("earer " +:+ t)) with ("Bearer " +:+ t).
    fold (Spec.presented_token ("Bearer " +:+ t)).
    rewrite presented_token_bearer by done.
    assert (String.prefix "Bearer " ("Bearer " +:+ t) = true) as ->.
    { cbn [String.prefix String.append]. destruct t; reflexivity. }
    done.
  - intros c h Hp. unfold CourseService.verify_admin_token. by rewrite Hp.
  - intros A handler authorization env db e <- Hv. unfold CourseService.admin_route.
    destruct (CourseService.verify_admin_token _ _ _) as [[u|e'] tokens']; [done|].
    cbn in Hv. by injection Hv as ->.
Qed.

Lemma bearer_header_verdict_witness :
  CourseService.verify_admin_token (Some "Bearer t0k3n") 1000 Scenario.sessions =
    (Return "root", Scenario.sessions) ∧
  CourseService.verify_admin_token (Some "Bearer t0k3n") 28800001001 Scenario.sessions =
    (Raise (HTTPException 401 "Token expired"), delete "t0k3n" Scenario.sessions) ∧
  CourseService.verify_admin_token (Some "Bearer 0th3r") 1000 Scenario.sessions =
    (Raise (HTTPException 401 "Invalid or expired token"), Scenario.sessions) ∧
  CourseService.verify_admin_token (Some "Basic t0k3n") 1000 Scenario.sessions =
    (Raise (HTTPException 401 "Invalid authorization header format"), Scenario.sessions) ∧
  CourseService.admin_route (CourseService.delete_course 1) (Some "Bearer 0th3r")
    (Scenario.env 1) Scenario.sessions Scenario.busy =
    (Raise (HTTPException 401 "Invalid or expired token"), Scenario.busy, Scenario.sessions).
Proof.
  split_and!.
  - exact (proj1 (bearer_header_verdict 1000 Scenario.sessions) "t0k3n" eq_refl).
  - exact (proj1 (bearer_header_verdict 28800001001 Scenario.sessions) "t0k3n" eq_refl).
  - exact (proj1 (bearer_header_verdict 1000 Scenario.sessions) "0th3r" eq_refl).
  - exact (proj1 (proj2 (proj2 (proj2 (bearer_header_verdict 1000 Scenario.sessions))))
             "B"%char "asic t0k3n" eq_refl).
  - exact (proj2 (proj2 (proj2 (proj2 (bearer_header_verdict 1000 Scenario.sessions))))
             _ (CourseService.delete_course 1) (Some "Bearer 0th3r") (Scenario.env 1)
             Scenario.busy _ eq_refl eq_refl).
Defined.

(** ** Login *)

Lemma admin_lookup db username :
  fetchone (filter (λ a, a_username a = username) (admins db)) =
    Spec.the_admin db username.
Proof. apply fetchone_filter_find. intros a. apply String.eqb_eq. Qed.

(** With a datastore that answers, [admin_login] answers 401 "Invalid
    credentials" for a user name that has no row and for a password that
    [bcrypt.checkpw] does not match; for one it matches, the login returns
    the token [secrets.token_urlsafe] drew and records it with the user name
    and an expiry time exactly eight hours after the clock value.  When
    [bcrypt.checkpw] raises, because the stored value is not a bcrypt hash,
    its [ValueError] leaves the handler as it is.  The datastore is not
    written. *)
Theorem admin_login_outcomes checkpw env db credentials
    (active_tokens : gmap string CourseService.Session) :
  healthy env →
  run (CourseService.admin_login checkpw credentials active_tokens) env db =
    (match Spec.the_admin db (CourseService.al_username credentials) with
     | None => Raise (HTTPException 401 "Invalid credentials")
     | Some admin =>
         match checkpw (CourseService.al_password credentials) (a_password_hash admin) with
         | None => Raise (ValueError "Invalid salt")
         | Some false => Raise (HTTPException 401 "Invalid credentials")
         | Some true =>
             Return
               (CourseService.mkLoginResponse "Login successful" (token_urlsafe env)
                  (now env + Spec.eight_hours) (a_username admin),
                <[token_urlsafe env :=
                    CourseService.mkSession (a_username admin) (now env + Spec.eight_hours)]>
                  active_tokens)
         end
     end, db).
Proof.
  intros [Hr Hf]. unfold CourseService.admin_login. unfold_monad. rewrite Hr. answered.
  rewrite admin_lookup. destruct (Spec.the_admin db _) as [admin|]; answered; [|done].
  destruct (checkpw _ _) as [[|]|]; answered; done.
Qed.

Lemma admin_login_outcomes_witness :
  let login username password db :=
    run (CourseService.admin_login Scenario.checkpw
           (CourseService.mkAdminLogin username password) ∅) (Scenario.env 1) db in
  login "root" "s3cret" Scenario.staffed =
    (Return (CourseService.mkLoginResponse "Login successful" "t0k3n" 28800001000 "root",
             Scenario.sessions), Scenario.staffed) ∧
  login "root" "guess" Scenario.staffed =
    (Raise (HTTPException 401 "Invalid credentials"), Scenario.staffed) ∧
  login "mallory" "s3cret" Scenario.staffed =
    (Raise (HTTPException 401 "Invalid credentials"), Scenario.staffed) ∧
  login "root" "s3cret" Scenario.busy = (Raise (ValueError "Invalid salt"), Scenario.busy).
Proof.
  intros login. split_and!.
  - exact (admin_login_outcomes Scenario.checkpw (Scenario.env 1) Scenario.staffed
             (CourseService.mkAdminLogin "root" "s3cret") ∅ (conj eq_refl eq_refl)).
  - exact (admin_login_outcomes Scenario.checkpw (Scenario.env 1) Scenario.staffed
             (CourseService.mkAdminLogin "root" "guess") ∅ (conj eq_refl eq_refl)).
  - exact (admin_login_outcomes Scenario.checkpw (Scenario.env 1) Scenario.staffed
             (CourseService.mkAdminLogin "mallory" "s3cret") ∅ (conj eq_refl eq_refl)).
  - exact (admin_login_outcomes Scenario.checkpw (Scenario.env 1) Scenario.busy
             (CourseService.mkAdminLogin "root" "s3cret") ∅ (conj eq_refl eq_refl)).
Defined.

(** ** Courses: create and read *)

Lemma code_taken_lookup db code :
  truthy (fetchone (CourseService.courses_by_code code db)) = Spec.code_taken db code.
Proof.
  unfold CourseService.courses_by_code, Spec.code_taken.
  rewrite (fetchone_filter_find _ (λ c, String.eqb (c_course_code c) code)).
  - apply truthy_find_existsb.
  - intros c. apply String.eqb_eq.
Qed.

Lemma get_course_healthy env db id :
  healthy env →
  run (CourseService.get_course id) env db =
    (match Spec.the_course db id with
     | Some c => Return c
     | None => Raise (HTTPException 404 ("Course with ID " +:+ pretty id +:+ " not found"))
     end, db).
Proof.
  intros [Hr Hf]. unfold CourseService.get_course. unfold_monad. rewrite Hr. answered.
  rewrite course_lookup. destruct (Spec.the_course db id); answered; done.
Qed.

Lemma insert_course_created assigned course db :
  set_courses (λ l, l ++ [Spec.new_course assigned course]) db =
    Spec.course_created assigned db course.
Proof. done. Qed.

(** Every run of [create_course], whatever the datastore does. *)
Lemma create_course_commits assigned env db course admin :
  (run (CourseService.create_course assigned course admin) env db).2 = db ∨
  ((run (CourseService.create_course assigned course admin) env db).2 =
     Spec.course_created assigned db course ∧
   Spec.code_taken db (CourseService.cc_course_code course) = false ∧
   Spec.the_course db (CourseService.new_course_id assigned) = None).
Proof.
  unfold CourseService.create_course, CourseService.insert_course. unfold_monad.
  destruct (reachable env); reduce; [|by left].
  case_fault; [by left..|].
  rewrite <- code_taken_lookup.
  destruct (fetchone (CourseService.courses_by_code _ db)); reduce; [by left|].
  case_fault; [by left..|].
  rewrite <- course_lookup.
  destruct (courses_by_id _ db) as [|c l] eqn:Hid.
  - rewrite bool_decide_eq_true_2 by done. reduce.
    case_fault; [by left..|]. case_fault; by right.
  - rewrite bool_decide_eq_false_2 by done. reduce. by left.
Qed.

Lemma the_course_created_course assigned db course :
  Spec.the_course db (CourseService.new_course_id assigned) = None →
  Spec.the_course (Spec.course_created assigned db course)
    (CourseService.new_course_id assigned) = Some (Spec.new_course assigned course).
Proof.
  intros Hfresh. unfold Spec.the_course in *. cbn [courses Spec.course_created].
  rewrite find_app_None by done. cbn. by rewrite Z.eqb_refl.
Qed.

Lemma create_course_healthy assigned env db course admin :
  healthy env →
  Spec.code_taken db (CourseService.cc_course_code course) = false →
  Spec.the_course db (CourseService.new_course_id assigned) = None →
  run (CourseService.create_course assigned course admin) env db =
    (Return (CourseService.mkCourseResponse "Course created successfully"
               (Some (Spec.new_course assigned course))),
     Spec.course_created assigned db course).
Proof.
  intros [Hr Hf] Hfree Hfresh.
  unfold CourseService.create_course, CourseService.insert_course. unfold_monad. rewrite Hr.
  answered. rewrite code_taken_lookup, Hfree. answered.
  pose proof Hfresh as Hnil. rewrite <- course_lookup in Hnil.
  apply fetchone_None_nil in Hnil. rewrite Hnil.
  rewrite bool_decide_eq_true_2 by done. answered.
  change (set_courses _ db) with (Spec.course_created assigned db course).
  rewrite course_lookup. by rewrite the_course_created_course.
Qed.

(** Round trip create/get for courses: a course that [create_course] has
    created, with the counter and the status the datastore gave it, is the one
    [get_course] returns for its identifier. *)
Theorem create_course_then_get assigned env env' db course admin :
  healthy env → healthy env' →
  Spec.code_taken db (CourseService.cc_course_code course) = false →
  Spec.the_course db (CourseService.new_course_id assigned) = None →
  run (CourseService.create_course assigned course admin) env db =
    (Return (CourseService.mkCourseResponse "Course created successfully"
               (Some (Spec.new_course assigned course))),
     Spec.course_created assigned db course) ∧
  run (CourseService.get_course (CourseService.new_course_id assigned)) env'
    (Spec.course_created assigned db course) =
    (Return (Spec.new_course assigned course), Spec.course_created assigned db course).
Proof.
  intros Hh Hh' Hfree Hfresh. split; [by apply create_course_healthy|].
  rewrite get_course_healthy by done. by rewrite the_course_created_course.
Qed.

Lemma create_course_then_get_witness :
  run (CourseService.get_course 3) (Scenario.env 2)
    (Spec.course_created (CourseService.mkCourseAssigned 3 0 "active") Scenario.db
       (CourseService.mkCourseCreate "CS103" "Logic" None 3 None 50)) =
    (Return (mkCourse 3 "CS103" "Logic" None 3 None 50 0 "active"),
     Spec.course_created (CourseService.mkCourseAssigned 3 0 "active") Scenario.db
       (CourseService.mkCourseCreate "CS103" "Logic" None 3 None 50)).
Proof.
  exact (proj2 (create_course_then_get (CourseService.mkCourseAssigned 3 0 "active")
                  (Scenario.env 1) (Scenario.env 2) Scenario.db
                  (CourseService.mkCourseCreate "CS103" "Logic" None 3 None 50) "root"
                  (conj eq_refl eq_refl) (conj eq_refl eq_refl) eq_refl eq_refl)).
Defined.

Lemma code_taken_false db code :
  Spec.code_taken db code = false → ∀ c, c ∈ courses db → c_course_code c ≠ code.
Proof.
  unfold Spec.code_taken. intros Hno c Hc Hcode.
  assert (existsb (λ c, String.eqb (c_course_code c) code) (courses db) = true) as Hyes;
    [|congruence].
  apply existsb_exists. exists c. split; [by apply list_elem_of_In|].
  by apply String.eqb_eq.
Qed.

Lemma the_course_None db id :
  Spec.the_course db id = None → ∀ c, c ∈ courses db → c_course_id c ≠ id.
Proof.
  unfold Spec.the_course. intros Hnone c Hc Hid.
  apply list_elem_of_In in Hc.
  pose proof (find_none _ _ Hnone c Hc) as Hne. cbn in Hne.
  by apply Z.eqb_neq in Hne.
Qed.

(** A course code in use is refused with 400 "Course code already exists"
    and nothing is committed; and whatever the datastore does,
    [create_course] keeps the course codes, and the course identifiers,
    pairwise distinct. *)
Theorem create_course_keeps_codes_unique assigned env db course admin :
  (healthy env →
   Spec.code_taken db (CourseService.cc_course_code course) = true →
   run (CourseService.create_course assigned course admin) env db =
     (Raise (HTTPException 400 "Course code already exists"), db)) ∧
  (Spec.course_codes_unique db →
   Spec.course_codes_unique
     (run (CourseService.create_course assigned course admin) env db).2) ∧
  (Spec.course_ids_unique db →
   Spec.course_ids_unique
     (run (CourseService.create_course assigned course admin) env db).2).
Proof.
  split_and!.
  - intros [Hr Hf] Htaken.
    unfold CourseService.create_course. unfold_monad. rewrite Hr. answered.
    rewrite code_taken_lookup, Htaken. by answered.
  - intros Hu.
    destruct (create_course_commits assigned env db course admin)
      as [-> | (-> & Hfree & _)]; [done|].
    unfold Spec.course_codes_unique. cbn [courses Spec.course_created].
    apply keys_snoc; [done|]. intros c Hc. by apply (code_taken_false db).
  - intros Hu.
    destruct (create_course_commits assigned env db course admin)
      as [-> | (-> & _ & Hfresh)]; [done|].
    unfold Spec.course_ids_unique. cbn [courses Spec.course_created].
    apply keys_snoc; [done|]. intros c Hc. by apply (the_course_None db).
Qed.

Lemma create_course_keeps_codes_unique_witness :
  run (CourseService.create_course (CourseService.mkCourseAssigned 3 0 "active")
         (CourseService.mkCourseCreate "CS101" "Logic" None 3 None 50) "root")
    (Scenario.env 1) Scenario.db =
    (Raise (HTTPException 400 "Course code already exists"), Scenario.db).
Proof.
  exact (proj1 (create_course_keeps_codes_unique
                  (CourseService.mkCourseAssigned 3 0 "active") (Scenario.env 1) Scenario.db
                  (CourseService.mkCourseCreate "CS101" "Logic" None 3 None 50) "root")
           (conj eq_refl eq_refl) eq_refl).
Defined.

(** ** Courses: update and delete *)

Lemma course_collected_patched upd c :
  foldl (λ c a, CourseService.assign a c) c (Spec.course_collected upd) =
    Spec.course_patched upd c.
Proof.
  unfold Spec.course_collected, Spec.course_patched, CourseService.append_field.
  destruct upd as [[?|] [?|] [?|] [?|] [?|] [?|] [?|]], c; reflexivity.
Qed.

Lemma course_collected_nil upd :
  bool_decide (Spec.course_collected upd = []) = Spec.course_no_fields upd.
Proof.
  unfold Spec.course_collected, Spec.course_no_fields, CourseService.append_field.
  destruct upd as [[?|] [?|] [?|] [?|] [?|] [?|] [?|]]; reflexivity.
Qed.

Lemma update_course_row_updated db id upd :
  CourseService.update_course_row (Spec.course_collected upd) id db =
    Spec.course_updated db id upd.
Proof.
  unfold CourseService.update_course_row, Spec.course_updated, set_courses. f_equal.
  apply map_ext. intros c. rewrite course_collected_patched.
  destruct (Z.eqb_spec (c_course_id c) id); case_bool_decide; done.
Qed.

Lemma update_course_body id upd admin :
  CourseService.update_course id upd admin =
  try_except CourseService.module_globals
    (get_db_connection CourseService.module_globals;;
     existing ← execute (select (λ db, fetchone (courses_by_id id db)));
     when_ (negb (truthy existing))
       (cursor_close;; conn_close;;
        raise (HTTPException HTTP_404_NOT_FOUND
                 ("Course with ID " +:+ pretty id +:+ " not found")));;
     when_ (bool_decide (Spec.course_collected upd = []))
       (raise (HTTPException HTTP_400_BAD_REQUEST "No fields to update"));;
     execute (update (CourseService.update_course_row (Spec.course_collected upd) id));;
     commit;;
     updated_course ← execute (select (λ db, fetchone (courses_by_id id db)));
     cursor_close;; conn_close;;
     mret (CourseService.mkCourseResponse "Course updated successfully" updated_course))
    [("HTTPException", reraise); ("DatabaseError", database_error_500)].
Proof. reflexivity. Qed.

(** Every run of [update_course], whatever the datastore does. *)
Lemma update_course_any env db id upd admin :
  (run (CourseService.update_course id upd admin) env db).2 = db ∨
  (run (CourseService.update_course id upd admin) env db).2 = Spec.course_updated db id upd.
Proof.
  rewrite update_course_body. rewrite course_collected_nil.
  pose proof (update_course_row_updated db id upd) as Hrow.
  generalize dependent (Spec.course_collected upd). intros fields Hrow.
  unfold_monad.
  destruct (reachable env); reduce; [|by left].
  case_fault; [by left..|].
  destruct (fetchone (courses_by_id id db)); reduce; [|by left].
  destruct (Spec.course_no_fields upd); reduce; [by left|].
  case_fault; [by left..|]. case_fault; [by left..|].
  case_fault; rewrite <- Hrow; by right.
Qed.

Lemma update_course_healthy env db id upd admin :
  healthy env →
  run (CourseService.update_course id upd admin) env db =
    match Spec.the_course db id with
    | None =>
        (Raise (HTTPException 404 ("Course with ID " +:+ pretty id +:+ " not found")), db)
    | Some _ =>
        if Spec.course_no_fields upd
        then (Raise (HTTPException 400 "No fields to update"), db)
        else
          (Return (CourseService.mkCourseResponse "Course updated successfully"
                     (Spec.the_course (Spec.course_updated db id upd) id)),
           Spec.course_updated db id upd)
    end.
Proof.
  intros [Hr Hf]. rewrite update_course_body. rewrite course_collected_nil.
  pose proof (update_course_row_updated db id upd) as Hrow.
  generalize dependent (Spec.course_collected upd). intros fields Hrow.
  unfold_monad. rewrite Hr. answered. rewrite course_lookup.
  destruct (Spec.the_course db id); answered; [|done].
  destruct (Spec.course_no_fields upd); answered; [done|].
  by rewrite Hrow, course_lookup.
Qed.

Lemma the_course_updated db id upd :
  Spec.the_course (Spec.course_updated db id upd) id =
    Spec.course_patched upd <$> Spec.the_course db id.
Proof.
  unfold Spec.the_course. cbn [courses Spec.course_updated].
  rewrite (find_key_map c_course_id).
  - destruct (List.find _ (courses db)) as [c|] eqn:Hc; [|done].
    apply find_some in Hc as [_ Hc]. cbn. by rewrite Hc.
  - intros c. by destruct (c_course_id c =? id).
Qed.

(** Whatever the datastore does, [update_course] changes nothing but the
    updatable columns of the courses with the given identifier: students,
    enrollments and admins are as before, the list of course identifiers and
    the list of counters are as before, and the other courses are as before. *)
Theorem update_course_frame env db id upd admin :
  let db' := (run (CourseService.update_course id upd admin) env db).2 in
  students db' = students db ∧ enrollments db' = enrollments db ∧ admins db' = admins db ∧
  c_course_id <$> courses db' = c_course_id <$> courses db ∧
  c_current_enrollment <$> courses db' = c_current_enrollment <$> courses db ∧
  (∀ c, c ∈ courses db → c_course_id c ≠ id → c ∈ courses db').
Proof.
  cbv zeta.
  destruct (update_course_any env db id upd admin) as [-> | ->]; [done|].
  cbn [students courses enrollments admins Spec.course_updated]. split_and!; try done.
  - apply keys_map. intros c. by destruct (c_course_id c =? id).
  - apply keys_map. intros c. by destruct (c_course_id c =? id).
  - intros c Hc Hne. apply list_elem_of_In, in_map_iff. exists c.
    split; [|by apply list_elem_of_In]. by destruct (Z.eqb_spec (c_course_id c) id).
Qed.

(** With a datastore that accepts the statements, [update_course] answers
    404 for a missing course and 400 when no field is supplied, and otherwise
    writes the supplied fields as they are given: in particular a
    [max_capacity] is written without being compared with
    [current_enrollment], which keeps its value. *)
Theorem update_course_partial env db id upd admin :
  healthy env →
  run (CourseService.update_course id upd admin) env db =
    match Spec.the_course db id with
    | None =>
        (Raise (HTTPException 404 ("Course with ID " +:+ pretty id +:+ " not found")), db)
    | Some c =>
        if Spec.course_no_fields upd
        then (Raise (HTTPException 400 "No fields to update"), db)
        else
          (Return (CourseService.mkCourseResponse "Course updated successfully"
                     (Some (Spec.course_patched upd c))),
           Spec.course_updated db id upd)
    end ∧
  (∀ c m, CourseService.cu_max_capacity upd = Some m →
          c_max_capacity (Spec.course_patched upd c) = m ∧
          c_current_enrollment (Spec.course_patched upd c) = c_current_enrollment c).
Proof.
  intros Hh. split.
  - rewrite update_course_healthy by done. rewrite the_course_updated.
    by destruct (Spec.the_course db id).
  - intros c m Hm. unfold Spec.course_patched. cbn. by rewrite Hm.
Qed.

Lemma update_course_partial_witness :
  run (CourseService.update_course 1
         (CourseService.mkCourseUpdate None None None None None (Some 0) None) "root")
    (Scenario.env 1) Scenario.drifted =
    (Return (CourseService.mkCourseResponse "Course updated successfully"
               (Some (mkCourse 1 "CS101" "Programming" None 3 (Some "Hopper") 0 0 "active"))),
     Spec.course_updated Scenario.drifted 1
       (CourseService.mkCourseUpdate None None None None None (Some 0) None)).
Proof.
  exact (proj1 (update_course_partial (Scenario.env 1) Scenario.drifted 1
                  (CourseService.mkCourseUpdate None None None None None (Some 0) None)
                  "root" (conj eq_refl eq_refl))).
Defined.

Lemma filter_filter_implied {A} (P Q : A → Prop) `{∀ x, Decision (P x)}
    `{∀ x, Decision (Q x)} (l : list A) :
  (∀ x, P x → Q x) → filter P (filter Q l) = filter P l.
Proof.
  intros HPQ. induction l as [|x l IH]; [done|].
  rewrite (filter_cons Q). destruct (decide (Q x)) as [HQ|HQ].
  - rewrite !filter_cons. destruct (decide (P x)); by rewrite IH.
  - rewrite IH, filter_cons. destruct (decide (P x)) as [HP|HP]; [|done].
    destruct HQ. by apply HPQ.
Qed.

(** Every run of [delete_course], whatever the datastore does. *)
Lemma delete_course_any env db id admin :
  (run (CourseService.delete_course id admin) env db).2 = db ∨
  (run (CourseService.delete_course id admin) env db).2 =
    CourseService.delete_course_row id db.
Proof.
  unfold CourseService.delete_course. unfold_monad.
  destruct (reachable env); reduce; [|by left].
  case_fault; [by left..|].
  destruct (fetchone (courses_by_id id db)); reduce; [|by left].
  case_fault; [by left..|]. case_fault; [by left..|]. by right.
Qed.

Lemma delete_course_healthy env db id admin :
  healthy env →
  run (CourseService.delete_course id admin) env db =
    match Spec.the_course db id with
    | None =>
        (Raise (HTTPException 404 ("Course with ID " +:+ pretty id +:+ " not found")), db)
    | Some _ =>
        (Return ("Course " +:+ pretty id +:+ " deleted successfully"),
         CourseService.delete_course_row id db)
    end.
Proof.
  intros [Hr Hf]. unfold CourseService.delete_course. unfold_monad. rewrite Hr. answered.
  rewrite course_lookup. destruct (Spec.the_course db id); answered; done.
Qed.

Lemma the_course_deleted_row db id :
  Spec.the_course (CourseService.delete_course_row id db) id = None.
Proof.
  rewrite <- course_lookup. unfold courses_by_id.
  cbn [courses CourseService.delete_course_row set_courses set_enrollments].
  rewrite filter_none; [done|]. by intros c [Hne _]%list_elem_of_filter.
Qed.

(** [delete_course] answers 404 for a missing course and commits nothing;
    for an existing one it removes the course, after which [get_course]
    answers 404, and with it the enrollments that reference it and no other
    row. *)
Theorem delete_course_effect env env' db id admin :
  healthy env → healthy env' →
  run (CourseService.delete_course id admin) env db =
    match Spec.the_course db id with
    | None =>
        (Raise (HTTPException 404 ("Course with ID " +:+ pretty id +:+ " not found")), db)
    | Some _ =>
        (Return ("Course " +:+ pretty id +:+ " deleted successfully"),
         CourseService.delete_course_row id db)
    end ∧
  run (CourseService.get_course id) env' (CourseService.delete_course_row id db) =
    (Raise (HTTPException 404 ("Course with ID " +:+ pretty id +:+ " not found")),
     CourseService.delete_course_row id db) ∧
  (∀ c, c ∈ courses (CourseService.delete_course_row id db) ↔
        c ∈ courses db ∧ c_course_id c ≠ id) ∧
  (∀ e, e ∈ enrollments (CourseService.delete_course_row id db) ↔
        e ∈ enrollments db ∧ e_course_id e ≠ id) ∧
  students (CourseService.delete_course_row id db) = students db.
Proof.
  intros Hh Hh'. split_and!.
  - by apply delete_course_healthy.
  - rewrite get_course_healthy by done. by rewrite the_course_deleted_row.
  - intros c. cbn [courses CourseService.delete_course_row set_courses set_enrollments].
    rewrite list_elem_of_filter. tauto.
  - intros e. cbn [enrollments CourseService.delete_course_row set_courses set_enrollments].
    rewrite list_elem_of_filter. tauto.
  - done.
Qed.

Lemma delete_course_effect_witness :
  run (CourseService.delete_course 1 "root") (Scenario.env 1) Scenario.drifted =
    (Return "Course 1 deleted successfully",
     mkDB [Scenario.ann; Scenario.bob] [Scenario.cs102] [] [mkAdmin "root" "$2b$12$hash"]).
Proof.
  exact (proj1 (delete_course_effect (Scenario.env 1) (Scenario.env 2) Scenario.drifted 1
                  "root" (conj eq_refl eq_refl) (conj eq_refl eq_refl))).
Defined.

(** Whatever the datastore does, [delete_course] keeps the counters
    consistent: the enrollments that go are those of the course that goes. *)
Theorem delete_course_keeps_counters env db id admin :
  Spec.counters_consistent db →
  Spec.counters_consistent (run (CourseService.delete_course id admin) env db).2.
Proof.
  intros Hc. destruct (delete_course_any env db id admin) as [-> | ->]; [done|].
  intros c Hin.
  cbn [courses CourseService.delete_course_row set_courses set_enrollments] in Hin.
  apply list_elem_of_filter in Hin as [Hne Hin]. rewrite (Hc c Hin).
  unfold Spec.referencing.
  cbn [enrollments CourseService.delete_course_row set_courses set_enrollments].
  rewrite filter_filter_implied; [done|]. intros e He. congruence.
Qed.

(** In the sample with three enrollments, deleting the first course takes
    its two enrollments with it and leaves the second course with its counter
    1 and its one enrollment. *)
Lemma delete_course_keeps_counters_witness :
  (run (CourseService.delete_course 1 "root") (Scenario.env 1) Scenario.busy).2 =
    mkDB [Scenario.ann; Scenario.bob] [Scenario.logic]
      [mkEnrollment 8 1 2 950 (Some "A") "completed"] [mkAdmin "root" "$2b$12$hash"] ∧
  Spec.counters_consistent
    (run (CourseService.delete_course 1 "root") (Scenario.env 1) Scenario.busy).2.
Proof.
  split; [reflexivity|].
  refine (delete_course_keeps_counters (Scenario.env 1) Scenario.busy 1 "root" _).
  intros c Hc. apply elem_of_cons in Hc as [->|Hc]; [reflexivity|].
  apply list_elem_of_singleton in Hc as ->. reflexivity.
Defined.

(** ** Students: create and read *)

Lemma email_taken_lookup db email :
  truthy (fetchone (StudentService.students_by_email email db)) = Spec.email_taken db email.
Proof.
  unfold StudentService.students_by_email, Spec.email_taken.
  rewrite (fetchone_filter_find _ (λ s, String.eqb (s_email s) email)).
  - apply truthy_find_existsb.
  - intros s. apply String.eqb_eq.
Qed.

Lemma get_student_healthy env db id :
  healthy env →
  run (StudentService.get_student id) env db =
    (match Spec.the_student db id with
     | Some s => Return s
     | None => Raise (HTTPException 404 ("Student with ID " +:+ pretty id +:+ " not found"))
     end, db).
Proof.
  intros [Hr Hf]. unfold StudentService.get_student. unfold_monad. rewrite Hr. answered.
  rewrite student_lookup. destruct (Spec.the_student db id); answered; done.
Qed.

Lemma the_student_created id env db student :
  Spec.the_student db id = None →
  Spec.the_student (Spec.student_created id env db student) id =
    Some (Spec.new_student id env student).
Proof.
  intros Hfresh. unfold Spec.the_student in *. cbn [students Spec.student_created].
  rewrite find_app_None by done. cbn. by rewrite Z.eqb_refl.
Qed.

(** Every run of [create_student], whatever the datastore does. *)
Lemma create_student_commits id env db student :
  (run (StudentService.create_student id student) env db).2 = db ∨
  ((run (StudentService.create_student id student) env db).2 =
     Spec.student_created id env db student ∧
   Spec.email_taken db (StudentService.sc_email student) = false ∧
   Spec.the_student db id = None).
Proof.
  unfold StudentService.create_student, StudentService.insert_student. unfold_monad.
  destruct (reachable env); reduce; [|by left].
  case_fault; [by left..|].
  rewrite <- email_taken_lookup.
  destruct (fetchone (StudentService.students_by_email _ db)); reduce; [by left|].
  case_fault; [by left..|].
  rewrite <- student_lookup.
  destruct (students_by_id _ db) as [|s l] eqn:Hid.
  - rewrite bool_decide_eq_true_2 by done. reduce.
    case_fault; [by left..|]. case_fault; by right.
  - rewrite bool_decide_eq_false_2 by done. reduce. by left.
Qed.

Lemma create_student_healthy id env db student :
  healthy env →
  Spec.email_taken db (StudentService.sc_email student) = false →
  Spec.the_student db id = None →
  run (StudentService.create_student id student) env db =
    (Return (StudentService.mkStudentResponse "Student created successfully"
               (Some (Spec.new_student id env student))),
     Spec.student_created id env db student).
Proof.
  intros [Hr Hf] Hfree Hfresh.
  unfold StudentService.create_student, StudentService.insert_student. unfold_monad.
  rewrite Hr. answered. rewrite email_taken_lookup, Hfree. answered.
  pose proof Hfresh as Hnil. rewrite <- student_lookup in Hnil.
  apply fetchone_None_nil in Hnil. rewrite Hnil.
  rewrite bool_decide_eq_true_2 by done. answered.
  change (set_students _ db) with (Spec.student_created id env db student).
  rewrite student_lookup. by rewrite the_student_created.
Qed.

(** Round trip create/get for students: a student [create_student] has
    registered, with the identity the datastore assigned and the clock value
    as registration date, is the one [get_student] returns for that
    identity. *)
Theorem create_student_then_get id env env' db student :
  healthy env → healthy env' →
  Spec.email_taken db (StudentService.sc_email student) = false →
  Spec.the_student db id = None →
  run (StudentService.create_student id student) env db =
    (Return (StudentService.mkStudentResponse "Student created successfully"
               (Some (Spec.new_student id env student))),
     Spec.student_created id env db student) ∧
  run (StudentService.get_student id) env' (Spec.student_created id env db student) =
    (Return (Spec.new_student id env student), Spec.student_created id env db student).
Proof.
  intros Hh Hh' Hfree Hfresh. split; [by apply create_student_healthy|].
  rewrite get_student_healthy by done. by rewrite the_student_created.
Qed.

Lemma create_student_then_get_witness :
  let cy := StudentService.mkStudentCreate "Cy" "cy@example.org" (Some "777") in
  let row := mkStudent 3 "Cy" "cy@example.org" (Some "777") 1000 in
  let after :=
    mkDB [Scenario.ann; Scenario.bob; row] (courses Scenario.busy)
      (enrollments Scenario.busy) (admins Scenario.busy) in
  run (StudentService.create_student 3 cy) (Scenario.env 1) Scenario.busy =
    (Return (StudentService.mkStudentResponse "Student created successfully" (Some row)),
     after) ∧
  run (StudentService.get_student 3) (Scenario.env 2) after = (Return row, after).
Proof.
  exact (create_student_then_get 3 (Scenario.env 1) (Scenario.env 2) Scenario.busy
           (StudentService.mkStudentCreate "Cy" "cy@example.org" (Some "777"))
           (conj eq_refl eq_refl) (conj eq_refl eq_refl) eq_refl eq_refl).
Defined.

Lemma email_taken_false db email :
  Spec.email_taken db email = false → ∀ s, s ∈ students db → s_email s ≠ email.
Proof.
  unfold Spec.email_taken. intros Hno s Hs Hemail.
  assert (existsb (λ s, String.eqb (s_email s) email) (students db) = true) as Hyes;
    [|congruence].
  apply existsb_exists. exists s. split; [by apply list_elem_of_In|].
  by apply String.eqb_eq.
Qed.

Lemma the_student_None db id :
  Spec.the_student db id = None → ∀ s, s ∈ students db → s_student_id s ≠ id.
Proof.
  unfold Spec.the_student. intros Hnone s Hs Hid.
  apply list_elem_of_In in Hs.
  pose proof (find_none _ _ Hnone s Hs) as Hne. cbn in Hne.
  by apply Z.eqb_neq in Hne.
Qed.

(** An email in use is refused with 400 "Email already registered" and
    nothing is committed; and whatever the datastore does, [create_student]
    keeps the emails, and the student identifiers, pairwise distinct. *)
Theorem create_student_keeps_emails_unique id env db student :
  (healthy env →
   Spec.email_taken db (StudentService.sc_email student) = true →
   run (StudentService.create_student id student) env db =
     (Raise (HTTPException 400 "Email already registered"), db)) ∧
  (Spec.emails_unique db →
   Spec.emails_unique (run (StudentService.create_student id student) env db).2) ∧
  (Spec.student_ids_unique db →
   Spec.student_ids_unique (run (StudentService.create_student id student) env db).2).
Proof.
  split_and!.
  - intros [Hr Hf] Htaken.
    unfold StudentService.create_student. unfold_monad. rewrite Hr. answered.
    rewrite email_taken_lookup, Htaken. by answered.
  - intros Hu.
    destruct (create_student_commits id env db student) as [-> | (-> & Hfree & _)]; [done|].
    unfold Spec.emails_unique. cbn [students Spec.student_created].
    apply keys_snoc; [done|]. intros s Hs. by apply (email_taken_false db).
  - intros Hu.
    destruct (create_student_commits id env db student) as [-> | (-> & _ & Hfresh)]; [done|].
    unfold Spec.student_ids_unique. cbn [students Spec.student_created].
    apply keys_snoc; [done|]. intros s Hs. by apply (the_student_None db).
Qed.

Lemma create_student_keeps_emails_unique_witness :
  run (StudentService.create_student 3
         (StudentService.mkStudentCreate "Robert" "bob@example.org" None))
    (Scenario.env 1) Scenario.busy =
    (Raise (HTTPException 400 "Email already registered"), Scenario.busy) ∧
  Spec.emails_unique
    (run (StudentService.create_student 3
            (StudentService.mkStudentCreate "Cy" "cy@example.org" (Some "777")))
       (Scenario.env 1) Scenario.busy).2.
Proof.
  split.
  - exact (proj1 (create_student_keeps_emails_unique 3 (Scenario.env 1) Scenario.busy
                    (StudentService.mkStudentCreate "Robert" "bob@example.org" None))
             (conj eq_refl eq_refl) eq_refl).
  - refine (proj1 (proj2 (create_student_keeps_emails_unique 3 (Scenario.env 1) Scenario.busy
                            (StudentService.mkStudentCreate "Cy" "cy@example.org"
                               (Some "777")))) _).
    apply (bool_decide_unpack _). vm_compute. exact I.
Defined.

(** ** Students: update, delete and list *)

Lemma student_collected_patched upd s :
  foldl (λ s a, StudentService.assign a s) s (Spec.student_collected upd) =
    Spec.student_patched upd s.
Proof.
  unfold Spec.student_collected, Spec.student_patched, StudentService.append_field.
  destruct upd as [[?|] [?|] [?|]], s; reflexivity.
Qed.

Lemma student_collected_nil upd :
  bool_decide (Spec.student_collected upd = []) = Spec.student_no_fields upd.
Proof.
  unfold Spec.student_collected, Spec.student_no_fields, StudentService.append_field.
  destruct upd as [[?|] [?|] [?|]]; reflexivity.
Qed.

Lemma update_student_row_updated db id upd :
  StudentService.update_student_row (Spec.student_collected upd) id db =
    Spec.student_updated db id upd.
Proof.
  unfold StudentService.update_student_row, Spec.student_updated, set_students. f_equal.
  apply map_ext. intros s. rewrite student_collected_patched.
  destruct (Z.eqb_spec (s_student_id s) id); case_bool_decide; done.
Qed.

Lemma update_student_body id upd :
  StudentService.update_student id upd =
  try_except StudentService.module_globals
    (get_db_connection StudentService.module_globals;;
     existing ← execute (select (λ db, fetchone (students_by_id id db)));
     when_ (negb (truthy existing))
       (cursor_close;; conn_close;;
        raise (HTTPException HTTP_404_NOT_FOUND
                 ("Student with ID " +:+ pretty id +:+ " not found")));;
     when_ (bool_decide (Spec.student_collected upd = []))
       (raise (HTTPException HTTP_400_BAD_REQUEST "No fields to update"));;
     execute (update (StudentService.update_student_row (Spec.student_collected upd) id));;
     commit;;
     updated_student ← execute (select (λ db, fetchone (students_by_id id db)));
     cursor_close;; conn_close;;
     mret (StudentService.mkStudentResponse "Student updated successfully" updated_student))
    [("HTTPException", reraise); ("DatabaseError", database_error_500)].
Proof. reflexivity. Qed.

Lemma update_student_healthy env db id upd :
  healthy env →
  run (StudentService.update_student id upd) env db =
    match Spec.the_student db id with
    | None =>
        (Raise (HTTPException 404 ("Student with ID " +:+ pretty id +:+ " not found")), db)
    | Some _ =>
        if Spec.student_no_fields upd
        then (Raise (HTTPException 400 "No fields to update"), db)
        else
          (Return (StudentService.mkStudentResponse "Student updated successfully"
                     (Spec.the_student (Spec.student_updated db id upd) id)),
           Spec.student_updated db id upd)
    end.
Proof.
  intros [Hr Hf]. rewrite update_student_body. rewrite student_collected_nil.
  pose proof (update_student_row_updated db id upd) as Hrow.
  generalize dependent (Spec.student_collected upd). intros fields Hrow.
  unfold_monad. rewrite Hr. answered. rewrite student_lookup.
  destruct (Spec.the_student db id); answered; [|done].
  destruct (Spec.student_no_fields upd); answered; [done|].
  by rewrite Hrow, student_lookup.
Qed.

Lemma the_student_updated db id upd :
  Spec.the_student (Spec.student_updated db id upd) id =
    Spec.student_patched upd <$> Spec.the_student db id.
Proof.
  unfold Spec.the_student. cbn [students Spec.student_updated].
  rewrite (find_key_map s_student_id).
  - destruct (List.find _ (students db)) as [s|] eqn:Hs; [|done].
    apply find_some in Hs as [_ Hs]. cbn. by rewrite Hs.
  - intros s. by destruct (s_student_id s =? id).
Qed.

(** With a datastore that accepts the statements, [update_student] answers
    404 for a missing student and 400 when no field is supplied, and
    otherwise writes the supplied fields and keeps the others; the identity
    and the registration date are no fields of the update, and a phone that
    is set stays set, since an absent phone means "keep". *)
Theorem update_student_partial env db id upd :
  healthy env →
  run (StudentService.update_student id upd) env db =
    match Spec.the_student db id with
    | None =>
        (Raise (HTTPException 404 ("Student with ID " +:+ pretty id +:+ " not found")), db)
    | Some s =>
        if Spec.student_no_fields upd
        then (Raise (HTTPException 400 "No fields to update"), db)
        else
          (Return (StudentService.mkStudentResponse "Student updated successfully"
                     (Some (Spec.student_patched upd s))),
           Spec.student_updated db id upd)
    end ∧
  (∀ s, s_student_id (Spec.student_patched upd s) = s_student_id s ∧
        s_registration_date (Spec.student_patched upd s) = s_registration_date s ∧
        (is_Some (s_phone s) → is_Some (s_phone (Spec.student_patched upd s)))) ∧
  courses (Spec.student_updated db id upd) = courses db ∧
  enrollments (Spec.student_updated db id upd) = enrollments db ∧
  (∀ s, s ∈ students db → s_student_id s ≠ id → s ∈ students (Spec.student_updated db id upd)).
Proof.
  intros Hh. split_and!; try done.
  - rewrite update_student_healthy by done. rewrite the_student_updated.
    by destruct (Spec.the_student db id).
  - intros s. unfold Spec.student_patched. cbn. split_and!; try done.
    by destruct (StudentService.su_phone upd).
  - intros s Hs Hne. cbn [students Spec.student_updated].
    apply list_elem_of_In, in_map_iff. exists s.
    split; [|by apply list_elem_of_In]. by destruct (Z.eqb_spec (s_student_id s) id).
Qed.

Lemma update_student_partial_witness :
  let upd := StudentService.mkStudentUpdate None (Some "rob@example.org") None in
  run (StudentService.update_student 2 upd) (Scenario.env 1) Scenario.busy =
    (Return (StudentService.mkStudentResponse "Student updated successfully"
               (Some (mkStudent 2 "Bob" "rob@example.org" (Some "555") 0))),
     mkDB [Scenario.ann; mkStudent 2 "Bob" "rob@example.org" (Some "555") 0]
       (courses Scenario.busy) (enrollments Scenario.busy) (admins Scenario.busy)) ∧
  run (StudentService.update_student 2 (StudentService.mkStudentUpdate None None None))
    (Scenario.env 1) Scenario.busy =
    (Raise (HTTPException 400 "No fields to update"), Scenario.busy) ∧
  run (StudentService.update_student 5 upd) (Scenario.env 1) Scenario.busy =
    (Raise (HTTPException 404 "Student with ID 5 not found"), Scenario.busy).
Proof.
  intros upd. split_and!.
  - exact (proj1 (update_student_partial (Scenario.env 1) Scenario.busy 2 upd
                    (conj eq_refl eq_refl))).
  - exact (proj1 (update_student_partial (Scenario.env 1) Scenario.busy 2
                    (StudentService.mkStudentUpdate None None None) (conj eq_refl eq_refl))).
  - exact (proj1 (update_student_partial (Scenario.env 1) Scenario.busy 5 upd
                    (conj eq_refl eq_refl))).
Defined.

Lemma delete_student_healthy env db id :
  healthy env →
  run (StudentService.delete_student id) env db =
    match Spec.the_student db id with
    | None =>
        (Raise (HTTPException 404 ("Student with ID " +:+ pretty id +:+ " not found")), db)
    | Some _ =>
        (Return ("Student " +:+ pretty id +:+ " deleted successfully"),
         StudentService.delete_student_row id db)
    end.
Proof.
  intros [Hr Hf]. unfold StudentService.delete_student. unfold_monad. rewrite Hr. answered.
  rewrite student_lookup. destruct (Spec.the_student db id); answered; done.
Qed.

Lemma the_student_deleted_row db id :
  Spec.the_student (StudentService.delete_student_row id db) id = None.
Proof.
  rewrite <- student_lookup. unfold students_by_id.
  cbn [students StudentService.delete_student_row set_students set_enrollments].
  rewrite filter_none; [done|]. by intros s [Hne _]%list_elem_of_filter.
Qed.

(** [delete_student] answers 404 for a missing student and commits nothing;
    for an existing one it removes the student, after which [get_student]
    answers 404, and with it the student's enrollments and no other row.  It
    writes no course: every course row, its [current_enrollment] included, is
    as before. *)
Theorem delete_student_effect env env' db id :
  healthy env → healthy env' →
  run (StudentService.delete_student id) env db =
    match Spec.the_student db id with
    | None =>
        (Raise (HTTPException 404 ("Student with ID " +:+ pretty id +:+ " not found")), db)
    | Some _ =>
        (Return ("Student " +:+ pretty id +:+ " deleted successfully"),
         StudentService.delete_student_row id db)
    end ∧
  run (StudentService.get_student id) env' (StudentService.delete_student_row id db) =
    (Raise (HTTPException 404 ("Student with ID " +:+ pretty id +:+ " not found")),
     StudentService.delete_student_row id db) ∧
  (∀ s, s ∈ students (StudentService.delete_student_row id db) ↔
        s ∈ students db ∧ s_student_id s ≠ id) ∧
  (∀ e, e ∈ enrollments (StudentService.delete_student_row id db) ↔
        e ∈ enrollments db ∧ e_student_id e ≠ id) ∧
  courses (StudentService.delete_student_row id db) = courses db.
Proof.
  intros Hh Hh'. split_and!.
  - by apply delete_student_healthy.
  - rewrite get_student_healthy by done. by rewrite the_student_deleted_row.
  - intros s. cbn [students StudentService.delete_student_row set_students set_enrollments].
    rewrite list_elem_of_filter. tauto.
  - intros e.
    cbn [enrollments StudentService.delete_student_row set_students set_enrollments].
    rewrite list_elem_of_filter. tauto.
  - done.
Qed.

(** In the sample with three enrollments, deleting Ann takes her two
    enrollments with her; the two courses keep their counters 2 and 1. *)
Lemma delete_student_effect_witness :
  run (StudentService.delete_student 1) (Scenario.env 1) Scenario.busy =
    (Return "Student 1 deleted successfully",
     mkDB [Scenario.bob] [Scenario.algebra; Scenario.logic]
       [mkEnrollment 9 2 1 920 None "enrolled"] [mkAdmin "root" "$2b$12$hash"]) ∧
  run (StudentService.delete_student 5) (Scenario.env 1) Scenario.busy =
    (Raise (HTTPException 404 "Student with ID 5 not found"), Scenario.busy).
Proof.
  split.
  - exact (proj1 (delete_student_effect (Scenario.env 1) (Scenario.env 2) Scenario.busy 1
                    (conj eq_refl eq_refl) (conj eq_refl eq_refl))).
  - exact (proj1 (delete_student_effect (Scenario.env 1) (Scenario.env 2) Scenario.busy 5
                    (conj eq_refl eq_refl) (conj eq_refl eq_refl))).
Defined.

(** Every run of [get_students], whatever the datastore does. *)
Lemma get_students_run env db :
  (run StudentService.get_students env db).2 = db ∧
  Spec.raises_only [500] (run StudentService.get_students env db).1 ∧
  (∀ l, (run StudentService.get_students env db).1 = Return l →
        l = order_by_desc s_registration_date (students db)).
Proof.
  unfold StudentService.get_students, Spec.raises_only. unfold_monad.
  destruct (reachable env); reduce;
    [|split_and!; [done| |done]; eexists _, _; split; [done|set_solver]].
  case_fault; split_and!; try done;
    try (eexists _, _; split; [done|set_solver]).
  by intros l [= <-].
Qed.

(** The list of all students: whatever the datastore does, [get_students]
    commits nothing and raises nothing but a 500; a list it returns holds
    exactly the students of the table, latest registration first. *)
Theorem get_students_listing env db :
  (run StudentService.get_students env db).2 = db ∧
  Spec.raises_only [500] (run StudentService.get_students env db).1 ∧
  (∀ l, (run StudentService.get_students env db).1 = Return l →
        Spec.descending s_registration_date l ∧ l ≡ₚ students db) ∧
  (healthy env → ∃ l, (run StudentService.get_students env db).1 = Return l).
Proof.
  destruct (get_students_run env db) as (Hdb & Hraise & Hret).
  split_and!; [done|done| |].
  - intros l ->%Hret. split; [apply order_by_desc_descending|].
    unfold order_by_desc. apply sort_by_perm.
  - intros [Hr Hf]. unfold StudentService.get_students. unfold_monad. rewrite Hr.
    answered. eauto.
Qed.

Lemma get_students_listing_witness :
  let cy := mkStudent 3 "Cy" "cy@example.org" (Some "777") 1000 in
  let di := mkStudent 4 "Di" "di@example.org" None 500 in
  let db := mkDB [Scenario.ann; cy; di] [] [] [] in
  (run StudentService.get_students (Scenario.env 1) db).1 =
    Return [cy; di; Scenario.ann] ∧
  Spec.descending s_registration_date [cy; di; Scenario.ann] ∧
  [cy; di; Scenario.ann] ≡ₚ [Scenario.ann; cy; di].
Proof.
  intros cy di db. split; [reflexivity|].
  exact (proj1 (proj2 (proj2 (get_students_listing (Scenario.env 1) db)))
           [cy; di; Scenario.ann] eq_refl).
Defined.
